(** * Library book inventory: the Mongoose schema, the demo script and the REST routes

    A shallow embedding of [library.js] (the standalone script) and of
    [server.js] (the Express routes), together with the part of Mongoose
    both files rely on, and the properties of the specification stated
    over it.

    Modelling conventions.
    - A JavaScript number is an IEEE 754 binary64 value, kept as a
      [spec_float] of the standard library with its operations at precision
      53 and maximal exponent 1024: sums are rounded to nearest even,
      [NaN], the infinities and the two zeros are values.  Statements that
      quantify over numbers hold for every [spec_float], in particular for
      those that represent a double.
    - A string is kept as the bytes of its UTF-8 encoding.  [Js.trim]
      removes the white space and the line terminators of ECMAScript
      (the ASCII ones, U+00A0, U+1680, U+2000 to U+200A, U+2028, U+2029,
      U+202F, U+205F, U+3000 and U+FEFF), recognised by their encodings.
    - A request body is modelled at the types the schema declares: a String
      path holds a string, [null] or nothing, a Number path a number, [null]
      or nothing.  JSON has no [NaN]; a body that holds one is treated the
      way Mongoose treats it (the cast fails).  Values of another JSON kind
      (which Mongoose would cast or reject), a client-supplied [_id], and
      update operators such as [$inc] (which [PUT] passes on unfiltered
      and update validators do not check) are outside the model: "every
      body" below means every body of this shape.
    - A stored document is modelled by its identifier and its five schema
      paths.  The [createdAt] and [updatedAt] paths that the [timestamps]
      option maintains are not part of it, so "unchanged" below is about
      identifiers and schema paths; console output is not modelled.
    - The collection is a list of documents in insertion order, with the
      identifier source of the driver and a flag that tells whether the
      store can be reached. *)

From Stdlib Require Import ZArith NArith Bool List String Ascii Lia.
From Stdlib Require Import Floats.SpecFloat.
Import ListNotations.

Local Open Scope Z_scope.

(* ================================================================== *)
(** ** JavaScript built-ins used by the two files *)

Module Js.

(** *** Numbers *)

Definition Number : Type := spec_float.

Definition prec : Z := 53.
Definition emax : Z := 1024.

Definition NaN : Number := S754_nan.

(** The number [+0]. *)
Definition zero : Number := S754_zero false.

(** The double nearest to [m * 2 ^ e], and the double nearest to an
    integer: the value of a numeric literal. *)
Definition dyadic (m e : Z) : Number := binary_normalize prec emax m e false.

Definition ofZ (z : Z) : Number := dyadic z 0.

(** [a + b], [- a], [a < b], [a <= b] and [a == b] on numbers. *)
Definition add (a b : Number) : Number := SFadd prec emax a b.

Definition opp (a : Number) : Number := SFopp a.

Definition ltb (a b : Number) : bool := SFltb a b.

Definition leb (a b : Number) : bool := SFleb a b.

Definition eqb (a b : Number) : bool := SFeqb a b.

Definition isNaN (a : Number) : bool :=
  match a with
  | S754_nan => true
  | _ => false
  end.

(** [Number.isFinite]. *)
Definition isFinite (a : Number) : bool :=
  match a with
  | S754_zero _ => true
  | S754_finite _ _ _ => true
  | _ => false
  end.

(** [Number.isInteger]: a finite number [m * 2 ^ e] without fractional
    part. *)
Definition isInteger (a : Number) : bool :=
  match a with
  | S754_zero _ => true
  | S754_finite _ m e => (0 <=? e) || (Z.pos m mod 2 ^ (- e) =? 0)
  | _ => false
  end.

(** A property of a JSON object: missing ([undefined]), [null], or present. *)
Inductive Field (A : Type) := Absent | Null | Val (a : A).
Arguments Absent {A}.
Arguments Null {A}.
Arguments Val {A} a.

(** [ToNumber] of a property used as the right operand of [+]. *)
Definition toNumber (f : Field Number) : Number :=
  match f with
  | Absent => NaN
  | Null => zero
  | Val q => q
  end.

(** *** Strings *)

Definition code (c : ascii) : Z := Z.of_N (N_of_ascii c).

(** White space and line terminators, by the bytes of their encoding:
    one byte (U+0009 to U+000D, U+0020), two bytes (U+00A0), three bytes
    (U+1680; U+2000 to U+200A, U+2028, U+2029, U+202F; U+205F; U+3000;
    U+FEFF). *)
Definition isWhiteSpace1 (a : Z) : bool :=
  ((9 <=? a) && (a <=? 13)) || (a =? 32).

Definition isWhiteSpace2 (a b : Z) : bool :=
  (a =? 194) && (b =? 160).

Definition isWhiteSpace3 (a b c : Z) : bool :=
  ((a =? 225) && (b =? 154) && (c =? 128))
  || ((a =? 226) && (b =? 128)
      && (((128 <=? c) && (c <=? 138)) || (c =? 168) || (c =? 169) || (c =? 175)))
  || ((a =? 226) && (b =? 129) && (c =? 159))
  || ((a =? 227) && (b =? 128) && (c =? 128))
  || ((a =? 239) && (b =? 187) && (c =? 191)).

(** The string without the white space it starts with; with [back], the
    string is read from its end, so that the bytes of a character come
    in reverse. *)
Fixpoint dropWhiteSpace (back : bool) (s : string) : string :=
  match s with
  | EmptyString => s
  | String a s1 =>
      if isWhiteSpace1 (code a) then dropWhiteSpace back s1
      else
        match s1 with
        | EmptyString => s
        | String b s2 =>
            if (if back then isWhiteSpace2 (code b) (code a)
                else isWhiteSpace2 (code a) (code b))
            then dropWhiteSpace back s2
            else
              match s2 with
              | EmptyString => s
              | String c s3 =>
                  if (if back then isWhiteSpace3 (code c) (code b) (code a)
                      else isWhiteSpace3 (code a) (code b) (code c))
                  then dropWhiteSpace back s3
                  else s
              end
        end
  end.

Definition reverse (s : string) : string :=
  string_of_list_ascii (List.rev (list_ascii_of_string s)).

Definition trimStart (s : string) : string := dropWhiteSpace false s.

Definition trimEnd (s : string) : string :=
  reverse (dropWhiteSpace true (reverse s)).

(** [String.prototype.trim]. *)
Definition trim (s : string) : string := trimEnd (trimStart s).

(** The value of a digit in radix up to 36. *)
Definition digitValue (c : ascii) : option Z :=
  let n := code c in
  if (48 <=? n) && (n <=? 57) then Some (n - 48)
  else if (97 <=? n) && (n <=? 122) then Some (n - 87)
  else if (65 <=? n) && (n <=? 90) then Some (n - 55)
  else None.

(** The longest prefix of [s] made of digits of [radix], read as a
    number; [acc] is the value read so far, [None] before any digit. *)
Fixpoint readDigits (radix : Z) (s : string) (acc : option Z) : option Z :=
  match s with
  | EmptyString => acc
  | String c r =>
      match digitValue c with
      | Some d =>
          if d <? radix
          then readDigits radix r
                 (Some (match acc with Some a => a * radix + d | None => d end))
          else acc
      | None => acc
      end
  end.

(** [parseInt(s)] without a radix argument: leading white space, a sign,
    a [0x] prefix, then the digits; the integer read is rounded to a
    number. *)
Definition parseInt (s : string) : Number :=
  let s1 := trimStart s in
  let '(negative, s2) :=
    match s1 with
    | String "-"%char r => (true, r)
    | String "+"%char r => (false, r)
    | _ => (false, s1)
    end in
  let '(radix, s3) :=
    match s2 with
    | String "0"%char (String "x"%char r) => (16, r)
    | String "0"%char (String "X"%char r) => (16, r)
    | _ => (10, s2)
    end in
  match readDigits radix s3 None with
  | Some v => if negative : bool then opp (ofZ v) else ofZ v
  | None => NaN
  end.

End Js.

(* ================================================================== *)
(** ** The part of Mongoose the two files use *)

Module Mongoose.

Local Open Scope string_scope.

(** *** Identifiers *)

(** An [ObjectId] is twelve bytes, kept as their value. *)
Definition ObjectId := N.

Definition isHexDigit (c : ascii) : bool :=
  match Js.digitValue c with
  | Some d => (d <? 16)%Z
  | None => false
  end.

Fixpoint allHex (s : string) : bool :=
  match s with
  | EmptyString => true
  | String c r => isHexDigit c && allHex r
  end.

Fixpoint hexValue (s : string) (acc : N) : N :=
  match s with
  | EmptyString => acc
  | String c r =>
      match Js.digitValue c with
      | Some d => hexValue r (acc * 16 + Z.to_N d)%N
      | None => hexValue r acc
      end
  end.

(** Casting a string to an [ObjectId]: exactly 24 hexadecimal digits. *)
Definition castObjectId (s : string) : option ObjectId :=
  if (String.length s =? 24)%nat && allHex s
  then Some (hexValue s 0%N)
  else None.

(** *** Documents *)

(** A document of the [books] collection, as every write path of the two
    files stores it: the five schema paths are all [required]. *)
Record Book := {
  _id : ObjectId;
  title : string;
  author : string;
  category : string;
  publishedYear : Js.Number;
  availableCopies : Js.Number
}.

(** A path of a document in memory: not set ([undefined] or [null]), set
    to a value of the path's type, or set to something the cast refused. *)
Inductive Slot (A : Type) := Empty | Holds (a : A) | CastFailure.
Arguments Empty {A}.
Arguments Holds {A} a.
Arguments CastFailure {A}.

(** A document in memory, before validation. *)
Record Document := {
  doc_id : ObjectId;
  doc_title : Slot string;
  doc_author : Slot string;
  doc_category : Slot string;
  doc_publishedYear : Slot Js.Number;
  doc_availableCopies : Slot Js.Number
}.

(** The five schema fields of a request body. *)
Record Body := {
  body_title : Js.Field string;
  body_author : Js.Field string;
  body_category : Js.Field string;
  body_publishedYear : Js.Field Js.Number;
  body_availableCopies : Js.Field Js.Number
}.

(** *** Errors *)

Inductive ValidatorKind :=
  Required | Enum | MinLength | Min | Max | UserDefined | CastFailed.

Record ValidatorError := { path : string; kind : ValidatorKind }.

(** A message built by a template literal, kept as its parts. *)
Inductive Part := Lit (s : string) | Value (q : Js.Number) | Count (n : nat).
Definition Message := list Part.

Inductive Exception :=
| ValidationError (errors : list ValidatorError)
| CastError (path : string)
| MongooseError                     (* the store cannot be reached *)
| Error (message : Message).        (* [new Error(message)] *)

(** *** Schema types *)

(** Options of a String path; [required] is set on every path of both
    schemas and is part of [validateString] and [validateNumber]. *)
Record StringPath := {
  trim : bool;
  enum : option (list string);
  minlength : option nat
}.

Record NumberPath := {
  min : option Js.Number;
  max : option Js.Number;
  default : option Js.Number;
  validate : option (Js.Number -> bool)
}.

Record Schema := {
  path_title : StringPath;
  path_author : StringPath;
  path_category : StringPath;
  path_publishedYear : NumberPath;
  path_availableCopies : NumberPath
}.

(** The setters of a String path. *)
Definition applySetters (p : StringPath) (s : string) : string :=
  if trim p then Js.trim s else s.

Definition setString (p : StringPath) (v : Js.Field string) : Slot string :=
  match v with
  | Js.Val s => Holds (applySetters p s)
  | _ => Empty
  end.

(** Assigning a number to a Number path: the cast refuses [NaN]. *)
Definition setNumber (v : Js.Number) : Slot Js.Number :=
  if Js.isNaN v then CastFailure else Holds v.

(** A Number path of a new document: the default fills a missing property. *)
Definition initNumber (p : NumberPath) (v : Js.Field Js.Number) : Slot Js.Number :=
  match v with
  | Js.Absent => match default p with Some d => Holds d | None => Empty end
  | Js.Null => Empty
  | Js.Val q => setNumber q
  end.

Definition inEnum (values : list string) (s : string) : bool :=
  existsb (String.eqb s) values.

(** The validators of a String path, in order; the first failure is the
    path's error. *)
Definition validateString (p : StringPath) (name : string) (v : Slot string)
  : ValidatorError + string :=
  match v with
  | CastFailure => inl {| path := name; kind := CastFailed |}
  | Empty => inl {| path := name; kind := Required |}
  | Holds s =>
      if (String.length s =? 0)%nat
      then inl {| path := name; kind := Required |}
      else if match enum p with Some values => negb (inEnum values s) | None => false end
      then inl {| path := name; kind := Enum |}
      else if match minlength p with Some n => (String.length s <? n)%nat | None => false end
      then inl {| path := name; kind := MinLength |}
      else inr s
  end.

(** The validators of a Number path, in order: [min] passes when
    [value >= min], [max] when [value <= max]. *)
Definition validateNumber (p : NumberPath) (name : string) (v : Slot Js.Number)
  : ValidatorError + Js.Number :=
  match v with
  | CastFailure => inl {| path := name; kind := CastFailed |}
  | Empty => inl {| path := name; kind := Required |}
  | Holds q =>
      if match min p with Some m => negb (Js.leb m q) | None => false end
      then inl {| path := name; kind := Min |}
      else if match max p with Some m => negb (Js.leb q m) | None => false end
      then inl {| path := name; kind := Max |}
      else if match validate p with Some f => negb (f q) | None => false end
      then inl {| path := name; kind := UserDefined |}
      else inr q
  end.

Definition errorsOf {A : Type} (r : ValidatorError + A) : list ValidatorError :=
  match r with
  | inl e => [e]
  | inr _ => []
  end.

(** Document validation: the errors of all paths, or the valid document. *)
Definition validateDocument (s : Schema) (d : Document)
  : list ValidatorError + Book :=
  let rt := validateString (path_title s) "title" (doc_title d) in
  let ra := validateString (path_author s) "author" (doc_author d) in
  let rc := validateString (path_category s) "category" (doc_category d) in
  let ry := validateNumber (path_publishedYear s) "publishedYear" (doc_publishedYear d) in
  let rn := validateNumber (path_availableCopies s) "availableCopies" (doc_availableCopies d) in
  match rt, ra, rc, ry, rn with
  | inr t, inr a, inr c, inr y, inr n =>
      inr {| _id := doc_id d; title := t; author := a; category := c;
             publishedYear := y; availableCopies := n |}
  | _, _, _, _, _ =>
      inl (errorsOf rt ++ errorsOf ra ++ errorsOf rc ++ errorsOf ry ++ errorsOf rn)%list
  end.

(** [new Book(body)] with the identifier the driver generated. *)
Definition newDocument (s : Schema) (id : ObjectId) (b : Body) : Document :=
  {| doc_id := id;
     doc_title := setString (path_title s) (body_title b);
     doc_author := setString (path_author s) (body_author b);
     doc_category := setString (path_category s) (body_category b);
     doc_publishedYear := initNumber (path_publishedYear s) (body_publishedYear b);
     doc_availableCopies := initNumber (path_availableCopies s) (body_availableCopies b) |}.

(** A document read from the collection. *)
Definition hydrate (b : Book) : Document :=
  {| doc_id := _id b;
     doc_title := Holds (title b);
     doc_author := Holds (author b);
     doc_category := Holds (category b);
     doc_publishedYear := Holds (publishedYear b);
     doc_availableCopies := Holds (availableCopies b) |}.

(** [book.availableCopies = v] and [book.category = v] on a loaded document. *)
Definition setAvailableCopies (b : Book) (v : Js.Number) : Document :=
  {| doc_id := _id b;
     doc_title := Holds (title b);
     doc_author := Holds (author b);
     doc_category := Holds (category b);
     doc_publishedYear := Holds (publishedYear b);
     doc_availableCopies := setNumber v |}.

Definition setCategory (s : Schema) (b : Book) (v : string) : Document :=
  {| doc_id := _id b;
     doc_title := Holds (title b);
     doc_author := Holds (author b);
     doc_category := Holds (applySetters (path_category s) v);
     doc_publishedYear := Holds (publishedYear b);
     doc_availableCopies := Holds (availableCopies b) |}.

(** *** The collection and the calls against it *)

(** The database as the process sees it: whether the store can be
    reached, the [books] collection in insertion order, and the next
    identifier the driver generates. *)
Record Db := {
  connected : bool;
  books : list Book;
  nextId : ObjectId
}.

(** A computation that reads and writes the database and may throw. *)
Definition M (A : Type) : Type := Db -> Db * (Exception + A).

Definition ret {A : Type} (a : A) : M A := fun db => (db, inr a).

Definition throw {A : Type} (e : Exception) : M A := fun db => (db, inl e).

Definition bind {A B : Type} (m : M A) (k : A -> M B) : M B :=
  fun db =>
    match m db with
    | (db', inl e) => (db', inl e)
    | (db', inr a) => k a db'
    end.

(** [try { m } catch (error) { h error }]. *)
Definition tryCatch {A : Type} (m : M A) (h : Exception -> M A) : M A :=
  fun db =>
    match m db with
    | (db', inl e) => h e db'
    | (db', inr a) => (db', inr a)
    end.

Definition lift {A : Type} (r : Exception + A) : M A := fun db => (db, r).

Notation "x <- m ;; k" := (bind m (fun x => k))
  (at level 61, m at next level, right associativity).

Definition setBooks (l : list Book) (db : Db) : Db :=
  {| connected := connected db; books := l; nextId := nextId db |}.

(** One command sent to the store; it fails when the store cannot be
    reached. *)
Definition command {A : Type} (f : list Book -> list Book * A) : M A :=
  fun db =>
    if connected db
    then let '(l, a) := f (books db) in (setBooks l db, inr a)
    else (db, inl MongooseError).

Definition generateId : M ObjectId :=
  fun db =>
    ({| connected := connected db; books := books db;
        nextId := N.succ (nextId db) |}, inr (nextId db)).

(** The query filters the two files write. *)
Inductive Filter :=
| Everything                       (* {} *)
| WithTitle (t : string)           (* { title } *)
| WithCategory (c : string)        (* { category } *)
| YearGt (y : Js.Number)           (* { publishedYear: { $gt: y } } *)
| WithId (id : string).            (* { _id: id } *)

(** Casting a filter against the schema: the setters of a String path
    run on the value, a [NaN] or a malformed identifier is refused. *)
Definition castFilter (s : Schema) (f : Filter) : Exception + (Book -> bool) :=
  match f with
  | Everything => inr (fun _ => true)
  | WithTitle t =>
      inr (fun b => String.eqb (title b) (applySetters (path_title s) t))
  | WithCategory c =>
      inr (fun b => String.eqb (category b) (applySetters (path_category s) c))
  | YearGt y =>
      if Js.isNaN y then inl (CastError "publishedYear")
      else inr (fun b => Js.ltb y (publishedYear b))
  | WithId id =>
      match castObjectId id with
      | Some o => inr (fun b => N.eqb (_id b) o)
      | None => inl (CastError "_id")
      end
  end.

Fixpoint removeFirst (p : Book -> bool) (l : list Book) : list Book :=
  match l with
  | [] => []
  | b :: r => if p b then r else b :: removeFirst p r
  end.

Fixpoint replaceFirst (p : Book -> bool) (b' : Book) (l : list Book) : list Book :=
  match l with
  | [] => []
  | b :: r => if p b then b' :: r else b :: replaceFirst p b' r
  end.

Definition find (s : Schema) (f : Filter) : M (list Book) :=
  p <- lift (castFilter s f) ;;
  command (fun l => (l, filter p l)).

Definition findOne (s : Schema) (f : Filter) : M (option Book) :=
  p <- lift (castFilter s f) ;;
  command (fun l => (l, List.find p l)).

Definition findById (s : Schema) (id : string) : M (option Book) :=
  findOne s (WithId id).

(** [deleteOne] and [deleteMany] return the number of documents removed. *)
Definition deleteOne (s : Schema) (f : Filter) : M nat :=
  p <- lift (castFilter s f) ;;
  command (fun l => (removeFirst p l, if existsb p l then 1%nat else 0%nat)).

Definition deleteMany (s : Schema) (f : Filter) : M nat :=
  p <- lift (castFilter s f) ;;
  command (fun l => (filter (fun b => negb (p b)) l, List.length (filter p l))).

Definition findByIdAndDelete (s : Schema) (id : string) : M (option Book) :=
  p <- lift (castFilter s (WithId id)) ;;
  command (fun l => (removeFirst p l, List.find p l)).

(** [new Book(body)]. *)
Definition new (s : Schema) (body : Body) : M Document :=
  id <- generateId ;;
  ret (newDocument s id body).

(** [doc.save()]: validation of the whole document, then an insert when
    the document is new and an update of the stored one otherwise. *)
Definition save (s : Schema) (isNew : bool) (d : Document) : M Book :=
  match validateDocument s d with
  | inl errors => throw (ValidationError errors)
  | inr b =>
      command (fun l =>
        (if isNew then (l ++ [b])%list
         else replaceFirst (fun x => N.eqb (_id x) (_id b)) b l, b))
  end.

Fixpoint newDocuments (s : Schema) (bodies : list Body) : M (list Document) :=
  match bodies with
  | [] => ret []
  | b :: r =>
      d <- new s b ;;
      ds <- newDocuments s r ;;
      ret (d :: ds)
  end.

Fixpoint validateAll (s : Schema) (ds : list Document) : Exception + list Book :=
  match ds with
  | [] => inr []
  | d :: r =>
      match validateDocument s d with
      | inl errors => inl (ValidationError errors)
      | inr b =>
          match validateAll s r with
          | inl e => inl e
          | inr bs => inr (b :: bs)
          end
      end
  end.

(** [insertMany], ordered: nothing is inserted unless every document
    passes validation. *)
Definition insertMany (s : Schema) (bodies : list Body) : M (list Book) :=
  ds <- newDocuments s bodies ;;
  bs <- lift (validateAll s ds) ;;
  command (fun l => ((l ++ bs)%list, bs)).

(** Casting an update: a Number path refuses [NaN] with a cast error. *)
Definition castUpdateNumber (name : string) (v : Js.Field Js.Number)
  : Exception + unit :=
  match v with
  | Js.Val q => if Js.isNaN q then inl (CastError name) else inr tt
  | _ => inr tt
  end.

Definition castUpdate (b : Body) : Exception + unit :=
  match castUpdateNumber "publishedYear" (body_publishedYear b) with
  | inl e => inl e
  | inr _ => castUpdateNumber "availableCopies" (body_availableCopies b)
  end.

(** The [$set] of an update after casting and update validation: the
    new value of every path the body mentions. *)
Record Update := {
  set_title : option string;
  set_author : option string;
  set_category : option string;
  set_publishedYear : option Js.Number;
  set_availableCopies : option Js.Number
}.

(** Update validators run on the paths of the update only. *)
Definition validateUpdateString (p : StringPath) (name : string)
    (v : Js.Field string) : ValidatorError + option string :=
  match v with
  | Js.Absent => inr None
  | _ =>
      match validateString p name (setString p v) with
      | inl e => inl e
      | inr s => inr (Some s)
      end
  end.

Definition validateUpdateNumber (p : NumberPath) (name : string)
    (v : Js.Field Js.Number) : ValidatorError + option Js.Number :=
  match v with
  | Js.Absent => inr None
  | Js.Null =>
      match validateNumber p name Empty with
      | inl e => inl e
      | inr q => inr (Some q)
      end
  | Js.Val q =>
      match validateNumber p name (Holds q) with
      | inl e => inl e
      | inr q' => inr (Some q')
      end
  end.

Definition validateUpdate (s : Schema) (b : Body) : list ValidatorError + Update :=
  let rt := validateUpdateString (path_title s) "title" (body_title b) in
  let ra := validateUpdateString (path_author s) "author" (body_author b) in
  let rc := validateUpdateString (path_category s) "category" (body_category b) in
  let ry := validateUpdateNumber (path_publishedYear s) "publishedYear" (body_publishedYear b) in
  let rn := validateUpdateNumber (path_availableCopies s) "availableCopies" (body_availableCopies b) in
  match rt, ra, rc, ry, rn with
  | inr t, inr a, inr c, inr y, inr n =>
      inr {| set_title := t; set_author := a; set_category := c;
             set_publishedYear := y; set_availableCopies := n |}
  | _, _, _, _, _ =>
      inl (errorsOf rt ++ errorsOf ra ++ errorsOf rc ++ errorsOf ry ++ errorsOf rn)%list
  end.

Definition orElse {A : Type} (o : option A) (a : A) : A :=
  match o with
  | Some x => x
  | None => a
  end.

Definition applyUpdate (u : Update) (b : Book) : Book :=
  {| _id := _id b;
     title := orElse (set_title u) (title b);
     author := orElse (set_author u) (author b);
     category := orElse (set_category u) (category b);
     publishedYear := orElse (set_publishedYear u) (publishedYear b);
     availableCopies := orElse (set_availableCopies u) (availableCopies b) |}.

(** [findByIdAndUpdate(id, body, { new: true, runValidators: true })]:
    the filter and the update are cast, the update is validated, and only
    then is the command sent; the result is the updated document, or
    [null] when no document has the identifier. *)
Definition findByIdAndUpdate (s : Schema) (id : string) (body : Body)
  : M (option Book) :=
  p <- lift (castFilter s (WithId id)) ;;
  _ <- lift (castUpdate body) ;;
  u <- match validateUpdate s body with
       | inl errors => throw (ValidationError errors)
       | inr u => ret u
       end ;;
  command (fun l =>
    match List.find p l with
    | None => (l, None)
    | Some b => let b' := applyUpdate u b in (replaceFirst p b' l, Some b')
    end).

(** [mongoose.connection.close()]. *)
Definition close : M unit :=
  fun db =>
    ({| connected := false; books := books db; nextId := nextId db |}, inr tt).

End Mongoose.

(* ================================================================== *)
(** ** The schema and the sample data shared by the two files *)

Module Sample.

Import Mongoose.
Local Open Scope string_scope.

(** The values of the [enum] option of [category]. *)
Definition categories : list string :=
  ["Fiction"; "Non-Fiction"; "Science"; "Technology"; "History";
   "Biography"; "Self-Help"].

Definition book (t a c : string) (y n : Z) : Body :=
  {| body_title := Js.Val t;
     body_author := Js.Val a;
     body_category := Js.Val c;
     body_publishedYear := Js.Val (Js.ofZ y);
     body_availableCopies := Js.Val (Js.ofZ n) |}.

(** The eight books both files insert. *)
Definition books : list Body :=
  [ book "The Great Gatsby" "F. Scott Fitzgerald" "Fiction" 1925 5;
    book "To Kill a Mockingbird" "Harper Lee" "Fiction" 1960 3;
    book "Sapiens" "Yuval Noah Harari" "History" 2011 7;
    book "Educated" "Tara Westover" "Biography" 2018 4;
    book "The Lean Startup" "Eric Ries" "Technology" 2011 6;
    book "Atomic Habits" "James Clear" "Self-Help" 2018 8;
    book "A Brief History of Time" "Stephen Hawking" "Science" 1988 2;
    book "The Midnight Library" "Matt Haig" "Fiction" 2020 10 ].

End Sample.

(* ================================================================== *)
(** ** library.js: the standalone script *)

Module Library.

Import Mongoose.
Local Open Scope string_scope.

Section Process.

(** The number [new Date().getFullYear()] returns when the schema is built. *)
Variable currentYear : Js.Number.

Definition bookSchema : Schema :=
  {| path_title :=
       {| trim := true; enum := None; minlength := Some 1%nat |};
     path_author :=
       {| trim := true; enum := None; minlength := Some 1%nat |};
     path_category :=
       {| trim := true; enum := Some Sample.categories; minlength := None |};
     path_publishedYear :=
       {| min := Some (Js.ofZ 1000); max := Some currentYear;
          default := None; validate := Some Js.isInteger |};
     path_availableCopies :=
       {| min := Some Js.zero; max := None;
          default := Some (Js.ofZ 1); validate := Some Js.isInteger |} |}.

(** Every function of the script logs and rethrows what it catches. *)
Definition rethrow {A : Type} (m : M A) : M A :=
  tryCatch m (fun error => throw error).

Definition insertBooks : M (list Book) :=
  rethrow (
    _ <- deleteMany bookSchema Everything ;;
    result <- insertMany bookSchema Sample.books ;;
    ret result).

Definition getAllBooks : M (list Book) :=
  rethrow (find bookSchema Everything).

Definition getBooksByCategory (category : string) : M (list Book) :=
  rethrow (find bookSchema (WithCategory category)).

Definition getBooksAfter2015 : M (list Book) :=
  rethrow (find bookSchema (YearGt (Js.ofZ 2015))).

Definition updateCopies (title : string) (change : Js.Number) : M Book :=
  rethrow (
    book <- findOne bookSchema (WithTitle title) ;;
    match book with
    | None => throw (Error [Lit "Book not found: "; Lit title])
    | Some book =>
        let newCopies := Js.add (availableCopies book) change in
        if Js.ltb newCopies Js.zero
        then throw (Error
               [Lit "Invalid update: Cannot have negative copies. Current: ";
                Value (availableCopies book); Lit ", Change: "; Value change])
        else save bookSchema false (setAvailableCopies book newCopies)
    end).

Definition changeCategory (title newCategory : string) : M Book :=
  rethrow (
    book <- findOne bookSchema (WithTitle title) ;;
    match book with
    | None => throw (Error [Lit "Book not found: "; Lit title])
    | Some book => save bookSchema false (setCategory bookSchema book newCategory)
    end).

(** The double quote character of the message below. *)
Definition quote : string := String (ascii_of_nat 34) EmptyString.

(** The value [{ deleted: true, book }]. *)
Record Deleted := { deleted : bool; book : Book }.

Definition deleteBookIfNoCopies (title : string) : M Deleted :=
  rethrow (
    book <- findOne bookSchema (WithTitle title) ;;
    match book with
    | None => throw (Error [Lit "Book not found: "; Lit title])
    | Some book =>
        if Js.ltb Js.zero (availableCopies book)
        then throw (Error
               [Lit "Invalid delete: Book "; Lit quote; Lit title; Lit quote;
                Lit " still has ";
                Value (availableCopies book); Lit " copies available"])
        else
          _ <- deleteOne bookSchema (WithTitle title) ;;
          ret {| deleted := true; book := book |}
    end).

(** [try { m } catch (error) { console.log(...) }] of the demonstration. *)
Definition attempt {A : Type} (m : M A) : M unit :=
  tryCatch (_ <- m ;; ret tt) (fun _ => ret tt).

Definition runDemo : M unit :=
  _ <- tryCatch (
         _ <- insertBooks ;;
         _ <- getAllBooks ;;
         _ <- getBooksByCategory "Fiction" ;;
         _ <- getBooksAfter2015 ;;
         _ <- updateCopies "Atomic Habits" (Js.ofZ 2) ;;
         _ <- updateCopies "The Great Gatsby" (Js.ofZ (-1)) ;;
         _ <- changeCategory "A Brief History of Time" "Non-Fiction" ;;
         _ <- attempt (updateCopies "Atomic Habits" (Js.ofZ (-100))) ;;
         _ <- attempt (updateCopies "Non Existent Book" (Js.ofZ 5)) ;;
         _ <- attempt (changeCategory "Sapiens" "InvalidCategory") ;;
         _ <- updateCopies "A Brief History of Time" (Js.ofZ (-2)) ;;
         _ <- deleteBookIfNoCopies "A Brief History of Time" ;;
         _ <- attempt (deleteBookIfNoCopies "Atomic Habits") ;;
         ret tt)
       (fun _ => ret tt) ;;
  close.

End Process.

End Library.

(* ================================================================== *)
(** ** server.js: the Express routes *)

Module Server.

Import Mongoose.
Local Open Scope string_scope.

(** The [data] property of a response. *)
Inductive Data := OneBook (b : Book) | ManyBooks (l : list Book).

(** The [error] property: a literal text, or [error.message] of the
    exception the route caught. *)
Inductive ErrorText := Text (m : Message) | MessageOf (e : Exception).

(** The status and the JSON envelope of a response. *)
Record Response := {
  status : Z;
  success : bool;
  data : option Data;
  error : option ErrorText;
  message : option Message
}.

(** [res.status(st).json({ success: true, data })]; 200 without [status]. *)
Definition succeed (st : Z) (d : Data) : Response :=
  {| status := st; success := true; data := Some d; error := None;
     message := None |}.

(** [res.status(st).json({ success: false, error })]. *)
Definition fail (st : Z) (e : ErrorText) : Response :=
  {| status := st; success := false; data := None; error := Some e;
     message := None |}.

Definition Handler : Type := Db -> Db * Response.

(** [try { body } catch (error) { res.status(st).json({ success: false,
    error: error.message }) }]. *)
Definition route (body : M Response) (st : Z) : Handler :=
  fun db =>
    match body db with
    | (db', inr r) => (db', r)
    | (db', inl e) => (db', fail st (MessageOf e))
    end.

Section Process.

(** The number [new Date().getFullYear()] returns when the schema is built. *)
Variable currentYear : Js.Number.

Definition bookSchema : Schema :=
  {| path_title := {| trim := true; enum := None; minlength := None |};
     path_author := {| trim := true; enum := None; minlength := None |};
     path_category :=
       {| trim := false; enum := Some Sample.categories; minlength := None |};
     path_publishedYear :=
       {| min := Some (Js.ofZ 1000); max := Some currentYear;
          default := None; validate := None |};
     path_availableCopies :=
       {| min := Some Js.zero; max := None;
          default := Some (Js.ofZ 1); validate := None |} |}.

(** POST /api/books *)
Definition post_books (body : Body) : Handler :=
  route (
    book <- new bookSchema body ;;
    book <- save bookSchema true book ;;
    ret (succeed 201 (OneBook book))) 400.

(** GET /api/books *)
Definition get_books : Handler :=
  route (
    books <- find bookSchema Everything ;;
    ret (succeed 200 (ManyBooks books))) 500.

(** GET /api/books/category/:category *)
Definition get_books_category (category : string) : Handler :=
  route (
    books <- find bookSchema (WithCategory category) ;;
    ret (succeed 200 (ManyBooks books))) 500.

(** GET /api/books/year/:year *)
Definition get_books_year (year : string) : Handler :=
  route (
    books <- find bookSchema (YearGt (Js.parseInt year)) ;;
    ret (succeed 200 (ManyBooks books))) 500.

(** GET /api/books/:id *)
Definition get_book (id : string) : Handler :=
  route (
    book <- findById bookSchema id ;;
    match book with
    | None => ret (fail 404 (Text [Lit "Book not found"]))
    | Some book => ret (succeed 200 (OneBook book))
    end) 500.

(** PUT /api/books/:id *)
Definition put_book (id : string) (body : Body) : Handler :=
  route (
    book <- findByIdAndUpdate bookSchema id body ;;
    match book with
    | None => ret (fail 404 (Text [Lit "Book not found"]))
    | Some book => ret (succeed 200 (OneBook book))
    end) 400.

(** PATCH /api/books/:id/copies, with the [change] property of the body *)
Definition patch_copies (id : string) (change : Js.Field Js.Number) : Handler :=
  route (
    book <- findById bookSchema id ;;
    match book with
    | None => ret (fail 404 (Text [Lit "Book not found"]))
    | Some book =>
        let newCopies := Js.add (availableCopies book) (Js.toNumber change) in
        if Js.ltb newCopies Js.zero
        then ret (fail 400 (Text [Lit "Cannot have negative copies"]))
        else
          book <- save bookSchema false (setAvailableCopies book newCopies) ;;
          ret (succeed 200 (OneBook book))
    end) 400.

(** DELETE /api/books/:id *)
Definition delete_book (id : string) : Handler :=
  route (
    book <- findById bookSchema id ;;
    match book with
    | None => ret (fail 404 (Text [Lit "Book not found"]))
    | Some book =>
        if Js.ltb Js.zero (availableCopies book)
        then ret (fail 400 (Text
               [Lit "Cannot delete book with "; Value (availableCopies book);
                Lit " copies available"]))
        else
          _ <- findByIdAndDelete bookSchema id ;;
          ret {| status := 200; success := true; data := None; error := None;
                 message := Some [Lit "Book deleted successfully"] |}
    end) 500.

(** POST /api/seed *)
Definition post_seed : Handler :=
  route (
    _ <- deleteMany bookSchema Everything ;;
    result <- insertMany bookSchema Sample.books ;;
    ret {| status := 200; success := true; data := Some (ManyBooks result);
           error := None;
           message := Some [Lit "Inserted "; Count (List.length result);
                            Lit " books"] |}) 500.

(** The requests the routes above answer. *)
Inductive Request :=
| POST_books (body : Body)
| GET_books
| GET_books_category (category : string)
| GET_books_year (year : string)
| GET_book (id : string)
| PUT_book (id : string) (body : Body)
| PATCH_copies (id : string) (change : Js.Field Js.Number)
| DELETE_book (id : string)
| POST_seed.

Definition app (r : Request) : Handler :=
  match r with
  | POST_books body => post_books body
  | GET_books => get_books
  | GET_books_category category => get_books_category category
  | GET_books_year year => get_books_year year
  | GET_book id => get_book id
  | PUT_book id body => put_book id body
  | PATCH_copies id change => patch_copies id change
  | DELETE_book id => delete_book id
  | POST_seed => post_seed
  end.

End Process.

End Server.

(* ================================================================== *)
(** ** The vocabulary of the properties *)

Import Mongoose.
Local Open Scope string_scope.

(** The stored record with a given identifier, and the stored record the
    script finds under a title: the first one whose title is the trimmed
    argument. *)
Definition lookup (oid : ObjectId) (db : Db) : option Book :=
  List.find (fun b => N.eqb (_id b) oid) (books db).

(** The identifiers in the collection. *)
Definition ids (db : Db) : list ObjectId := map _id (books db).

Definition lookupTitle (t : string) (db : Db) : option Book :=
  List.find (fun b => String.eqb (title b) (Js.trim t)) (books db).

(** A stored record satisfies a schema when validating it again succeeds. *)
Definition valid (s : Schema) (b : Book) : bool :=
  match validateDocument s (hydrate b) with
  | inr _ => true
  | inl _ => false
  end.

Fixpoint distinct (l : list ObjectId) : bool :=
  match l with
  | [] => true
  | x :: r => negb (existsb (N.eqb x) r) && distinct r
  end.

(** The state of a collection that was only written through a schema:
    every record satisfies the schema, identifiers are unique and were
    generated earlier. *)
Definition consistent (s : Schema) (l : list Book) (next : ObjectId) : bool :=
  forallb (valid s) l
  && distinct (map _id l)
  && forallb (fun b => (_id b <? next)%N) l.

Definition wellFormed (s : Schema) (db : Db) : bool :=
  consistent s (books db) (nextId db).

(** The calls of the script, and the states the two programs can reach
    from an empty collection; the store may come and go in between. *)
Inductive Call :=
| InsertBooks
| GetAllBooks
| GetBooksByCategory (category : string)
| GetBooksAfter2015
| UpdateCopies (title : string) (change : Js.Number)
| ChangeCategory (title newCategory : string)
| DeleteBookIfNoCopies (title : string).

Definition after (year : Js.Number) (c : Call) (db : Db) : Db :=
  match c with
  | InsertBooks => fst (Library.insertBooks year db)
  | GetAllBooks => fst (Library.getAllBooks year db)
  | GetBooksByCategory category => fst (Library.getBooksByCategory year category db)
  | GetBooksAfter2015 => fst (Library.getBooksAfter2015 year db)
  | UpdateCopies title change => fst (Library.updateCopies year title change db)
  | ChangeCategory title newCategory =>
      fst (Library.changeCategory year title newCategory db)
  | DeleteBookIfNoCopies title => fst (Library.deleteBookIfNoCopies year title db)
  end.

Definition reconnect (c : bool) (db : Db) : Db :=
  {| connected := c; books := books db; nextId := nextId db |}.

Inductive ServiceReachable (year : Js.Number) : Db -> Prop :=
| service_start (c : bool) (n : ObjectId) :
    ServiceReachable year {| connected := c; books := []; nextId := n |}
| service_request (db : Db) (r : Server.Request) :
    ServiceReachable year db -> ServiceReachable year (fst (Server.app year r db))
| service_connection (db : Db) (c : bool) :
    ServiceReachable year db -> ServiceReachable year (reconnect c db).

Inductive ScriptReachable (year : Js.Number) : Db -> Prop :=
| script_start (c : bool) (n : ObjectId) :
    ScriptReachable year {| connected := c; books := []; nextId := n |}
| script_call (db : Db) (c : Call) :
    ScriptReachable year db -> ScriptReachable year (after year c db)
| script_connection (db : Db) (c : bool) :
    ScriptReachable year db -> ScriptReachable year (reconnect c db).

(** The constraints of the data model on a record, with [year] the year
    of the schema; [Constraints] leaves the two integrality conditions
    out. *)
Definition Constraints (year : Js.Number) (b : Book) : Prop :=
  title b <> "" /\ author b <> "" /\ In (category b) Sample.categories
  /\ Js.leb (Js.ofZ 1000) (publishedYear b) = true
  /\ Js.leb (publishedYear b) year = true
  /\ Js.leb Js.zero (availableCopies b) = true.

Definition DataModel (year : Js.Number) (b : Book) : Prop :=
  Constraints year b
  /\ Js.isInteger (publishedYear b) = true
  /\ Js.isInteger (availableCopies b) = true.

(** A record with another number of copies. *)
Definition withCopies (b : Book) (n : Js.Number) : Book :=
  {| _id := _id b; title := title b; author := author b; category := category b;
     publishedYear := publishedYear b; availableCopies := n |}.

(** The error of a path among the errors of a validation. *)
Definition hasErrorAt (name : string) (errors : list ValidatorError) : Prop :=
  exists k, In {| path := name; kind := k |} errors.

(** *** What an update may say *)

(** A body as JSON can carry it: no number in it is [NaN]. *)
Definition numeric (f : Js.Field Js.Number) : Prop :=
  forall q, f = Js.Val q -> Js.isNaN q = false.

Definition Json (body : Body) : Prop :=
  numeric (body_publishedYear body) /\ numeric (body_availableCopies body).

(** The constraint of the data model on each field an update mentions:
    a title or an author that is not empty once trimmed, a category of
    the enumeration, a year between 1000 and the year of the schema, a
    number of copies that is not negative. *)
Definition textOk (f : Js.Field string) : Prop :=
  f = Js.Absent \/ exists s, f = Js.Val s /\ Js.trim s <> "".

Definition categoryOk (f : Js.Field string) : Prop :=
  f = Js.Absent \/ exists c, f = Js.Val c /\ In c Sample.categories.

Definition yearOk (year : Js.Number) (f : Js.Field Js.Number) : Prop :=
  f = Js.Absent
  \/ exists y, f = Js.Val y
               /\ Js.leb (Js.ofZ 1000) y = true /\ Js.leb y year = true.

Definition copiesOk (f : Js.Field Js.Number) : Prop :=
  f = Js.Absent \/ exists n, f = Js.Val n /\ Js.leb Js.zero n = true.

Definition UpdateOk (year : Js.Number) (body : Body) : Prop :=
  textOk (body_title body) /\ textOk (body_author body)
  /\ categoryOk (body_category body)
  /\ yearOk year (body_publishedYear body)
  /\ copiesOk (body_availableCopies body).

(** The value of a field after an update: the one the body gives, a text
    trimmed, or the stored one when the body does not mention the field. *)
Definition textAfter (f : Js.Field string) (stored : string) : string :=
  match f with
  | Js.Val s => Js.trim s
  | _ => stored
  end.

Definition valueAfter {A : Type} (f : Js.Field A) (stored : A) : A :=
  match f with
  | Js.Val a => a
  | _ => stored
  end.

(** What an update sets a field to, if anything. *)
Definition textSet (f : Js.Field string) : option string :=
  match f with
  | Js.Val s => Some (Js.trim s)
  | _ => None
  end.

Definition valueSet {A : Type} (f : Js.Field A) : option A :=
  match f with
  | Js.Val a => Some a
  | _ => None
  end.

(** The merged record of an update. *)
Definition merged (body : Body) (b : Book) : Book :=
  {| _id := _id b;
     title := textAfter (body_title body) (title b);
     author := textAfter (body_author body) (author b);
     category := valueAfter (body_category body) (category b);
     publishedYear := valueAfter (body_publishedYear body) (publishedYear b);
     availableCopies := valueAfter (body_availableCopies body) (availableCopies b) |}.

(** *** The outcomes of a request *)

(** The identifier a request names. *)
Definition requestId (r : Server.Request) : option string :=
  match r with
  | Server.GET_book id => Some id
  | Server.PUT_book id _ => Some id
  | Server.PATCH_copies id _ => Some id
  | Server.DELETE_book id => Some id
  | _ => None
  end.

(** The update of a request, when it is UpdateFields. *)
Definition requestUpdate (r : Server.Request) : option Body :=
  match r with
  | Server.PUT_book _ body => Some body
  | _ => None
  end.

(** NotFound: the store can be reached, the request names a well-formed
    identifier that no record has and, for UpdateFields, its update is
    valid. *)
Definition NotFound (year : Js.Number) (r : Server.Request) (db : Db) : Prop :=
  connected db = true
  /\ (exists id oid,
        requestId r = Some id /\ castObjectId id = Some oid /\ lookup oid db = None)
  /\ (forall body, requestUpdate r = Some body -> UpdateOk year body).

(** InvalidOperation: the two guard rules.  AdjustCopies on a record whose
    copies would become negative; DeleteIfEmpty on a record with copies
    left. *)
Definition GuardViolated (r : Server.Request) (db : Db) : Prop :=
  connected db = true
  /\ exists oid b,
       lookup oid db = Some b
       /\ ((exists id change,
              r = Server.PATCH_copies id change /\ castObjectId id = Some oid
              /\ Js.ltb (Js.add (availableCopies b) (Js.toNumber change)) Js.zero = true)
           \/ (exists id,
                 r = Server.DELETE_book id /\ castObjectId id = Some oid
                 /\ Js.ltb Js.zero (availableCopies b) = true)).

(** The status of the [catch] block of each route. *)
Definition catchStatus (r : Server.Request) : Z :=
  match r with
  | Server.POST_books _ => 400
  | Server.PUT_book _ _ => 400
  | Server.PATCH_copies _ _ => 400
  | _ => 500
  end.

(** *** Concrete states and requests used in the examples *)

(** The examples run in 2026. *)
Definition y2026 : Js.Number := Js.ofZ 2026.

Definition emptyDb : Db := {| connected := true; books := []; nextId := 1%N |}.

Definition offline (db : Db) : Db :=
  {| connected := false; books := books db; nextId := nextId db |}.

(** The collection after POST /api/seed. *)
Definition seeded : Db := fst (Server.post_seed y2026 emptyDb).

Definition idOf (n : string) : string := "00000000000000000000000" ++ n.

(** A string given by the bytes of its encoding, and the no-break space
    U+00A0. *)
Definition bytes (l : list nat) : string :=
  string_of_list_ascii (map ascii_of_nat l).

Definition nbsp : string := bytes [194; 160]%nat.

Definition dune (y n : Js.Number) : Body :=
  {| body_title := Js.Val "Dune";
     body_author := Js.Val "Frank Herbert";
     body_category := Js.Val "Fiction";
     body_publishedYear := Js.Val y;
     body_availableCopies := Js.Val n |}.

(** A collection whose only book, "Dune", has no copies left. *)
Definition soldOut : Db :=
  fst (Server.post_books y2026 (dune (Js.ofZ 1965) (Js.ofZ 0)) emptyDb).

(** The answer of DELETE /api/books/:id when the book is deleted. *)
Definition deletedResponse : Server.Response :=
  {| Server.status := 200; Server.success := true; Server.data := None;
     Server.error := None;
     Server.message := Some [Lit "Book deleted successfully"] |}.

(** A Create input with its five fields, the copies possibly omitted. *)
Definition createInput (t a c : string) (y : Js.Number) (n : option Js.Number) : Body :=
  {| body_title := Js.Val t;
     body_author := Js.Val a;
     body_category := Js.Val c;
     body_publishedYear := Js.Val y;
     body_availableCopies :=
       match n with
       | Some k => Js.Val k
       | None => Js.Absent
       end |}.

(** An update that mentions the title only. *)
Definition onlyTitle (t : string) : Body :=
  {| body_title := Js.Val t;
     body_author := Js.Absent;
     body_category := Js.Absent;
     body_publishedYear := Js.Absent;
     body_availableCopies := Js.Absent |}.

(** A collection holding a record that was not written through the
    schema: its category is not in the enumeration. *)
Definition legacy : Db :=
  {| connected := true;
     books := [ {| _id := 1%N; title := "Maus"; author := "Art Spiegelman";
                   category := "Comics"; publishedYear := Js.ofZ 1991;
                   availableCopies := Js.ofZ 2 |} ];
     nextId := 2%N |}.

Definition onlyCategory (c : string) : Body :=
  {| body_title := Js.Absent;
     body_author := Js.Absent;
     body_category := Js.Val c;
     body_publishedYear := Js.Absent;
     body_availableCopies := Js.Absent |}.

(** *** Vocabulary of the further properties *)

(** A Create input the schema of the server accepts: title and author with
    something left after trimming, a category of the enumeration, a year
    between 1000 and the year of the schema, and no copies or a number of
    copies that is not negative. *)
Definition Acceptable (year : Js.Number) (body : Body) : Prop :=
  (exists t, body_title body = Js.Val t /\ Js.trim t <> "")
  /\ (exists a, body_author body = Js.Val a /\ Js.trim a <> "")
  /\ (exists c, body_category body = Js.Val c /\ In c Sample.categories)
  /\ (exists y, body_publishedYear body = Js.Val y
                /\ Js.leb (Js.ofZ 1000) y = true /\ Js.leb y year = true)
  /\ (body_availableCopies body = Js.Absent
      \/ exists n, body_availableCopies body = Js.Val n /\ Js.leb Js.zero n = true).

(** A stored record holds the five fields of a body as they are. *)
Definition stores (b : Book) (body : Body) : Prop :=
  body_title body = Js.Val (title b)
  /\ body_author body = Js.Val (author b)
  /\ body_category body = Js.Val (category b)
  /\ body_publishedYear body = Js.Val (publishedYear b)
  /\ body_availableCopies body = Js.Val (availableCopies b).

(** The identifiers [n], [n + 1], ... of [k] documents created in a row. *)
Fixpoint idsFrom (n : ObjectId) (k : nat) : list ObjectId :=
  match k with
  | O => []
  | S k' => n :: idsFrom (N.succ n) k'
  end.

(** The documents [newDocuments] builds from the identifier [n] on. *)
Fixpoint documentsFrom (s : Schema) (n : ObjectId) (bodies : list Body)
  : list Document :=
  match bodies with
  | [] => []
  | b :: r => newDocument s n b :: documentsFrom s (N.succ n) r
  end.

(** The record that stores a sample body under an identifier. *)
Definition record (id : ObjectId) (t a c : string) (y n : Z) : Book :=
  {| _id := id; title := t; author := a; category := c;
     publishedYear := Js.ofZ y; availableCopies := Js.ofZ n |}.

(** A record with another category. *)
Definition withCategory (b : Book) (c : string) : Book :=
  {| _id := _id b; title := title b; author := author b; category := c;
     publishedYear := publishedYear b; availableCopies := availableCopies b |}.

(** The record that stores a body whose five fields are present, and
    the records of a list of bodies under the identifiers [n + k],
    [n + k + 1], ... *)
Definition held {A : Type} (d : A) (f : Js.Field A) : A :=
  match f with
  | Js.Val a => a
  | _ => d
  end.

Definition recordOf (id : ObjectId) (body : Body) : Book :=
  {| _id := id;
     title := held "" (body_title body);
     author := held "" (body_author body);
     category := held "" (body_category body);
     publishedYear := held Js.zero (body_publishedYear body);
     availableCopies := held Js.zero (body_availableCopies body) |}.

Fixpoint recordsAt (n : ObjectId) (k : N) (bodies : list Body) : list Book :=
  match bodies with
  | [] => []
  | b :: r => recordOf (n + k)%N b :: recordsAt n (N.succ k) r
  end.

(** An update without any field. *)
Definition emptyBody : Body :=
  {| body_title := Js.Absent;
     body_author := Js.Absent;
     body_category := Js.Absent;
     body_publishedYear := Js.Absent;
     body_availableCopies := Js.Absent |}.

(* ================================================================== *)
(** ** Basic facts *)

Arguments validateString : simpl never.
Arguments validateNumber : simpl never.
Arguments validateDocument : simpl never.
Arguments inEnum : simpl never.
Arguments Js.ofZ : simpl never.
Arguments Js.dyadic : simpl never.
Arguments Js.add : simpl never.
Arguments Js.leb : simpl never.
Arguments Js.ltb : simpl never.
Arguments Js.eqb : simpl never.
Arguments Js.isInteger : simpl never.
Arguments Js.trim : simpl never.
Arguments Js.parseInt : simpl never.

(** *** The order of numbers *)

Lemma leb_trans (a b c : Js.Number) :
  Js.leb a b = true -> Js.leb b c = true -> Js.leb a c = true.
Proof.
  unfold Js.leb, SFleb, SFcompare.
  destruct a as [sa|sa| |sa ma ea], b as [sb|sb| |sb mb eb], c as [sc|sc| |sc mc ec];
    try destruct sa; try destruct sb; try destruct sc; simpl; try congruence;
    rewrite ?Pos.compare_cont_spec; simpl;
    destruct (Z.compare_spec ea eb), (Z.compare_spec eb ec), (Z.compare_spec ea ec);
    try congruence; try lia; subst;
    try destruct (Pos.compare_spec ma mb); try destruct (Pos.compare_spec mb mc);
    try destruct (Pos.compare_spec ma mc); simpl; try congruence; try lia.
Qed.

(** A number that is compared successfully is not [NaN]. *)
Lemma leb_number (a b : Js.Number) :
  Js.leb a b = true -> Js.isNaN a = false /\ Js.isNaN b = false.
Proof.
  unfold Js.leb, SFleb, SFcompare.
  destruct a as [sa|sa| |sa ma ea], b as [sb|sb| |sb mb eb];
    simpl; intro H; try discriminate; split; reflexivity.
Qed.

(** A number that is not below zero and is not [NaN] is at least zero. *)
Lemma not_negative (x : Js.Number) :
  Js.ltb x Js.zero = false -> Js.isNaN x = false -> Js.leb Js.zero x = true.
Proof.
  unfold Js.ltb, Js.leb, SFltb, SFleb, SFcompare, Js.zero.
  destruct x as [s|s| |s m e]; try destruct s; simpl; congruence.
Qed.

Lemma negative_not_accepted (x : Js.Number) :
  Js.ltb x Js.zero = true -> Js.leb Js.zero x = false.
Proof.
  unfold Js.ltb, Js.leb, SFltb, SFleb, SFcompare, Js.zero.
  destruct x as [s|s| |s m e]; try destruct s; simpl; congruence.
Qed.

(** Among the numbers that are at least zero, those that are not above
    zero are the two zeros. *)
Lemma no_copies (c : Js.Number) :
  Js.leb Js.zero c = true -> Js.ltb Js.zero c = false <-> Js.eqb c Js.zero = true.
Proof.
  unfold Js.ltb, Js.leb, Js.eqb, SFltb, SFleb, SFeqb, SFcompare, Js.zero.
  destruct c as [s|s| |s m e]; try destruct s; simpl; intuition congruence.
Qed.

Lemma no_copies_left (c : Js.Number) :
  Js.eqb c Js.zero = true -> Js.ltb Js.zero c = false.
Proof.
  unfold Js.ltb, Js.eqb, SFltb, SFeqb, SFcompare, Js.zero.
  destruct c as [s|s| |s m e]; try destruct s; simpl; congruence.
Qed.

(** Adding [+0] to a number gives a number equal to it. *)
Lemma add_zero (c : Js.Number) :
  Js.isNaN c = false -> Js.eqb (Js.add c Js.zero) c = true.
Proof.
  unfold Js.eqb, Js.add, SFeqb, SFadd, SFcompare, Js.zero.
  destruct c as [s|s| |s m e]; try destruct s; simpl; try congruence;
    rewrite Z.compare_refl, Pos.compare_cont_refl; reflexivity.
Qed.

(** A finite number and its opposite add up to [+0]. *)
Lemma add_opp (c : Js.Number) :
  Js.isFinite c = true -> Js.add c (Js.opp c) = Js.zero.
Proof.
  destruct c as [s|s| |s m e]; try discriminate; intros _.
  - destruct s; reflexivity.
  - unfold Js.add, Js.opp, SFadd, SFopp, shl_align.
    rewrite Z.min_id, Z.sub_diag. cbn [fst].
    assert (cond_Zopp s (Z.pos m) + cond_Zopp (negb s) (Z.pos m) = 0) as E
      by (unfold cond_Zopp; destruct s; cbn [negb]; lia).
    change (binary_normalize Js.prec Js.emax
              (cond_Zopp s (Z.pos m) + cond_Zopp (negb s) (Z.pos m)) e false
            = S754_zero false).
    rewrite E. reflexivity.
Qed.

(** An integer is a number. *)
Lemma integer_number (x : Js.Number) : Js.isInteger x = true -> Js.isNaN x = false.
Proof.
  unfold Js.isInteger, Js.isNaN. destruct x; congruence.
Qed.

Lemma length_zero_empty (s : string) : (String.length s =? 0)%nat = true <-> s = "".
Proof.
  destruct s; simpl; split; intro H; try reflexivity; discriminate.
Qed.

Lemma inEnum_In (values : list string) (s : string) :
  inEnum values s = true <-> In s values.
Proof.
  unfold inEnum. rewrite existsb_exists. split.
  - intros [x [Hin Heq]]. apply String.eqb_eq in Heq. subst. exact Hin.
  - intro Hin. exists s. split; [exact Hin | apply String.eqb_refl].
Qed.

(** *** The built-ins at work *)

(** [trim] removes each of the 25 white space and line terminator
    characters on both sides, and keeps U+0085, U+180E and U+200B, which
    are neither. *)
Example trim_white_space :
  forallb (fun w => String.eqb (Js.trim (w ++ "a b" ++ w)) "a b")
    (map bytes
       [ [9]; [10]; [11]; [12]; [13]; [32]; [194; 160]; [225; 154; 128];
         [226; 128; 128]; [226; 128; 129]; [226; 128; 130]; [226; 128; 131];
         [226; 128; 132]; [226; 128; 133]; [226; 128; 134]; [226; 128; 135];
         [226; 128; 136]; [226; 128; 137]; [226; 128; 138];
         [226; 128; 168]; [226; 128; 169]; [226; 128; 175];
         [226; 129; 159]; [227; 128; 128]; [239; 187; 191] ]%nat) = true
  /\ forallb (fun w => String.eqb (Js.trim (w ++ "a" ++ w)) (w ++ "a" ++ w))
       (map bytes [ [194; 133]; [225; 160; 142]; [226; 128; 139] ]%nat) = true
  /\ Js.trim "" = "" /\ Js.trim (nbsp ++ " ") = "".
Proof.
  vm_compute. repeat split; reflexivity.
Qed.

(** [parseInt] skips white space, reads a sign, a hexadecimal prefix and
    the digits, stops at the first other character, and rounds. *)
Example parseInt_reads :
  Js.parseInt "2015" = Js.ofZ 2015
  /\ Js.parseInt (nbsp ++ " 2015abc") = Js.ofZ 2015
  /\ Js.parseInt "-0x1F" = Js.ofZ (-31)
  /\ Js.parseInt "1e3" = Js.ofZ 1
  /\ Js.parseInt "-0" = S754_zero true
  /\ Js.parseInt "9007199254740993" = Js.ofZ 9007199254740992
  /\ Js.isNaN (Js.parseInt "recent") = true
  /\ Js.isNaN (Js.parseInt "0x") = true
  /\ Js.isNaN (Js.parseInt "") = true.
Proof.
  vm_compute. repeat split; reflexivity.
Qed.

(** Sums are rounded: 2^53 + 1 is 2^53, and 0.1 + 0.2 is not 0.3. *)
Example add_rounds :
  Js.add (Js.ofZ (2 ^ 53)) (Js.ofZ 1) = Js.ofZ (2 ^ 53)
  /\ Js.add (Js.dyadic 3602879701896397 (-55)) (Js.dyadic 3602879701896397 (-54))
     = Js.dyadic 5404319552844596 (-54)
  /\ Js.dyadic 5404319552844596 (-54) <> Js.dyadic 5404319552844595 (-54)
  /\ Js.isNaN (Js.add (S754_infinity false) (S754_infinity true)) = true.
Proof.
  vm_compute. repeat split; try reflexivity. discriminate.
Qed.
(** What a successful validation of a String path says. *)
Lemma validateString_inr (p : StringPath) (name : string) (v : Slot string) (s : string) :
  validateString p name v = inr s <->
  v = Holds s /\ s <> ""
  /\ match enum p with Some values => inEnum values s = true | None => True end
  /\ match minlength p with Some n => (String.length s <? n)%nat = false | None => True end.
Proof.
  unfold validateString. destruct v as [|x|].
  - split; [discriminate | intros [H _]; discriminate].
  - destruct (String.length x =? 0)%nat eqn:E0.
    + apply length_zero_empty in E0. subst x.
      split; [discriminate | intros [H [N _]]; inversion H; subst; congruence].
    + assert (x <> "") as Hne
        by (intro; subst; simpl in E0; discriminate).
      destruct (enum p) as [values|]; destruct (minlength p) as [n|];
        try destruct (inEnum values x) eqn:Ee; simpl;
        try destruct (String.length x <? n)%nat eqn:El;
        split; intro H;
        try discriminate;
        try (inversion H; subst; repeat split; auto; fail);
        try (destruct H as [H [_ [H1 H2]]]; inversion H; subst; congruence).
  - split; [discriminate | intros [H _]; discriminate].
Qed.

(** What a successful validation of a Number path says. *)
Lemma validateNumber_inr (p : NumberPath) (name : string) (v : Slot Js.Number) (q : Js.Number) :
  validateNumber p name v = inr q <->
  v = Holds q
  /\ match min p with Some m => Js.leb m q = true | None => True end
  /\ match max p with Some m => Js.leb q m = true | None => True end
  /\ match validate p with Some f => f q = true | None => True end.
Proof.
  unfold validateNumber. destruct v as [|x|].
  - split; [discriminate | intros [H _]; discriminate].
  - destruct (min p) as [lo|]; destruct (max p) as [hi|];
      destruct (validate p) as [f|];
      try destruct (Js.leb lo x) eqn:E1; simpl;
      try destruct (Js.leb x hi) eqn:E2; simpl;
      try destruct (f x) eqn:E3; simpl;
      split; intro H;
      try discriminate;
      try (inversion H; subst; repeat split; auto; fail);
      try (destruct H as [H [H1 [H2 H3]]]; inversion H; subst; congruence).
  - split; [discriminate | intros [H _]; discriminate].
Qed.

(** A failed validation of a path names that path. *)
Lemma validateString_inl (p : StringPath) (name : string) (v : Slot string) e :
  validateString p name v = inl e -> path e = name.
Proof.
  unfold validateString. destruct v as [|x|]; intro H.
  - inversion H. reflexivity.
  - repeat match type of H with
           | (if ?c then _ else _) = _ => destruct c
           end; inversion H; reflexivity.
  - inversion H. reflexivity.
Qed.

Lemma validateNumber_inl (p : NumberPath) (name : string) (v : Slot Js.Number) e :
  validateNumber p name v = inl e -> path e = name.
Proof.
  unfold validateNumber. destruct v as [|x|]; intro H.
  - inversion H. reflexivity.
  - repeat match type of H with
           | (if ?c then _ else _) = _ => destruct c
           end; inversion H; reflexivity.
  - inversion H. reflexivity.
Qed.

(** Validation of a document succeeds exactly when every path does. *)
Lemma validateDocument_inr (s : Schema) (d : Document) (b : Book) :
  validateDocument s d = inr b <->
  _id b = doc_id d
  /\ validateString (path_title s) "title" (doc_title d) = inr (title b)
  /\ validateString (path_author s) "author" (doc_author d) = inr (author b)
  /\ validateString (path_category s) "category" (doc_category d) = inr (category b)
  /\ validateNumber (path_publishedYear s) "publishedYear" (doc_publishedYear d)
     = inr (publishedYear b)
  /\ validateNumber (path_availableCopies s) "availableCopies" (doc_availableCopies d)
     = inr (availableCopies b).
Proof.
  unfold validateDocument.
  destruct (validateString (path_title s) "title" (doc_title d)) as [e1|t];
  destruct (validateString (path_author s) "author" (doc_author d)) as [e2|a];
  destruct (validateString (path_category s) "category" (doc_category d)) as [e3|c];
  destruct (validateNumber (path_publishedYear s) "publishedYear" (doc_publishedYear d)) as [e4|y];
  destruct (validateNumber (path_availableCopies s) "availableCopies" (doc_availableCopies d)) as [e5|n];
  (split;
   [ intro H; try discriminate; inversion H; subst; simpl; repeat split; reflexivity
   | intros (H0 & H1 & H2 & H3 & H4 & H5); try discriminate;
     destruct b; simpl in *; congruence ]).
Qed.

(** A failed validation reports the error of every failing path. *)
Lemma validateDocument_inl (s : Schema) (d : Document) (errors : list ValidatorError) :
  validateDocument s d = inl errors ->
  errors =
    (errorsOf (validateString (path_title s) "title" (doc_title d))
     ++ errorsOf (validateString (path_author s) "author" (doc_author d))
     ++ errorsOf (validateString (path_category s) "category" (doc_category d))
     ++ errorsOf (validateNumber (path_publishedYear s) "publishedYear" (doc_publishedYear d))
     ++ errorsOf (validateNumber (path_availableCopies s) "availableCopies"
                    (doc_availableCopies d)))%list.
Proof.
  unfold validateDocument.
  destruct (validateString (path_title s) "title" (doc_title d)) as [e1|t];
  destruct (validateString (path_author s) "author" (doc_author d)) as [e2|a];
  destruct (validateString (path_category s) "category" (doc_category d)) as [e3|c];
  destruct (validateNumber (path_publishedYear s) "publishedYear" (doc_publishedYear d)) as [e4|y];
  destruct (validateNumber (path_availableCopies s) "availableCopies" (doc_availableCopies d)) as [e5|n];
  intro H; inversion H; reflexivity.
Qed.

(** A path that fails makes the whole validation fail, with its error. *)
Lemma validateDocument_category_fails (s : Schema) (d : Document) e :
  validateString (path_category s) "category" (doc_category d) = inl e ->
  exists errors, validateDocument s d = inl errors /\ hasErrorAt "category" errors.
Proof.
  intro Hc. destruct (validateDocument s d) as [errors|b] eqn:E.
  - exists errors. split; [reflexivity|].
    apply validateDocument_inl in E. rewrite Hc in E. simpl in E.
    exists (kind e). subst errors.
    apply in_or_app; right. apply in_or_app; right. left.
    pose proof (validateString_inl _ _ _ _ Hc) as Hp.
    destruct e as [p k]; simpl in *. congruence.
  - apply validateDocument_inr in E. destruct E as (_ & _ & _ & E & _). congruence.
Qed.

Lemma validateDocument_year_fails (s : Schema) (d : Document) e :
  validateNumber (path_publishedYear s) "publishedYear" (doc_publishedYear d) = inl e ->
  exists errors, validateDocument s d = inl errors /\ hasErrorAt "publishedYear" errors.
Proof.
  intro Hc. destruct (validateDocument s d) as [errors|b] eqn:E.
  - exists errors. split; [reflexivity|].
    apply validateDocument_inl in E. rewrite Hc in E. simpl in E.
    exists (kind e). subst errors.
    do 3 (apply in_or_app; right). left.
    pose proof (validateNumber_inl _ _ _ _ Hc) as Hp.
    destruct e as [p k]; simpl in *. congruence.
  - apply validateDocument_inr in E. destruct E as (_ & _ & _ & _ & E & _). congruence.
Qed.

(** Validating a stored record again returns the record itself. *)
Lemma validateDocument_hydrate (s : Schema) (b b' : Book) :
  validateDocument s (hydrate b) = inr b' -> b' = b.
Proof.
  intro H. apply validateDocument_inr in H.
  destruct H as (H0 & H1 & H2 & H3 & H4 & H5).
  apply validateString_inr in H1, H2, H3.
  apply validateNumber_inr in H4, H5.
  destruct H1 as [H1 _], H2 as [H2 _], H3 as [H3 _], H4 as [H4 _], H5 as [H5 _].
  destruct b, b'; simpl in *. congruence.
Qed.

Lemma valid_spec (s : Schema) (b : Book) :
  valid s b = true <-> validateDocument s (hydrate b) = inr b.
Proof.
  unfold valid. destruct (validateDocument s (hydrate b)) as [errors|b'] eqn:E.
  - split; discriminate.
  - apply validateDocument_hydrate in E. subst. split; reflexivity.
Qed.

(** A string the enumeration does not list, by computation. *)
Lemma not_listed (values : list string) (c : string) :
  inEnum values c = false -> ~ In c values.
Proof.
  intros H Hin. apply inEnum_In in Hin. congruence.
Qed.

Lemma category_not_empty (c : string) : In c Sample.categories -> c <> "".
Proof.
  intros H E. subst c. simpl in H. intuition discriminate.
Qed.

(** The schema of the server checks the constraints of the data model
    except integrality; the schema of the script checks them all. *)
Lemma valid_server (year : Js.Number) (b : Book) :
  valid (Server.bookSchema year) b = true <-> Constraints year b.
Proof.
  rewrite valid_spec, validateDocument_inr.
  repeat rewrite validateString_inr. repeat rewrite validateNumber_inr. simpl.
  unfold Constraints. rewrite inEnum_In.
  pose proof (category_not_empty (category b)). intuition.
Qed.

Lemma valid_library (year : Js.Number) (b : Book) :
  valid (Library.bookSchema year) b = true <-> DataModel year b.
Proof.
  rewrite valid_spec, validateDocument_inr.
  repeat rewrite validateString_inr. repeat rewrite validateNumber_inr. simpl.
  unfold DataModel, Constraints. rewrite inEnum_In.
  assert (forall t : string, t <> "" -> (String.length t <? 1)%nat = false) as L
    by (intros [|c r] Ht; [congruence | reflexivity]).
  pose proof (category_not_empty (category b)). intuition.
Qed.

(* ================================================================== *)
(** ** Running the calls against the collection *)

Lemma setBooks_same (db : Db) : setBooks (books db) db = db.
Proof. destruct db; reflexivity. Qed.

Lemma command_online {A : Type} (f : list Book -> list Book * A) (db : Db) :
  connected db = true ->
  command f db = (setBooks (fst (f (books db))) db, inr (snd (f (books db)))).
Proof.
  intro H. unfold command. rewrite H. destruct (f (books db)); reflexivity.
Qed.

Lemma command_offline {A : Type} (f : list Book -> list Book * A) (db : Db) :
  connected db = false -> command f db = (db, inl MongooseError).
Proof.
  intro H. unfold command. rewrite H. reflexivity.
Qed.

Lemma castFilter_id (s : Schema) (id : string) (oid : ObjectId) :
  castObjectId id = Some oid ->
  castFilter s (WithId id) = inr (fun b => N.eqb (_id b) oid).
Proof. intro H. simpl. rewrite H. reflexivity. Qed.

Lemma castFilter_malformed (s : Schema) (id : string) :
  castObjectId id = None -> castFilter s (WithId id) = inl (CastError "_id").
Proof. intro H. simpl. rewrite H. reflexivity. Qed.

Lemma findById_online (s : Schema) (id : string) (oid : ObjectId) (db : Db) :
  castObjectId id = Some oid -> connected db = true ->
  findById s id db = (db, inr (lookup oid db)).
Proof.
  intros Hid Hc. unfold findById, findOne, bind, lift.
  rewrite (castFilter_id s id oid Hid), (command_online _ _ Hc). simpl.
  rewrite setBooks_same. reflexivity.
Qed.

Lemma findById_offline (s : Schema) (id : string) (oid : ObjectId) (db : Db) :
  castObjectId id = Some oid -> connected db = false ->
  findById s id db = (db, inl MongooseError).
Proof.
  intros Hid Hc. unfold findById, findOne, bind, lift.
  rewrite (castFilter_id s id oid Hid), (command_offline _ _ Hc). reflexivity.
Qed.

Lemma findById_malformed (s : Schema) (id : string) (db : Db) :
  castObjectId id = None -> findById s id db = (db, inl (CastError "_id")).
Proof.
  intro Hid. unfold findById, findOne, bind, lift.
  rewrite (castFilter_malformed s id Hid). reflexivity.
Qed.

Lemma find_online (s : Schema) (f : Filter) (p : Book -> bool) (db : Db) :
  castFilter s f = inr p -> connected db = true ->
  find s f db = (db, inr (filter p (books db))).
Proof.
  intros Hf Hc. unfold find, bind, lift. rewrite Hf, (command_online _ _ Hc). simpl.
  rewrite setBooks_same. reflexivity.
Qed.

Lemma findOne_title_online (s : Schema) (t : string) (db : Db) :
  trim (path_title s) = true -> connected db = true ->
  findOne s (WithTitle t) db = (db, inr (lookupTitle t db)).
Proof.
  intros Ht Hc. unfold findOne, bind, lift. simpl. rewrite (command_online _ _ Hc). simpl.
  rewrite setBooks_same. unfold applySetters. rewrite Ht. reflexivity.
Qed.

Lemma save_valid (s : Schema) (isNew : bool) (d : Document) (b : Book) (db : Db) :
  validateDocument s d = inr b -> connected db = true ->
  save s isNew d db =
    (setBooks (if isNew then (books db ++ [b])%list
               else replaceFirst (fun x => N.eqb (_id x) (_id b)) b (books db)) db,
     inr b).
Proof.
  intros Hv Hc. unfold save. rewrite Hv, (command_online _ _ Hc). reflexivity.
Qed.

Lemma save_invalid (s : Schema) (isNew : bool) (d : Document) errors (db : Db) :
  validateDocument s d = inl errors ->
  save s isNew d db = (db, inl (ValidationError errors)).
Proof.
  intro Hv. unfold save. rewrite Hv. reflexivity.
Qed.

(** Logging and rethrowing changes nothing. *)
Lemma rethrow_same {A : Type} (m : M A) (db : Db) : Library.rethrow m db = m db.
Proof.
  unfold Library.rethrow, tryCatch, throw.
  destruct (m db) as [db' [e|a]]; reflexivity.
Qed.


Lemma castFilter_year (s : Schema) (y : Js.Number) :
  Js.isNaN y = false ->
  castFilter s (YearGt y) = inr (fun b => Js.ltb y (publishedYear b)).
Proof. intro H. simpl. rewrite H. reflexivity. Qed.

(* ================================================================== *)
(** ** Reading: GetById and ListByYearAfter *)

(** C10. In service mode GetById answers 404 only for a well-formed
    identifier that matches no stored record (and does answer 404 there
    when the store can be reached); an identifier the cast rejects makes
    the lookup throw, which the route reports as 500 with the message of
    the cast error. *)
Theorem C10_get_book_404_only_for_well_formed_id
    (year : Js.Number) (db : Db) (id : string) :
  let r := snd (Server.get_book year id db) in
  (Server.status r = 404 ->
   exists oid, castObjectId id = Some oid /\ lookup oid db = None)
  /\ (castObjectId id = None ->
      Server.status r = 500
      /\ Server.error r = Some (Server.MessageOf (CastError "_id")))
  /\ (forall oid, castObjectId id = Some oid -> connected db = true ->
      lookup oid db = None ->
      r = Server.fail 404 (Server.Text [Lit "Book not found"])).
Proof.
  unfold Server.get_book, Server.route, bind.
  destruct (castObjectId id) as [oid|] eqn:Hid.
  - destruct (connected db) eqn:Hc.
    + rewrite (findById_online _ _ _ _ Hid Hc).
      destruct (lookup oid db) as [b|] eqn:Hl; simpl.
      * repeat split; try discriminate.
        intros o Ho _ Hn. inversion Ho; subst. congruence.
      * repeat split; try discriminate.
        intros _. exists oid. split; [reflexivity | exact Hl].
    + rewrite (findById_offline _ _ _ _ Hid Hc). simpl.
      repeat split; discriminate.
  - rewrite (findById_malformed _ _ _ Hid). simpl.
    repeat split; try discriminate.
Qed.

(** C10 at a concrete request: an identifier that is not 24 hexadecimal
    digits yields 500, a well-formed one that is not stored yields 404. *)
Lemma C10_witness :
  Server.status (snd (Server.get_book y2026 "not-an-id" seeded)) = 500
  /\ snd (Server.get_book y2026 (idOf "9") seeded)
     = Server.fail 404 (Server.Text [Lit "Book not found"]).
Proof.
  pose proof (C10_get_book_404_only_for_well_formed_id y2026 seeded "not-an-id")
    as (_ & H & _).
  pose proof (C10_get_book_404_only_for_well_formed_id y2026 seeded (idOf "9"))
    as (_ & _ & H').
  split.
  - apply H. reflexivity.
  - apply (H' 9%N); reflexivity.
Defined.

(** C8. ListByYearAfter returns exactly the stored books whose
    publishedYear is strictly greater than the given year: the route for
    a year string that [parseInt] reads as the number [y], and the
    function of the script for 2015.  The collection is left as it was. *)
Theorem C8_list_by_year_after
    (year : Js.Number) (db : Db) (param : string) (y : Js.Number) :
  connected db = true ->
  Js.parseInt param = y -> Js.isNaN y = false ->
  (exists l,
     Server.get_books_year year param db = (db, Server.succeed 200 (Server.ManyBooks l))
     /\ forall b, In b l <-> In b (books db) /\ Js.ltb y (publishedYear b) = true)
  /\ (exists l,
        Library.getBooksAfter2015 year db = (db, inr l)
        /\ forall b, In b l <->
                     In b (books db) /\ Js.ltb (Js.ofZ 2015) (publishedYear b) = true).
Proof.
  intros Hc Hy Hn. split.
  - exists (filter (fun b => Js.ltb y (publishedYear b)) (books db)).
    split.
    + unfold Server.get_books_year, Server.route, bind. rewrite Hy.
      rewrite (find_online (Server.bookSchema year) (YearGt y)
                 (fun b => Js.ltb y (publishedYear b)) db (castFilter_year _ _ Hn) Hc).
      reflexivity.
    + intro b. rewrite filter_In. reflexivity.
  - exists (filter (fun b => Js.ltb (Js.ofZ 2015) (publishedYear b)) (books db)).
    split.
    + unfold Library.getBooksAfter2015. rewrite rethrow_same.
      rewrite (find_online (Library.bookSchema year) (YearGt (Js.ofZ 2015))
                 (fun b => Js.ltb (Js.ofZ 2015) (publishedYear b)) db eq_refl Hc).
      reflexivity.
    + intro b. rewrite filter_In. reflexivity.
Qed.

(** C8 on the seeded collection: the three books published after 2015,
    also when the year comes after a no-break space. *)
Lemma C8_witness :
  (exists l,
     Server.get_books_year y2026 "2015" seeded
     = (seeded, Server.succeed 200 (Server.ManyBooks l))
     /\ map title l = ["Educated"; "Atomic Habits"; "The Midnight Library"])
  /\ (exists l,
        Server.get_books_year y2026 (nbsp ++ "2015") seeded
        = (seeded, Server.succeed 200 (Server.ManyBooks l))
        /\ List.length l = 3%nat).
Proof.
  destruct (C8_list_by_year_after y2026 seeded "2015" (Js.ofZ 2015)
              eq_refl eq_refl eq_refl) as [[l [H _]] _].
  destruct (C8_list_by_year_after y2026 seeded (nbsp ++ "2015") (Js.ofZ 2015)
              eq_refl eq_refl eq_refl) as [[l' [H' _]] _].
  split.
  - exists l. split; [exact H|].
    vm_compute in H. inversion H. reflexivity.
  - exists l'. split; [exact H'|].
    vm_compute in H'. inversion H'. reflexivity.
Defined.

(* ================================================================== *)
(** ** The collection as a list *)

Lemma wellFormed_spec (s : Schema) (db : Db) :
  wellFormed s db = true <->
  (forall b, In b (books db) -> valid s b = true)
  /\ distinct (ids db) = true
  /\ (forall b, In b (books db) -> (_id b < nextId db)%N).
Proof.
  unfold wellFormed, consistent, ids. rewrite !andb_true_iff, !forallb_forall.
  split.
  - intros [[H1 H2] H3]. repeat split; auto.
    intros b Hb. apply N.ltb_lt. auto.
  - intros (H1 & H2 & H3). repeat split; auto.
    intros b Hb. apply N.ltb_lt. auto.
Qed.

Lemma existsb_id_false (o : ObjectId) (l : list Book) :
  existsb (N.eqb o) (map _id l) = false ->
  forall b, In b l -> _id b <> o.
Proof.
  intros H b Hb E.
  assert (existsb (N.eqb o) (map _id l) = true) as T.
  { apply existsb_exists. exists (_id b). split.
    - apply in_map. exact Hb.
    - subst o. apply N.eqb_refl. }
  congruence.
Qed.

Section Lists.

Variable oid : ObjectId.

Let p : Book -> bool := fun b => N.eqb (_id b) oid.

(** After [replaceFirst], the identifier leads to the new record. *)
Lemma find_replaceFirst (b b' : Book) (l : list Book) :
  _id b' = oid -> List.find p l = Some b ->
  List.find p (replaceFirst p b' l) = Some b'.
Proof.
  intros Hid. induction l as [|x r IH]; simpl; [discriminate|].
  destruct (p x) eqn:Px; intro H.
  - simpl. unfold p at 1. rewrite Hid, N.eqb_refl. reflexivity.
  - simpl. rewrite Px. auto.
Qed.

(** Other identifiers lead to the records they led to. *)
Lemma find_replaceFirst_other (o : ObjectId) (b' : Book) (l : list Book) :
  _id b' = oid -> o <> oid ->
  List.find (fun b => N.eqb (_id b) o) (replaceFirst p b' l)
  = List.find (fun b => N.eqb (_id b) o) l.
Proof.
  intros Hid Ho. induction l as [|x r IH]; simpl; [reflexivity|].
  destruct (p x) eqn:Px; simpl.
  - unfold p in Px. apply N.eqb_eq in Px.
    rewrite Hid, Px.
    destruct (N.eqb oid o) eqn:E; [apply N.eqb_eq in E; congruence | reflexivity].
  - rewrite IH. reflexivity.
Qed.

Lemma map_id_replaceFirst (b' : Book) (l : list Book) :
  _id b' = oid -> map _id (replaceFirst p b' l) = map _id l.
Proof.
  intro Hid. induction l as [|x r IH]; simpl; [reflexivity|].
  destruct (p x) eqn:Px; simpl.
  - unfold p in Px. apply N.eqb_eq in Px. congruence.
  - rewrite IH. reflexivity.
Qed.

Lemma In_replaceFirst (b' x : Book) (l : list Book) :
  In x (replaceFirst p b' l) -> x = b' \/ In x l.
Proof.
  induction l as [|y r IH]; simpl; [tauto|].
  destruct (p y); simpl; intuition.
Qed.

End Lists.

(** Removing the first match of a filter removes the record the filter
    finds; with unique identifiers no record with its identifier is left. *)
Lemma find_removeFirst (q : Book -> bool) (b : Book) (l : list Book) :
  distinct (map _id l) = true -> List.find q l = Some b ->
  List.find (fun x => N.eqb (_id x) (_id b)) (removeFirst q l) = None.
Proof.
  induction l as [|x r IH]; simpl; [discriminate|].
  rewrite andb_true_iff, negb_true_iff. intros [Hx Hr].
  pose proof (existsb_id_false _ _ Hx) as Hfresh.
  destruct (q x) eqn:Qx; intro H.
  - inversion H; subst x.
    destruct (List.find (fun x => N.eqb (_id x) (_id b)) r) as [y|] eqn:E; [|reflexivity].
    apply find_some in E. destruct E as [Hy Ey]. apply N.eqb_eq in Ey.
    exfalso. exact (Hfresh y Hy Ey).
  - simpl. apply find_some in H as H'. destruct H' as [Hb _].
    destruct (N.eqb (_id x) (_id b)) eqn:E.
    + apply N.eqb_eq in E. exfalso. apply (Hfresh b Hb). congruence.
    + auto.
Qed.

Lemma find_removeFirst_other (q : Book -> bool) (b : Book) (o : ObjectId) (l : list Book) :
  List.find q l = Some b -> o <> _id b ->
  List.find (fun x => N.eqb (_id x) o) (removeFirst q l)
  = List.find (fun x => N.eqb (_id x) o) l.
Proof.
  induction l as [|x r IH]; simpl; [discriminate|].
  destruct (q x) eqn:Qx; intros H Ho.
  - inversion H; subst x.
    destruct (N.eqb (_id b) o) eqn:E; [apply N.eqb_eq in E; congruence | reflexivity].
  - simpl. rewrite (IH H Ho). reflexivity.
Qed.

Lemma In_removeFirst (q : Book -> bool) (x : Book) (l : list Book) :
  In x (removeFirst q l) -> In x l.
Proof.
  induction l as [|y r IH]; simpl; [tauto|].
  destruct (q y); simpl; intuition.
Qed.

Lemma distinct_removeFirst (q : Book -> bool) (l : list Book) :
  distinct (map _id l) = true -> distinct (map _id (removeFirst q l)) = true.
Proof.
  induction l as [|x r IH]; simpl; [reflexivity|].
  rewrite andb_true_iff, negb_true_iff. intros [Hx Hr].
  destruct (q x); [exact Hr|]. simpl.
  rewrite andb_true_iff, negb_true_iff. split; [|auto].
  destruct (existsb (N.eqb (_id x)) (map _id (removeFirst q r))) eqn:E; [|reflexivity].
  apply existsb_exists in E. destruct E as [o [Ho Eo]].
  apply in_map_iff in Ho. destruct Ho as [y [Ey Hy]].
  apply In_removeFirst in Hy. apply N.eqb_eq in Eo.
  exfalso. apply (existsb_id_false _ _ Hx y Hy). congruence.
Qed.

(* ================================================================== *)
(** ** AdjustCopies *)

(** Saving a stored record with a new number of copies validates the new
    number only: the other paths hold what was valid before. *)
Lemma validate_setAvailableCopies (s : Schema) (b : Book) (q : Js.Number) :
  valid s b = true -> Js.isNaN q = false ->
  validateNumber (path_availableCopies s) "availableCopies" (Holds q) = inr q ->
  validateDocument s (setAvailableCopies b q) = inr (withCopies b q).
Proof.
  intros Hv Hn Hq. apply valid_spec, validateDocument_inr in Hv.
  destruct Hv as (_ & H1 & H2 & H3 & H4 & _).
  apply validateDocument_inr. unfold setAvailableCopies, setNumber. rewrite Hn.
  simpl in *. repeat split; assumption.
Qed.

(** When the new number fails, its error is the only one. *)
Lemma invalid_setAvailableCopies (s : Schema) (b : Book) (q : Js.Number) e :
  valid s b = true ->
  validateNumber (path_availableCopies s) "availableCopies" (setNumber q) = inl e ->
  validateDocument s (setAvailableCopies b q) = inl [e]
  /\ hasErrorAt "availableCopies" [e].
Proof.
  intros Hv Hq. apply valid_spec, validateDocument_inr in Hv.
  destruct Hv as (_ & H1 & H2 & H3 & H4 & _). split.
  - unfold validateDocument. simpl in *. rewrite H1, H2, H3, H4, Hq. reflexivity.
  - apply validateNumber_inl in Hq. exists (kind e).
    destruct e as [p k]; simpl in *. subst p. left. reflexivity.
Qed.

Lemma copies_server (year : Js.Number) (q : Js.Number) :
  Js.leb Js.zero q = true ->
  validateNumber (path_availableCopies (Server.bookSchema year)) "availableCopies"
    (Holds q) = inr q.
Proof.
  intro H. apply validateNumber_inr. simpl. auto.
Qed.

Lemma copies_library (year : Js.Number) (q : Js.Number) :
  Js.leb Js.zero q = true -> Js.isInteger q = true ->
  validateNumber (path_availableCopies (Library.bookSchema year)) "availableCopies"
    (Holds q) = inr q.
Proof.
  intros H I. apply validateNumber_inr. simpl. auto.
Qed.

(** A number of copies that is not an integer fails under the schema of
    the script. *)
Lemma copies_not_integer (year : Js.Number) (q : Js.Number) :
  Js.isInteger q = false ->
  exists e,
    validateNumber (path_availableCopies (Library.bookSchema year)) "availableCopies"
      (setNumber q) = inl e.
Proof.
  intro Hq.
  destruct (validateNumber (path_availableCopies (Library.bookSchema year))
              "availableCopies" (setNumber q)) as [e|x] eqn:E; [exists e; reflexivity|].
  apply validateNumber_inr in E. destruct E as (E & _ & _ & Hi).
  unfold setNumber in E. destruct (Js.isNaN q); [discriminate|].
  inversion E; subst x. simpl in Hi. congruence.
Qed.

Lemma lookup_id (oid : ObjectId) (db : Db) (b : Book) :
  lookup oid db = Some b -> In b (books db) /\ _id b = oid.
Proof.
  intro H. apply find_some in H. destruct H as [H E].
  apply N.eqb_eq in E. tauto.
Qed.

Lemma lookup_none (oid : ObjectId) (db : Db) :
  lookup oid db = None -> forall x, In x (books db) -> _id x <> oid.
Proof.
  intros H x Hx E. pose proof (find_none _ _ H x Hx) as F. simpl in F.
  apply N.eqb_neq in F. congruence.
Qed.

(** A stored record is found under its own identifier. *)
Lemma lookup_own (db : Db) (b : Book) :
  In b (books db) -> exists x, lookup (_id b) db = Some x.
Proof.
  intro Hin. unfold lookup.
  destruct (List.find (fun b0 => N.eqb (_id b0) (_id b)) (books db)) as [x|] eqn:E.
  - exists x. reflexivity.
  - exfalso. pose proof (find_none _ _ E b Hin) as F. simpl in F.
    rewrite N.eqb_refl in F. discriminate.
Qed.

(** AdjustCopies through the route, step by step. *)
Lemma patch_copies_found (year : Js.Number) (db : Db) (id : string) (oid : ObjectId)
    (b : Book) (change : Js.Field Js.Number) :
  connected db = true -> castObjectId id = Some oid -> lookup oid db = Some b ->
  Server.patch_copies year id change db
  = let sum := Js.add (availableCopies b) (Js.toNumber change) in
    if Js.ltb sum Js.zero
    then (db, Server.fail 400 (Server.Text [Lit "Cannot have negative copies"]))
    else Server.route (
           book <- save (Server.bookSchema year) false (setAvailableCopies b sum) ;;
           ret (Server.succeed 200 (Server.OneBook book))) 400 db.
Proof.
  intros Hc Hid Hl. unfold Server.patch_copies, Server.route, bind.
  rewrite (findById_online _ _ _ _ Hid Hc), Hl. cbv zeta.
  destruct (Js.ltb (Js.add (availableCopies b) (Js.toNumber change)) Js.zero);
    reflexivity.
Qed.

(** An adjustment that keeps the copies at zero or above. *)
Lemma patch_copies_success (year : Js.Number) (db : Db) (id : string) (oid : ObjectId)
    (b : Book) (change : Js.Field Js.Number) :
  connected db = true -> castObjectId id = Some oid ->
  lookup oid db = Some b -> valid (Server.bookSchema year) b = true ->
  let sum := Js.add (availableCopies b) (Js.toNumber change) in
  Js.ltb sum Js.zero = false -> Js.isNaN sum = false ->
  Server.patch_copies year id change db
  = (setBooks (replaceFirst (fun x => N.eqb (_id x) oid) (withCopies b sum) (books db)) db,
     Server.succeed 200 (Server.OneBook (withCopies b sum))).
Proof.
  intros Hc Hid Hl Hb sum Hf Hn.
  rewrite (patch_copies_found year db id oid b change Hc Hid Hl). cbv zeta.
  fold sum. rewrite Hf. unfold Server.route, bind.
  rewrite (save_valid _ _ _ _ _
             (validate_setAvailableCopies _ _ _ Hb Hn
                (copies_server year _ (not_negative _ Hf Hn))) Hc).
  destruct (lookup_id _ _ _ Hl) as [_ Eb]. simpl. rewrite Eb. reflexivity.
Qed.

(** An adjustment whose sum is no number. *)
Lemma patch_copies_nan (year : Js.Number) (db : Db) (id : string) (oid : ObjectId)
    (b : Book) (change : Js.Field Js.Number) :
  connected db = true -> castObjectId id = Some oid ->
  lookup oid db = Some b -> valid (Server.bookSchema year) b = true ->
  Js.isNaN (Js.add (availableCopies b) (Js.toNumber change)) = true ->
  Server.patch_copies year id change db
  = (db, Server.fail 400 (Server.MessageOf
           (ValidationError [{| path := "availableCopies"; kind := CastFailed |}]))).
Proof.
  intros Hc Hid Hl Hb Hn.
  rewrite (patch_copies_found year db id oid b change Hc Hid Hl). cbv zeta.
  assert (Js.ltb (Js.add (availableCopies b) (Js.toNumber change)) Js.zero = false) as Hf.
  { destruct (Js.add (availableCopies b) (Js.toNumber change)); try discriminate.
    reflexivity. }
  rewrite Hf. unfold Server.route, bind.
  destruct (invalid_setAvailableCopies (Server.bookSchema year) b
              (Js.add (availableCopies b) (Js.toNumber change))
              {| path := "availableCopies"; kind := CastFailed |} Hb) as [Hv _].
  { unfold setNumber. rewrite Hn. reflexivity. }
  rewrite (save_invalid _ _ _ _ _ Hv). reflexivity.
Qed.

Lemma patch_copies_malformed (year : Js.Number) (db : Db) (id : string)
    (change : Js.Field Js.Number) :
  castObjectId id = None ->
  Server.patch_copies year id change db
  = (db, Server.fail 400 (Server.MessageOf (CastError "_id"))).
Proof.
  intro Hid. unfold Server.patch_copies, Server.route, bind.
  rewrite (findById_malformed _ _ _ Hid). reflexivity.
Qed.

(** C2, in the form that holds.  AdjustCopies on a collection written
    through the schema, with the store reachable and a numeric change;
    [c + delta] is the sum the code computes, a floating-point number.
    Service mode (PATCH): for a well-formed identifier a missing record
    gives 404; a sum below zero gives 400 and leaves the collection as it
    was, so the record still has [c] copies; a sum that is a number and
    not below zero is stored under the identifier and no other record
    changes; a sum that is no number (an infinity plus the opposite one)
    gives 400 and changes nothing.  An identifier that is not well-formed
    is not looked up: the route answers 400 with the cast error.  Script
    mode ([updateCopies] by title): a title that no record has and a sum
    below zero are thrown, nothing changes; a sum that is an integer and
    not below zero is stored; one that is not an integer is refused by
    validation and nothing changes. *)
Theorem C2_adjust_copies (year : Js.Number) (db : Db) (delta : Js.Number) :
  connected db = true ->
  (forall id oid,
     wellFormed (Server.bookSchema year) db = true ->
     castObjectId id = Some oid ->
     (lookup oid db = None ->
      Server.patch_copies year id (Js.Val delta) db
      = (db, Server.fail 404 (Server.Text [Lit "Book not found"])))
     /\ (forall b, lookup oid db = Some b ->
         let sum := Js.add (availableCopies b) delta in
         (Js.ltb sum Js.zero = true ->
          Server.patch_copies year id (Js.Val delta) db
          = (db, Server.fail 400 (Server.Text [Lit "Cannot have negative copies"])))
         /\ (Js.ltb sum Js.zero = false -> Js.isNaN sum = false ->
             exists db',
               Server.patch_copies year id (Js.Val delta) db
               = (db', Server.succeed 200 (Server.OneBook (withCopies b sum)))
               /\ lookup oid db' = Some (withCopies b sum)
               /\ forall o, o <> oid -> lookup o db' = lookup o db)
         /\ (Js.isNaN sum = true ->
             Server.patch_copies year id (Js.Val delta) db
             = (db, Server.fail 400 (Server.MessageOf
                  (ValidationError
                     [{| path := "availableCopies"; kind := CastFailed |}]))))))
  /\ (forall id,
        castObjectId id = None ->
        Server.patch_copies year id (Js.Val delta) db
        = (db, Server.fail 400 (Server.MessageOf (CastError "_id"))))
  /\ (forall t,
        wellFormed (Library.bookSchema year) db = true ->
        (lookupTitle t db = None ->
         Library.updateCopies year t delta db
         = (db, inl (Error [Lit "Book not found: "; Lit t])))
        /\ (forall b, lookupTitle t db = Some b ->
            let sum := Js.add (availableCopies b) delta in
            (Js.ltb sum Js.zero = true ->
             Library.updateCopies year t delta db
             = (db, inl (Error
                  [Lit "Invalid update: Cannot have negative copies. Current: ";
                   Value (availableCopies b); Lit ", Change: "; Value delta])))
            /\ (Js.ltb sum Js.zero = false -> Js.isInteger sum = true ->
                exists db',
                  Library.updateCopies year t delta db = (db', inr (withCopies b sum))
                  /\ lookup (_id b) db' = Some (withCopies b sum)
                  /\ forall o, o <> _id b -> lookup o db' = lookup o db)
            /\ (Js.ltb sum Js.zero = false -> Js.isInteger sum = false ->
                exists errors,
                  Library.updateCopies year t delta db
                  = (db, inl (ValidationError errors))
                  /\ hasErrorAt "availableCopies" errors))).
Proof.
  intro Hc. split; [|split].
  - intros id oid Hwf Hid.
    apply wellFormed_spec in Hwf. destruct Hwf as (Hvalid & _ & _).
    split.
    + intro Hl. unfold Server.patch_copies, Server.route, bind.
      rewrite (findById_online _ _ _ _ Hid Hc), Hl. reflexivity.
    + intros b Hl sum.
      assert (valid (Server.bookSchema year) b = true) as Hb
        by (apply Hvalid; apply find_some in Hl; tauto).
      destruct (lookup_id _ _ _ Hl) as [_ Eb].
      split; [|split].
      * intro Hneg.
        rewrite (patch_copies_found year db id oid b (Js.Val delta) Hc Hid Hl).
        cbv zeta. simpl Js.toNumber. fold sum. rewrite Hneg. reflexivity.
      * intros Hf Hn.
        rewrite (patch_copies_success year db id oid b (Js.Val delta) Hc Hid Hl Hb Hf Hn).
        simpl Js.toNumber. fold sum.
        eexists. split; [reflexivity|]. split.
        -- unfold lookup. simpl. apply (find_replaceFirst oid b); auto.
        -- intros o Ho. unfold lookup. simpl.
           apply (find_replaceFirst_other oid o); auto.
      * intro Hn. exact (patch_copies_nan year db id oid b (Js.Val delta) Hc Hid Hl Hb Hn).
  - intros id Hid. apply patch_copies_malformed. exact Hid.
  - intros t Hwf.
    apply wellFormed_spec in Hwf. destruct Hwf as (Hvalid & _ & _).
    unfold Library.updateCopies. rewrite rethrow_same. unfold bind.
    rewrite (findOne_title_online (Library.bookSchema year) _ _ eq_refl Hc).
    split.
    + intro Hl. rewrite Hl. reflexivity.
    + intros b Hl. rewrite Hl. cbv zeta.
      set (sum := Js.add (availableCopies b) delta).
      assert (In b (books db)) as Hin by (apply find_some in Hl; tauto).
      pose proof (Hvalid b Hin) as Hb.
      split; [|split].
      * intro Hneg. rewrite Hneg. reflexivity.
      * intros Hf Hi. rewrite Hf.
        pose proof (integer_number _ Hi) as Hn.
        rewrite (save_valid _ _ _ _ _
                   (validate_setAvailableCopies _ _ _ Hb Hn
                      (copies_library year _ (not_negative _ Hf Hn) Hi)) Hc).
        eexists. split; [reflexivity|].
        destruct (lookup_own db b Hin) as [x Hx].
        simpl. split.
        -- unfold lookup. simpl. apply (find_replaceFirst (_id b) x); auto.
        -- intros o Ho. unfold lookup. simpl.
           apply (find_replaceFirst_other (_id b) o); auto.
      * intros Hf Hi. rewrite Hf.
        destruct (copies_not_integer year sum Hi) as [e He].
        destruct (invalid_setAvailableCopies _ b sum e Hb He) as [Hv Hat].
        rewrite (save_invalid _ _ _ _ _ Hv). exists [e]. split; [reflexivity | exact Hat].
Qed.

(** C2 as stated fails in service mode: no record has the identifier
    "not-an-id", and AdjustCopies with it is not answered with NotFound
    but with 400 and the cast error. *)
Lemma C2_counterexample :
  castObjectId "not-an-id" = None
  /\ Server.patch_copies y2026 "not-an-id" (Js.Val (Js.ofZ 1)) seeded
     = (seeded, Server.fail 400 (Server.MessageOf (CastError "_id"))).
Proof.
  split; reflexivity.
Qed.

(** C2 on the seeded collection: taking 100 copies from "The Great
    Gatsby" (5 copies) is refused and changes nothing, adding 2 stores 7,
    an unknown identifier is not found; the script refuses to take 100
    copies from "Atomic Habits", and adds 2 to it when the title comes
    after a no-break space. *)
Lemma C2_witness :
  Server.patch_copies y2026 (idOf "1") (Js.Val (Js.ofZ (-100))) seeded
  = (seeded, Server.fail 400 (Server.Text [Lit "Cannot have negative copies"]))
  /\ Server.patch_copies y2026 (idOf "9") (Js.Val (Js.ofZ (-100))) seeded
     = (seeded, Server.fail 404 (Server.Text [Lit "Book not found"]))
  /\ (exists db' b',
        Server.patch_copies y2026 (idOf "1") (Js.Val (Js.ofZ 2)) seeded
        = (db', Server.succeed 200 (Server.OneBook b'))
        /\ lookup 1%N db' = Some b'
        /\ availableCopies b' = Js.ofZ 7)
  /\ (exists c,
        Library.updateCopies y2026 "Atomic Habits" (Js.ofZ (-100)) seeded
        = (seeded, inl (Error
             [Lit "Invalid update: Cannot have negative copies. Current: ";
              Value c; Lit ", Change: "; Value (Js.ofZ (-100))])))
  /\ (exists db' b',
        Library.updateCopies y2026 (nbsp ++ "Atomic Habits") (Js.ofZ 2) seeded
        = (db', inr b')
        /\ availableCopies b' = Js.ofZ 10).
Proof.
  destruct (C2_adjust_copies y2026 seeded (Js.ofZ (-100)) eq_refl) as (Hs & _ & Hl).
  destruct (C2_adjust_copies y2026 seeded (Js.ofZ 2) eq_refl) as (Hs2 & _ & Hl2).
  destruct (Hs (idOf "1") 1%N eq_refl eq_refl) as (_ & Hfound).
  destruct (Hs (idOf "9") 9%N eq_refl eq_refl) as (Hnone & _).
  destruct (Hs2 (idOf "1") 1%N eq_refl eq_refl) as (_ & Hfound2).
  destruct (Hl "Atomic Habits" eq_refl) as (_ & Hfound').
  destruct (Hl2 (nbsp ++ "Atomic Habits") eq_refl) as (_ & Hfound2').
  split; [|split; [|split; [|split]]].
  - edestruct Hfound as (Hneg & _); [reflexivity|].
    apply Hneg. reflexivity.
  - apply Hnone. reflexivity.
  - edestruct Hfound2 as (_ & Hok & _); [reflexivity|].
    destruct Hok as [db' [H1 [H2 _]]]; [reflexivity | reflexivity |].
    eexists. eexists. split; [exact H1|]. split; [exact H2 | reflexivity].
  - edestruct Hfound' as (Hneg & _); [reflexivity|].
    eexists. apply Hneg. reflexivity.
  - edestruct Hfound2' as (_ & Hok & _); [reflexivity|].
    destruct Hok as [db' [H1 _]]; [reflexivity | reflexivity |].
    eexists. eexists. split; [exact H1 | reflexivity].
Defined.

(** The sum is the one of floating-point numbers: a record with 2^53
    copies still has 2^53 copies after one is added, and one less after
    one is taken from that. *)
Example adjust_copies_rounds :
  let db0 := fst (Server.post_books y2026 (dune (Js.ofZ 1965) (Js.ofZ (2 ^ 53))) emptyDb) in
  let db1 := fst (Server.patch_copies y2026 (idOf "1") (Js.Val (Js.ofZ 1)) db0) in
  let db2 := fst (Server.patch_copies y2026 (idOf "1") (Js.Val (Js.ofZ (-1))) db1) in
  map availableCopies (books db1) = [Js.ofZ (2 ^ 53)]
  /\ map availableCopies (books db2) = [Js.ofZ (2 ^ 53 - 1)].
Proof.
  vm_compute. split; reflexivity.
Qed.

(* ================================================================== *)
(** ** DeleteIfEmpty *)

Lemma findByIdAndDelete_online (s : Schema) (id : string) (oid : ObjectId) (db : Db) :
  castObjectId id = Some oid -> connected db = true ->
  findByIdAndDelete s id db
  = (setBooks (removeFirst (fun b => N.eqb (_id b) oid) (books db)) db,
     inr (lookup oid db)).
Proof.
  intros Hid Hc. unfold findByIdAndDelete, bind, lift.
  rewrite (castFilter_id s id oid Hid), (command_online _ _ Hc). reflexivity.
Qed.

Lemma deleteOne_title_online (s : Schema) (t : string) (db : Db) :
  trim (path_title s) = true -> connected db = true ->
  fst (deleteOne s (WithTitle t) db)
  = setBooks (removeFirst (fun b => String.eqb (title b) (Js.trim t)) (books db)) db
  /\ exists n, snd (deleteOne s (WithTitle t) db) = inr n.
Proof.
  intros Ht Hc. unfold deleteOne, bind, lift. simpl.
  rewrite (command_online _ _ Hc). unfold applySetters. rewrite Ht. simpl.
  split; [reflexivity|]. eexists. reflexivity.
Qed.

Lemma filter_everything (l : list Book) : filter (fun _ => true) l = l.
Proof.
  induction l as [|x r IH]; simpl; [reflexivity | rewrite IH; reflexivity].
Qed.

(** ListAll through the route. *)
Lemma get_books_online (year : Js.Number) (db : Db) :
  connected db = true ->
  Server.get_books year db = (db, Server.succeed 200 (Server.ManyBooks (books db))).
Proof.
  intro Hc. unfold Server.get_books, Server.route, bind.
  rewrite (find_online (Server.bookSchema year) Everything (fun _ => true) db eq_refl Hc).
  rewrite filter_everything. reflexivity.
Qed.

Lemma delete_book_malformed (year : Js.Number) (db : Db) (id : string) :
  castObjectId id = None ->
  Server.delete_book year id db
  = (db, Server.fail 500 (Server.MessageOf (CastError "_id"))).
Proof.
  intro Hid. unfold Server.delete_book, Server.route, bind.
  rewrite (findById_malformed _ _ _ Hid). reflexivity.
Qed.

(** C3, in the form that holds.  DeleteIfEmpty on a collection written
    through the schema, with the store reachable.  Service mode: for a
    well-formed identifier a missing record is not found; a record with
    copies left is refused and the collection stays as it was; a record
    whose number of copies equals zero is removed, after which no listed
    record has its identifier and the other records are untouched; the
    call succeeds exactly when the record exists and has no copies.  An
    identifier that is not well-formed is not looked up: the route
    answers 500 with the cast error.  Script mode, by title: the same
    cases, the failures being thrown.  The script returns the deleted
    record; the route returns a message and no record. *)
Theorem C3_delete_if_empty (year : Js.Number) (db : Db) :
  connected db = true ->
  (forall id oid,
     wellFormed (Server.bookSchema year) db = true ->
     castObjectId id = Some oid ->
     (lookup oid db = None ->
      Server.delete_book year id db
      = (db, Server.fail 404 (Server.Text [Lit "Book not found"])))
     /\ (forall b, lookup oid db = Some b ->
         Js.ltb Js.zero (availableCopies b) = true ->
         Server.delete_book year id db
         = (db, Server.fail 400 (Server.Text
              [Lit "Cannot delete book with "; Value (availableCopies b);
               Lit " copies available"])))
     /\ (forall b, lookup oid db = Some b ->
         Js.eqb (availableCopies b) Js.zero = true ->
         exists db',
           Server.delete_book year id db = (db', deletedResponse)
           /\ lookup oid db' = None
           /\ Server.get_books year db'
              = (db', Server.succeed 200 (Server.ManyBooks (books db')))
           /\ (forall x, In x (books db') -> _id x <> oid)
           /\ (forall o, o <> oid -> lookup o db' = lookup o db))
     /\ (Server.success (snd (Server.delete_book year id db)) = true <->
         exists b, lookup oid db = Some b
                   /\ Js.eqb (availableCopies b) Js.zero = true))
  /\ (forall id,
        castObjectId id = None ->
        Server.delete_book year id db
        = (db, Server.fail 500 (Server.MessageOf (CastError "_id"))))
  /\ (forall t,
        wellFormed (Library.bookSchema year) db = true ->
        (lookupTitle t db = None ->
         Library.deleteBookIfNoCopies year t db
         = (db, inl (Error [Lit "Book not found: "; Lit t])))
        /\ (forall b, lookupTitle t db = Some b ->
            Js.ltb Js.zero (availableCopies b) = true ->
            Library.deleteBookIfNoCopies year t db
            = (db, inl (Error
                 [Lit "Invalid delete: Book "; Lit Library.quote; Lit t;
                  Lit Library.quote; Lit " still has ";
                  Value (availableCopies b); Lit " copies available"])))
        /\ (forall b, lookupTitle t db = Some b ->
            Js.eqb (availableCopies b) Js.zero = true ->
            exists db',
              Library.deleteBookIfNoCopies year t db
              = (db', inr {| Library.deleted := true; Library.book := b |})
              /\ lookup (_id b) db' = None
              /\ (forall x, In x (books db') -> _id x <> _id b)
              /\ (forall o, o <> _id b -> lookup o db' = lookup o db))
        /\ ((exists v, snd (Library.deleteBookIfNoCopies year t db) = inr v) <->
            exists b, lookupTitle t db = Some b
                      /\ Js.eqb (availableCopies b) Js.zero = true)).
Proof.
  intro Hc. split; [|split].
  - intros id oid Hwf Hid.
    apply wellFormed_spec in Hwf. destruct Hwf as (Hvalid & Hdistinct & _).
    unfold Server.delete_book, Server.route, bind.
    rewrite (findById_online _ _ _ _ Hid Hc).
    split; [|split; [|split]].
    + intro Hl. rewrite Hl. reflexivity.
    + intros b Hl Hpos. rewrite Hl. simpl. rewrite Hpos. reflexivity.
    + intros b Hl Hzero. rewrite Hl. simpl.
      rewrite (no_copies_left _ Hzero).
      rewrite (findByIdAndDelete_online _ _ _ _ Hid Hc).
      eexists. split; [reflexivity|].
      destruct (lookup_id _ _ _ Hl) as [Hin Eb].
      assert (lookup oid (setBooks (removeFirst (fun x => N.eqb (_id x) oid) (books db)) db)
              = None) as Hgone.
      { clear - Hdistinct Hl Eb. subst oid. unfold lookup. simpl.
        apply find_removeFirst; [exact Hdistinct | exact Hl]. }
      split; [exact Hgone|]. split; [apply get_books_online; exact Hc|].
      split; [apply lookup_none; exact Hgone|].
      intros o Ho. unfold lookup. simpl.
      apply (find_removeFirst_other _ b); [exact Hl | congruence].
    + destruct (lookup oid db) as [b|] eqn:Hl; simpl.
      * assert (Js.leb Js.zero (availableCopies b) = true) as Hle.
        { destruct (lookup_id _ _ _ Hl) as [Hin _].
          apply Hvalid, valid_server in Hin. unfold Constraints in Hin. tauto. }
        destruct (Js.ltb Js.zero (availableCopies b)) eqn:E; simpl.
        -- split; [discriminate|]. intros [x [Hx Hz]]. inversion Hx; subst x.
           rewrite (no_copies_left _ Hz) in E. discriminate.
        -- rewrite (findByIdAndDelete_online _ _ _ _ Hid Hc). simpl.
           split; [|reflexivity]. intros _. exists b. split; [reflexivity|].
           apply no_copies; assumption.
      * split; [discriminate|]. intros [x [Hx _]]. discriminate.
  - intros id Hid. apply delete_book_malformed. exact Hid.
  - intros t Hwf.
    apply wellFormed_spec in Hwf. destruct Hwf as (Hvalid & Hdistinct & _).
    unfold Library.deleteBookIfNoCopies. rewrite rethrow_same. unfold bind.
    rewrite (findOne_title_online (Library.bookSchema year) _ _ eq_refl Hc).
    destruct (deleteOne_title_online (Library.bookSchema year) t db eq_refl Hc)
      as [Hd1 [n Hd2]].
    destruct (deleteOne (Library.bookSchema year) (WithTitle t) db) as [db1 r1] eqn:Ed.
    simpl in Hd1, Hd2. subst db1 r1.
    split; [|split; [|split]].
    + intro Hl. rewrite Hl. reflexivity.
    + intros b Hl Hpos. rewrite Hl. simpl. rewrite Hpos. reflexivity.
    + intros b Hl Hzero. rewrite Hl. simpl.
      rewrite (no_copies_left _ Hzero). unfold bind. rewrite Ed.
      eexists. split; [reflexivity|].
      assert (lookup (_id b)
                (setBooks (removeFirst
                   (fun x => String.eqb (title x) (Js.trim t)) (books db)) db)
              = None) as Hgone.
      { unfold lookup. simpl. apply find_removeFirst; [exact Hdistinct | exact Hl]. }
      split; [exact Hgone|]. split; [apply lookup_none; exact Hgone|].
      intros o Ho. unfold lookup. simpl.
      apply (find_removeFirst_other _ b); [exact Hl | exact Ho].
    + destruct (lookupTitle t db) as [b|] eqn:Hl; simpl.
      * assert (Js.leb Js.zero (availableCopies b) = true) as Hle.
        { apply find_some in Hl. destruct Hl as [Hin _].
          apply Hvalid, valid_library in Hin.
          unfold DataModel, Constraints in Hin. tauto. }
        destruct (Js.ltb Js.zero (availableCopies b)) eqn:E; simpl.
        -- split; [intros [v Hv]; discriminate|].
           intros [x [Hx Hz]]. inversion Hx; subst x.
           rewrite (no_copies_left _ Hz) in E. discriminate.
        -- unfold bind. rewrite Ed.
           split; [|intros _; eexists; reflexivity].
           intros _. exists b. split; [reflexivity|].
           apply no_copies; assumption.
      * split; [intros [v Hv]; discriminate|]. intros [x [Hx _]]. discriminate.
Qed.

(** C3 as stated fails in service mode: deleting "Dune", which has no
    copies, succeeds and removes the record, but the response carries
    no deleted record, only a message. *)
Lemma C3_counterexample :
  (exists b, lookup 1%N soldOut = Some b /\ Js.eqb (availableCopies b) Js.zero = true)
  /\ Server.success (snd (Server.delete_book y2026 (idOf "1") soldOut)) = true
  /\ lookup 1%N (fst (Server.delete_book y2026 (idOf "1") soldOut)) = None
  /\ Server.data (snd (Server.delete_book y2026 (idOf "1") soldOut)) = None.
Proof.
  split.
  - eexists. split; [vm_compute; reflexivity | reflexivity].
  - vm_compute. repeat split; reflexivity.
Qed.

(** C3 at concrete requests: "Dune" without copies is deleted by the route
    and by the script, which returns it and finds it also under a title
    with a no-break space in front; "The Great Gatsby" with 5 copies is
    refused; an unknown identifier is not found, one that is not
    well-formed is answered with 500. *)
Lemma C3_witness :
  (exists db',
     Server.delete_book y2026 (idOf "1") soldOut = (db', deletedResponse)
     /\ lookup 1%N db' = None)
  /\ (exists c,
        Server.delete_book y2026 (idOf "1") seeded
        = (seeded, Server.fail 400 (Server.Text
             [Lit "Cannot delete book with "; Value c; Lit " copies available"])))
  /\ Server.delete_book y2026 (idOf "9") seeded
     = (seeded, Server.fail 404 (Server.Text [Lit "Book not found"]))
  /\ Server.delete_book y2026 "not-an-id" seeded
     = (seeded, Server.fail 500 (Server.MessageOf (CastError "_id")))
  /\ (exists db' b,
        Library.deleteBookIfNoCopies y2026 (nbsp ++ "Dune") soldOut
        = (db', inr {| Library.deleted := true; Library.book := b |})
        /\ title b = "Dune" /\ books db' = []).
Proof.
  destruct (C3_delete_if_empty y2026 soldOut eq_refl) as (Hs & _ & Hl).
  destruct (C3_delete_if_empty y2026 seeded eq_refl) as (Hs' & Hbad & _).
  destruct (Hs (idOf "1") 1%N eq_refl eq_refl) as (_ & _ & Hzero & _).
  destruct (Hs' (idOf "1") 1%N eq_refl eq_refl) as (_ & Hpos & _).
  destruct (Hs' (idOf "9") 9%N eq_refl eq_refl) as (Hnone & _).
  destruct (Hl (nbsp ++ "Dune") eq_refl) as (_ & _ & Hzero' & _).
  split; [|split; [|split; [|split]]].
  - edestruct Hzero as [db' [H1 [H2 _]]]; [reflexivity | reflexivity |].
    exists db'. split; assumption.
  - eexists. eapply Hpos; [reflexivity | vm_compute; reflexivity].
  - apply Hnone. reflexivity.
  - apply Hbad. reflexivity.
  - edestruct Hzero' as [db' [H1 _]]; [reflexivity | reflexivity |].
    eexists. eexists. split; [exact H1|].
    split; [reflexivity|]. vm_compute in H1. inversion H1. reflexivity.
Defined.

(* ================================================================== *)
(** ** Create *)

Lemma new_run (s : Schema) (body : Body) (db : Db) :
  new s body db
  = ({| connected := connected db; books := books db; nextId := N.succ (nextId db) |},
     inr (newDocument s (nextId db) body)).
Proof. reflexivity. Qed.

Lemma setNumber_number (q : Js.Number) : Js.isNaN q = false -> setNumber q = Holds q.
Proof. intro H. unfold setNumber. rewrite H. reflexivity. Qed.

Lemma setNumber_holds (q x : Js.Number) :
  setNumber q = Holds x -> x = q /\ Js.isNaN q = false.
Proof.
  unfold setNumber. destruct (Js.isNaN q); intro H; inversion H. auto.
Qed.

(** C4, in the form that holds.  A Create input whose title and author
    are not empty once trimmed, whose category is in the enumeration,
    whose year is an integer between 1000 and the year of the schema and
    whose copies are a non-negative integer or omitted, is stored when
    the store can be reached: the route answers 201 with the stored
    record, which carries the generated identifier and the trimmed title
    and author, satisfies every constraint of the data model, and has one
    copy when the input had none. *)
Theorem C4_create_valid_input
    (year : Js.Number) (db : Db) (t a c : string) (y : Js.Number)
    (n : option Js.Number) :
  connected db = true ->
  Js.trim t <> "" -> Js.trim a <> "" ->
  In c Sample.categories ->
  Js.isInteger y = true ->
  Js.leb (Js.ofZ 1000) y = true -> Js.leb y year = true ->
  (forall k, n = Some k -> Js.isInteger k = true /\ Js.leb Js.zero k = true) ->
  let b := {| _id := nextId db; title := Js.trim t; author := Js.trim a;
              category := c; publishedYear := y;
              availableCopies := match n with
                                 | Some k => k
                                 | None => Js.ofZ 1
                                 end |} in
  Server.post_books year (createInput t a c y n) db
  = ({| connected := true; books := (books db ++ [b])%list;
        nextId := N.succ (nextId db) |},
     Server.succeed 201 (Server.OneBook b))
  /\ DataModel year b
  /\ (n = None -> availableCopies b = Js.ofZ 1).
Proof.
  intros Hc Ht Ha Hcat Hi Hlo Hhi Hn b.
  assert (Js.leb Js.zero (availableCopies b) = true
          /\ Js.isInteger (availableCopies b) = true) as [Hcopies Hicopies].
  { subst b. simpl. destruct n as [k|].
    - destruct (Hn k eq_refl). split; assumption.
    - split; reflexivity. }
  assert (validateDocument (Server.bookSchema year)
            (newDocument (Server.bookSchema year) (nextId db) (createInput t a c y n))
          = inr b) as Hv.
  { apply validateDocument_inr. simpl.
    rewrite (setNumber_number y (integer_number y Hi)).
    repeat rewrite validateString_inr. repeat rewrite validateNumber_inr. simpl.
    rewrite inEnum_In.
    pose proof (category_not_empty c Hcat).
    destruct n as [k|]; simpl in *;
      [rewrite (setNumber_number k (integer_number k Hicopies))|];
      repeat split; auto. }
  split; [|split].
  - unfold Server.post_books, Server.route, bind. rewrite new_run.
    rewrite (save_valid _ _ _ _ _ Hv); [|exact Hc].
    unfold setBooks, ret. simpl. rewrite Hc. reflexivity.
  - unfold DataModel, Constraints. subst b. simpl in *.
    pose proof (category_not_empty c Hcat). repeat split; auto.
  - intro E. subst n b. reflexivity.
Qed.

(** C4 as stated fails: a title made of one space, or of one no-break
    space, is not empty, the other fields are valid, and yet Create
    answers 400, because the title is trimmed before the [required]
    validator runs; nothing is stored. *)
Lemma C4_counterexample :
  " " <> "" /\ nbsp <> ""
  /\ (forall t, t = " " \/ t = nbsp ->
      snd (Server.post_books y2026
             (createInput t "Frank Herbert" "Fiction" (Js.ofZ 1965) (Some (Js.ofZ 3)))
             emptyDb)
      = Server.fail 400 (Server.MessageOf
          (ValidationError [{| path := "title"; kind := Required |}]))
      /\ books (fst (Server.post_books y2026
                       (createInput t "Frank Herbert" "Fiction" (Js.ofZ 1965)
                          (Some (Js.ofZ 3)))
                       emptyDb)) = []).
Proof.
  split; [discriminate|]. split; [discriminate|].
  intros t [E|E]; subst t; split; reflexivity.
Qed.

(** C4 at the Create request of the scenario, and with the copies omitted. *)
Lemma C4_witness :
  (exists db' b,
     Server.post_books y2026
       (createInput "Dune" "Frank Herbert" "Fiction" (Js.ofZ 1965) (Some (Js.ofZ 3)))
       emptyDb
     = (db', Server.succeed 201 (Server.OneBook b))
     /\ availableCopies b = Js.ofZ 3 /\ DataModel y2026 b)
  /\ (exists db' b,
        Server.post_books y2026
          (createInput (nbsp ++ " Dune ") "Frank Herbert" "Fiction" (Js.ofZ 1965) None)
          emptyDb
        = (db', Server.succeed 201 (Server.OneBook b))
        /\ title b = "Dune" /\ availableCopies b = Js.ofZ 1).
Proof.
  split.
  - destruct (C4_create_valid_input y2026 emptyDb "Dune" "Frank Herbert" "Fiction"
                (Js.ofZ 1965) (Some (Js.ofZ 3))) as (H1 & H2 & _);
      try reflexivity; try discriminate.
    + simpl. tauto.
    + intros k E. inversion E. split; reflexivity.
    + eexists. eexists. split; [exact H1|]. split; [reflexivity | exact H2].
  - destruct (C4_create_valid_input y2026 emptyDb (nbsp ++ " Dune ") "Frank Herbert"
                "Fiction" (Js.ofZ 1965) None) as (H1 & _ & H3);
      try reflexivity; try discriminate.
    + simpl. tauto.
    + eexists. eexists. split; [exact H1|]. split; [reflexivity | exact (H3 eq_refl)].
Defined.

(* ================================================================== *)
(** ** UpdateFields *)

Lemma validateUpdateString_some (p : StringPath) (name : string)
    (v : Js.Field string) (x : string) :
  validateUpdateString p name v = inr (Some x) ->
  validateString p name (Holds x) = inr x.
Proof.
  unfold validateUpdateString. destruct v as [| |y]; simpl; try discriminate.
  destruct (validateString p name (Holds (applySetters p y))) as [e|z] eqn:E;
    intro H; try discriminate.
  inversion H; subst z.
  apply validateString_inr in E as E'. destruct E' as [E' _].
  inversion E' as [E'']. rewrite E'' in *. exact E.
Qed.

Lemma validateUpdateNumber_some (p : NumberPath) (name : string)
    (v : Js.Field Js.Number) (q : Js.Number) :
  validateUpdateNumber p name v = inr (Some q) ->
  validateNumber p name (Holds q) = inr q.
Proof.
  unfold validateUpdateNumber. destruct v as [| |y]; simpl; try discriminate.
  destruct (validateNumber p name (Holds y)) as [e|z] eqn:E;
    intro H; try discriminate.
  inversion H; subst z.
  apply validateNumber_inr in E as E'. destruct E' as [E' _].
  inversion E'. subst y. exact E.
Qed.

(** Update validation succeeds exactly when it does on every path. *)
Lemma validateUpdate_inr (s : Schema) (body : Body) (u : Update) :
  validateUpdate s body = inr u <->
  validateUpdateString (path_title s) "title" (body_title body) = inr (set_title u)
  /\ validateUpdateString (path_author s) "author" (body_author body) = inr (set_author u)
  /\ validateUpdateString (path_category s) "category" (body_category body)
     = inr (set_category u)
  /\ validateUpdateNumber (path_publishedYear s) "publishedYear" (body_publishedYear body)
     = inr (set_publishedYear u)
  /\ validateUpdateNumber (path_availableCopies s) "availableCopies"
       (body_availableCopies body) = inr (set_availableCopies u).
Proof.
  unfold validateUpdate.
  destruct (validateUpdateString (path_title s) "title" (body_title body)) as [e1|t];
  destruct (validateUpdateString (path_author s) "author" (body_author body)) as [e2|a];
  destruct (validateUpdateString (path_category s) "category" (body_category body)) as [e3|c];
  destruct (validateUpdateNumber (path_publishedYear s) "publishedYear"
              (body_publishedYear body)) as [e4|y];
  destruct (validateUpdateNumber (path_availableCopies s) "availableCopies"
              (body_availableCopies body)) as [e5|n];
  (split;
   [ intro H; try discriminate; inversion H; subst; simpl; repeat split; reflexivity
   | intros (H1 & H2 & H3 & H4 & H5); try discriminate;
     destruct u; simpl in *; congruence ]).
Qed.

(** A valid record stays valid under a validated update. *)
Lemma applyUpdate_valid (s : Schema) (body : Body) (u : Update) (b : Book) :
  validateUpdate s body = inr u -> valid s b = true ->
  valid s (applyUpdate u b) = true.
Proof.
  intros Hu Hb. apply validateUpdate_inr in Hu.
  destruct Hu as (H1 & H2 & H3 & H4 & H5).
  apply valid_spec, validateDocument_inr in Hb.
  destruct Hb as (_ & B1 & B2 & B3 & B4 & B5). simpl in *.
  apply valid_spec, validateDocument_inr. simpl.
  destruct u as [ut ua uc uy un]; simpl in *.
  split; [reflexivity|].
  split; [destruct ut; simpl; eauto using validateUpdateString_some|].
  split; [destruct ua; simpl; eauto using validateUpdateString_some|].
  split; [destruct uc; simpl; eauto using validateUpdateString_some|].
  split; [destruct uy; simpl; eauto using validateUpdateNumber_some|].
  destruct un; simpl; eauto using validateUpdateNumber_some.
Qed.

Lemma validateUpdateString_inl (p : StringPath) (name : string)
    (v : Js.Field string) e :
  validateUpdateString p name v = inl e -> path e = name.
Proof.
  unfold validateUpdateString. destruct v as [| |y]; simpl; try discriminate.
  - intro H. inversion H. reflexivity.
  - destruct (validateString p name (Holds (applySetters p y))) as [e'|x] eqn:E;
      intro H; inversion H.
    subst. exact (validateString_inl _ _ _ _ E).
Qed.

Lemma validateUpdateNumber_inl (p : NumberPath) (name : string)
    (v : Js.Field Js.Number) e :
  validateUpdateNumber p name v = inl e -> path e = name.
Proof.
  unfold validateUpdateNumber. destruct v as [| |y]; simpl; try discriminate.
  - intro H. inversion H. reflexivity.
  - destruct (validateNumber p name (Holds y)) as [e'|x] eqn:E;
      intro H; inversion H.
    subst. exact (validateNumber_inl _ _ _ _ E).
Qed.

(** What the update validators of the server accept, field by field. *)
Lemma update_text (p : StringPath) (name : string) (f : Js.Field string)
    (x : option string) :
  trim p = true -> enum p = None -> minlength p = None ->
  validateUpdateString p name f = inr x <-> textOk f /\ x = textSet f.
Proof.
  intros Ht He Hm. unfold validateUpdateString, textOk, textSet.
  destruct f as [| |s].
  - split; [intro H; inversion H; auto | intros [_ E]; subst; reflexivity].
  - unfold validateString, setString.
    split; [discriminate | intros [[E|[s [E _]]] _]; discriminate].
  - unfold setString, applySetters. rewrite Ht.
    destruct (validateString p name (Holds (Js.trim s))) as [e|y] eqn:E.
    + split; [discriminate|]. intros [[F|[s' [F N]]] _]; [discriminate|].
      inversion F; subst s'.
      assert (validateString p name (Holds (Js.trim s)) = inr (Js.trim s)) as E'.
      { apply validateString_inr. rewrite He, Hm. auto. }
      congruence.
    + apply validateString_inr in E. destruct E as (E & N & _). inversion E; subst y.
      split.
      * intro H. inversion H. split; [right; exists s; auto | reflexivity].
      * intros [_ F]. subst. reflexivity.
Qed.

Lemma update_category (year : Js.Number) (f : Js.Field string) (x : option string) :
  validateUpdateString (path_category (Server.bookSchema year)) "category" f = inr x
  <-> categoryOk f /\ x = valueSet f.
Proof.
  unfold validateUpdateString, categoryOk, valueSet.
  destruct f as [| |c].
  - split; [intro H; inversion H; auto | intros [_ E]; subst; reflexivity].
  - unfold validateString, setString.
    split; [discriminate | intros [[E|[s [E _]]] _]; discriminate].
  - unfold setString.
    change (applySetters (path_category (Server.bookSchema year)) c) with c.
    destruct (validateString (path_category (Server.bookSchema year)) "category" (Holds c))
      as [e|y] eqn:E.
    + split; [discriminate|]. intros [[F|[c' [F N]]] _]; [discriminate|].
      inversion F; subst c'.
      assert (validateString (path_category (Server.bookSchema year)) "category"
                (Holds c) = inr c) as E'.
      { apply validateString_inr. simpl. rewrite inEnum_In.
        pose proof (category_not_empty c N). auto. }
      congruence.
    + apply validateString_inr in E. destruct E as (E & _ & N & _). inversion E; subst y.
      simpl in N. apply inEnum_In in N.
      split.
      * intro H. inversion H. split; [right; exists c; auto | reflexivity].
      * intros [_ F]. subst. reflexivity.
Qed.

Lemma update_year (year : Js.Number) (f : Js.Field Js.Number) (x : option Js.Number) :
  validateUpdateNumber (path_publishedYear (Server.bookSchema year)) "publishedYear" f
  = inr x
  <-> yearOk year f /\ x = valueSet f.
Proof.
  unfold validateUpdateNumber, yearOk, valueSet.
  destruct f as [| |y].
  - split; [intro H; inversion H; auto | intros [_ E]; subst; reflexivity].
  - unfold validateNumber.
    split; [discriminate | intros [[E|[s [E _]]] _]; discriminate].
  - destruct (validateNumber (path_publishedYear (Server.bookSchema year))
                "publishedYear" (Holds y)) as [e|z] eqn:E.
    + split; [discriminate|]. intros [[F|[y' [F [N1 N2]]]] _]; [discriminate|].
      inversion F; subst y'.
      assert (validateNumber (path_publishedYear (Server.bookSchema year))
                "publishedYear" (Holds y) = inr y) as E'
        by (apply validateNumber_inr; simpl; auto).
      congruence.
    + apply validateNumber_inr in E. destruct E as (E & N1 & N2 & _).
      inversion E; subst z. simpl in N1, N2.
      split.
      * intro H. inversion H. split; [right; exists y; auto | reflexivity].
      * intros [_ F]. subst. reflexivity.
Qed.

Lemma update_copies (year : Js.Number) (f : Js.Field Js.Number) (x : option Js.Number) :
  validateUpdateNumber (path_availableCopies (Server.bookSchema year)) "availableCopies" f
  = inr x
  <-> copiesOk f /\ x = valueSet f.
Proof.
  unfold validateUpdateNumber, copiesOk, valueSet.
  destruct f as [| |n].
  - split; [intro H; inversion H; auto | intros [_ E]; subst; reflexivity].
  - unfold validateNumber.
    split; [discriminate | intros [[E|[s [E _]]] _]; discriminate].
  - destruct (validateNumber (path_availableCopies (Server.bookSchema year))
                "availableCopies" (Holds n)) as [e|z] eqn:E.
    + split; [discriminate|]. intros [[F|[n' [F N]]] _]; [discriminate|].
      inversion F; subst n'.
      assert (validateNumber (path_availableCopies (Server.bookSchema year))
                "availableCopies" (Holds n) = inr n) as E'
        by (apply validateNumber_inr; simpl; auto).
      congruence.
    + apply validateNumber_inr in E. destruct E as (E & N & _).
      inversion E; subst z. simpl in N.
      split.
      * intro H. inversion H. split; [right; exists n; auto | reflexivity].
      * intros [_ F]. subst. reflexivity.
Qed.

(** The update validators of the server accept exactly the updates whose
    fields satisfy their constraints, and what they set is the merged
    record. *)
Lemma validateUpdate_ok (year : Js.Number) (body : Body) (u : Update) :
  validateUpdate (Server.bookSchema year) body = inr u <->
  UpdateOk year body
  /\ u = {| set_title := textSet (body_title body);
            set_author := textSet (body_author body);
            set_category := valueSet (body_category body);
            set_publishedYear := valueSet (body_publishedYear body);
            set_availableCopies := valueSet (body_availableCopies body) |}.
Proof.
  rewrite validateUpdate_inr.
  rewrite (update_text (path_title (Server.bookSchema year)) "title" _ _
             eq_refl eq_refl eq_refl).
  rewrite (update_text (path_author (Server.bookSchema year)) "author" _ _
             eq_refl eq_refl eq_refl).
  rewrite update_category, update_year, update_copies.
  unfold UpdateOk. destruct u as [ut ua uc uy un]; simpl.
  split.
  - intros ((H1 & E1) & (H2 & E2) & (H3 & E3) & (H4 & E4) & (H5 & E5)).
    subst. auto 10.
  - intros ((H1 & H2 & H3 & H4 & H5) & E). inversion E. auto 10.
Qed.

Lemma applyUpdate_merged (body : Body) (b : Book) :
  applyUpdate {| set_title := textSet (body_title body);
                 set_author := textSet (body_author body);
                 set_category := valueSet (body_category body);
                 set_publishedYear := valueSet (body_publishedYear body);
                 set_availableCopies := valueSet (body_availableCopies body) |} b
  = merged body b.
Proof.
  unfold applyUpdate, merged. simpl.
  destruct (body_title body), (body_author body), (body_category body),
    (body_publishedYear body), (body_availableCopies body); reflexivity.
Qed.

(** An update whose numbers are numbers passes the cast. *)
Lemma castUpdate_json (body : Body) : Json body -> castUpdate body = inr tt.
Proof.
  intros [Hy Hn]. unfold castUpdate, castUpdateNumber, numeric in *.
  destruct (body_publishedYear body) as [| |y];
    destruct (body_availableCopies body) as [| |n];
    try rewrite (Hy y eq_refl); try rewrite (Hn n eq_refl); reflexivity.
Qed.

Lemma updateOk_json (year : Js.Number) (body : Body) : UpdateOk year body -> Json body.
Proof.
  intros (_ & _ & _ & Hy & Hn). unfold Json, numeric. split; intros q E.
  - destruct Hy as [Hy|(y & Hy & H1 & _)]; [congruence|].
    rewrite E in Hy. inversion Hy; subst. exact (proj2 (leb_number _ _ H1)).
  - destruct Hn as [Hn|(n & Hn & H1)]; [congruence|].
    rewrite E in Hn. inversion Hn; subst. exact (proj2 (leb_number _ _ H1)).
Qed.

(** UpdateFields through the route, with a well-formed identifier: a
    valid update, and one that is refused. *)
Lemma put_book_ok (year : Js.Number) (db : Db) (id : string) (oid : ObjectId)
    (body : Body) :
  castObjectId id = Some oid -> UpdateOk year body -> connected db = true ->
  Server.put_book year id body db
  = match lookup oid db with
    | None => (db, Server.fail 404 (Server.Text [Lit "Book not found"]))
    | Some b =>
        (setBooks (replaceFirst (fun x => N.eqb (_id x) oid) (merged body b) (books db)) db,
         Server.succeed 200 (Server.OneBook (merged body b)))
    end.
Proof.
  intros Hid Hok Hc.
  unfold Server.put_book, Server.route, findByIdAndUpdate, bind, lift.
  rewrite (castFilter_id _ _ _ Hid), (castUpdate_json body (updateOk_json year body Hok)).
  rewrite (proj2 (validateUpdate_ok year body _) (conj Hok eq_refl)).
  unfold ret. rewrite (command_online _ _ Hc). fold (lookup oid db).
  destruct (lookup oid db) as [b|]; simpl.
  - rewrite applyUpdate_merged. reflexivity.
  - rewrite setBooks_same. reflexivity.
Qed.

Lemma put_book_invalid (year : Js.Number) (db : Db) (id : string) (oid : ObjectId)
    (body : Body) (errors : list ValidatorError) :
  castObjectId id = Some oid -> Json body ->
  validateUpdate (Server.bookSchema year) body = inl errors ->
  Server.put_book year id body db
  = (db, Server.fail 400 (Server.MessageOf (ValidationError errors))).
Proof.
  intros Hid Hj He.
  unfold Server.put_book, Server.route, findByIdAndUpdate, bind, lift.
  rewrite (castFilter_id _ _ _ Hid), (castUpdate_json body Hj), He. reflexivity.
Qed.

Ltac named :=
  repeat match goal with
    | H : validateUpdateString _ _ _ = inl ?e |- _ =>
        let P := fresh "P" in
        pose proof (validateUpdateString_inl _ _ _ _ H) as P;
        destruct e; simpl in P; subst; clear H
    | H : validateUpdateNumber _ _ _ = inl ?e |- _ =>
        let P := fresh "P" in
        pose proof (validateUpdateNumber_inl _ _ _ _ H) as P;
        destruct e; simpl in P; subst; clear H
    end.

Ltac listed :=
  unfold hasErrorAt; simpl;
  first
    [ eexists; simpl; eauto 10; fail
    | let k := fresh "k" in
      let H := fresh "H" in
      intros [k H]; simpl in H;
      repeat (destruct H as [H|H]; [discriminate H|]); contradiction H ].

(** The errors of a refused update name the fields that violate their
    constraint, and no other. *)
Lemma validateUpdate_errors (year : Js.Number) (body : Body)
    (errors : list ValidatorError) :
  validateUpdate (Server.bookSchema year) body = inl errors ->
  (hasErrorAt "title" errors <-> ~ textOk (body_title body))
  /\ (hasErrorAt "author" errors <-> ~ textOk (body_author body))
  /\ (hasErrorAt "category" errors <-> ~ categoryOk (body_category body))
  /\ (hasErrorAt "publishedYear" errors <-> ~ yearOk year (body_publishedYear body))
  /\ (hasErrorAt "availableCopies" errors <-> ~ copiesOk (body_availableCopies body)).
Proof.
  unfold validateUpdate.
  pose proof (update_text (path_title (Server.bookSchema year)) "title"
                (body_title body)) as T.
  pose proof (update_text (path_author (Server.bookSchema year)) "author"
                (body_author body)) as A.
  pose proof (update_category year (body_category body)) as C.
  pose proof (update_year year (body_publishedYear body)) as Y.
  pose proof (update_copies year (body_availableCopies body)) as N.
  destruct (validateUpdateString (path_title (Server.bookSchema year)) "title"
              (body_title body)) as [e1|t] eqn:E1;
  destruct (validateUpdateString (path_author (Server.bookSchema year)) "author"
              (body_author body)) as [e2|a] eqn:E2;
  destruct (validateUpdateString (path_category (Server.bookSchema year)) "category"
              (body_category body)) as [e3|c] eqn:E3;
  destruct (validateUpdateNumber (path_publishedYear (Server.bookSchema year))
              "publishedYear" (body_publishedYear body)) as [e4|y] eqn:E4;
  destruct (validateUpdateNumber (path_availableCopies (Server.bookSchema year))
              "availableCopies" (body_availableCopies body)) as [e5|n] eqn:E5;
  intro H; inversion H; subst errors; clear H; named;
  repeat match goal with
    | |- _ /\ _ => split
    end;
  match goal with
  | |- hasErrorAt "title" _ <-> _ =>
      first
        [ split; [intros _ Ok; discriminate (proj2 (T (textSet (body_title body)) eq_refl eq_refl eq_refl)
                                           (conj Ok eq_refl))
                 | intros _; listed ]
        | split; [listed | intro No; exfalso; apply No;
                           exact (proj1 (proj1 (T _ eq_refl eq_refl eq_refl) eq_refl))] ]
  | |- hasErrorAt "author" _ <-> _ =>
      first
        [ split; [intros _ Ok; discriminate (proj2 (A (textSet (body_author body)) eq_refl eq_refl eq_refl)
                                           (conj Ok eq_refl))
                 | intros _; listed ]
        | split; [listed | intro No; exfalso; apply No;
                           exact (proj1 (proj1 (A _ eq_refl eq_refl eq_refl) eq_refl))] ]
  | |- hasErrorAt "category" _ <-> _ =>
      first
        [ split; [intros _ Ok; discriminate (proj2 (C (valueSet (body_category body)))
                                           (conj Ok eq_refl))
                 | intros _; listed ]
        | split; [listed | intro No; exfalso; apply No;
                           exact (proj1 (proj1 (C _) eq_refl))] ]
  | |- hasErrorAt "publishedYear" _ <-> _ =>
      first
        [ split; [intros _ Ok; discriminate (proj2 (Y (valueSet (body_publishedYear body)))
                                           (conj Ok eq_refl))
                 | intros _; listed ]
        | split; [listed | intro No; exfalso; apply No;
                           exact (proj1 (proj1 (Y _) eq_refl))] ]
  | |- hasErrorAt "availableCopies" _ <-> _ =>
      first
        [ split; [intros _ Ok; discriminate (proj2 (N (valueSet (body_availableCopies body)))
                                           (conj Ok eq_refl))
                 | intros _; listed ]
        | split; [listed | intro No; exfalso; apply No;
                           exact (proj1 (proj1 (N _) eq_refl))] ]
  end.
Qed.

(** A merged record satisfies the constraints when the stored one did
    and the update is valid. *)
Lemma merged_constraints (year : Js.Number) (body : Body) (b : Book) :
  UpdateOk year body -> Constraints year b -> Constraints year (merged body b).
Proof.
  intros (Ht & Ha & Hc & Hy & Hn) (B1 & B2 & B3 & B4 & B5 & B6).
  unfold Constraints, merged. simpl.
  split; [|split; [|split; [|split; [|split]]]].
  - destruct Ht as [E|(s & E & N)]; rewrite E; simpl; assumption.
  - destruct Ha as [E|(s & E & N)]; rewrite E; simpl; assumption.
  - destruct Hc as [E|(s & E & N)]; rewrite E; simpl; assumption.
  - destruct Hy as [E|(s & E & N1 & N2)]; rewrite E; simpl; assumption.
  - destruct Hy as [E|(s & E & N1 & N2)]; rewrite E; simpl; assumption.
  - destruct Hn as [E|(s & E & N)]; rewrite E; simpl; assumption.
Qed.

(** C5, in the form that holds.  UpdateFields with a well-formed
    identifier and a body that gives schema fields only checks the fields
    the request mentions, and does so before the record is looked up.  If one of them violates its constraint, the
    route answers 400 with a validation error that names exactly the
    violating fields, whether or not a record has the identifier, and
    nothing changes.  If none does and the store can be reached, a
    missing record gives 404; otherwise the merged record, which has the
    value of the body in every field the body mentions (title and author
    trimmed) and the stored value in the others, is stored under the
    identifier and returned, the other records are untouched, and the
    merged record satisfies the constraints whenever the stored one did. *)
Theorem C5_update_fields
    (year : Js.Number) (db : Db) (id : string) (oid : ObjectId) (body : Body) :
  castObjectId id = Some oid ->
  (Json body -> ~ UpdateOk year body ->
   exists errors,
     Server.put_book year id body db
     = (db, Server.fail 400 (Server.MessageOf (ValidationError errors)))
     /\ (hasErrorAt "title" errors <-> ~ textOk (body_title body))
     /\ (hasErrorAt "author" errors <-> ~ textOk (body_author body))
     /\ (hasErrorAt "category" errors <-> ~ categoryOk (body_category body))
     /\ (hasErrorAt "publishedYear" errors <-> ~ yearOk year (body_publishedYear body))
     /\ (hasErrorAt "availableCopies" errors
         <-> ~ copiesOk (body_availableCopies body)))
  /\ (UpdateOk year body -> connected db = true ->
      (lookup oid db = None ->
       Server.put_book year id body db
       = (db, Server.fail 404 (Server.Text [Lit "Book not found"])))
      /\ (forall b, lookup oid db = Some b ->
          exists db',
            Server.put_book year id body db
            = (db', Server.succeed 200 (Server.OneBook (merged body b)))
            /\ lookup oid db' = Some (merged body b)
            /\ (forall o, o <> oid -> lookup o db' = lookup o db)
            /\ (Constraints year b -> Constraints year (merged body b)))).
Proof.
  intro Hid. split.
  - intros Hj Hno.
    destruct (validateUpdate (Server.bookSchema year) body) as [errors|u] eqn:E.
    + exists errors. split; [exact (put_book_invalid year db id oid body errors Hid Hj E)|].
      exact (validateUpdate_errors year body errors E).
    + exfalso. apply Hno. apply validateUpdate_ok in E. tauto.
  - intros Hok Hc. rewrite (put_book_ok year db id oid body Hid Hok Hc).
    split.
    + intro Hl. rewrite Hl. reflexivity.
    + intros b Hl. rewrite Hl.
      eexists. split; [reflexivity|].
      destruct (lookup_id _ _ _ Hl) as [_ Eb].
      split; [|split].
      * unfold lookup. simpl. apply (find_replaceFirst oid b); auto.
      * intros o Ho. unfold lookup. simpl.
        apply (find_replaceFirst_other oid o); auto.
      * apply merged_constraints. exact Hok.
Qed.

(** C5 as stated fails: no record has the identifier, so the claim asks
    for NotFound, but the update names a category outside the enumeration
    and the route answers 400 with the validation error. *)
Lemma C5_counterexample :
  lookup 1%N emptyDb = None
  /\ Server.put_book y2026 (idOf "1") (onlyCategory "Bogus") emptyDb
     = (emptyDb, Server.fail 400 (Server.MessageOf
          (ValidationError [{| path := "category"; kind := Enum |}]))).
Proof.
  split; reflexivity.
Qed.

(** Only the fields of the update are validated: renaming the record of
    [legacy] succeeds although the merged record has a category outside
    the enumeration. *)
Example update_keeps_unmentioned_fields_unchecked :
  exists db' b,
    Server.put_book y2026 (idOf "1") (onlyTitle "Maus I") legacy
    = (db', Server.succeed 200 (Server.OneBook b))
    /\ category b = "Comics"
    /\ valid (Server.bookSchema y2026) b = false.
Proof.
  eexists. eexists. split; [reflexivity|]. split; reflexivity.
Qed.

Lemma onlyCategory_ok (year : Js.Number) (c : string) :
  In c Sample.categories -> UpdateOk year (onlyCategory c).
Proof.
  intro H. unfold UpdateOk, onlyCategory. simpl.
  repeat split; try (left; reflexivity). right. exists c. auto.
Qed.

Lemma onlyTitle_ok (year : Js.Number) (t : string) :
  Js.trim t <> "" -> UpdateOk year (onlyTitle t).
Proof.
  intro H. unfold UpdateOk, onlyTitle. simpl.
  repeat split; try (left; reflexivity). right. exists t. auto.
Qed.

Lemma onlyCategory_json (c : string) : Json (onlyCategory c).
Proof. split; intros q E; discriminate. Qed.

Lemma onlyTitle_json (t : string) : Json (onlyTitle t).
Proof. split; intros q E; discriminate. Qed.

(** C5 on the seeded collection: moving "Sapiens" to Science is stored, a
    title is stored trimmed, a category outside the enumeration and a
    title made of a no-break space are refused, an unknown identifier is
    not found. *)
Lemma C5_witness :
  (exists db' b,
     Server.put_book y2026 (idOf "3") (onlyCategory "Science") seeded
     = (db', Server.succeed 200 (Server.OneBook b))
     /\ lookup 3%N db' = Some b
     /\ title b = "Sapiens" /\ category b = "Science")
  /\ (exists db' b,
        Server.put_book y2026 (idOf "3") (onlyTitle (nbsp ++ "Sapiens, again ")) seeded
        = (db', Server.succeed 200 (Server.OneBook b))
        /\ title b = "Sapiens, again")
  /\ Server.put_book y2026 (idOf "9") (onlyCategory "Science") seeded
     = (seeded, Server.fail 404 (Server.Text [Lit "Book not found"]))
  /\ (exists errors,
        Server.put_book y2026 (idOf "3") (onlyCategory "Bogus") seeded
        = (seeded, Server.fail 400 (Server.MessageOf (ValidationError errors)))
        /\ hasErrorAt "category" errors /\ ~ hasErrorAt "title" errors)
  /\ (exists errors,
        Server.put_book y2026 (idOf "3") (onlyTitle nbsp) seeded
        = (seeded, Server.fail 400 (Server.MessageOf (ValidationError errors)))
        /\ hasErrorAt "title" errors).
Proof.
  destruct (C5_update_fields y2026 seeded (idOf "3") 3%N (onlyCategory "Science") eq_refl)
    as [_ Hok].
  destruct (C5_update_fields y2026 seeded (idOf "3") 3%N
              (onlyTitle (nbsp ++ "Sapiens, again ")) eq_refl) as [_ Hok'].
  destruct (C5_update_fields y2026 seeded (idOf "9") 9%N (onlyCategory "Science") eq_refl)
    as [_ Hnone].
  destruct (C5_update_fields y2026 seeded (idOf "3") 3%N (onlyCategory "Bogus") eq_refl)
    as [Hbad _].
  destruct (C5_update_fields y2026 seeded (idOf "3") 3%N (onlyTitle nbsp) eq_refl)
    as [Hbad' _].
  assert (In "Science" Sample.categories) as Hin by (simpl; tauto).
  split; [|split; [|split; [|split]]].
  - destruct (Hok (onlyCategory_ok y2026 "Science" Hin) eq_refl) as [_ H].
    edestruct H as [db' [H1 [H2 _]]]; [reflexivity|].
    eexists. eexists. split; [exact H1|]. split; [exact H2|]. split; reflexivity.
  - destruct (Hok' (onlyTitle_ok y2026 (nbsp ++ "Sapiens, again ") ltac:(vm_compute; discriminate)) eq_refl) as [_ H].
    edestruct H as [db' [H1 _]]; [reflexivity|].
    eexists. eexists. split; [exact H1 | reflexivity].
  - destruct (Hnone (onlyCategory_ok y2026 "Science" Hin) eq_refl) as [H _].
    apply H. reflexivity.
  - destruct (Hbad (onlyCategory_json "Bogus")) as (errors & H1 & H2 & _ & H3 & _).
    + intros (_ & _ & [E|(c & E & Hc)] & _); simpl in E; [discriminate|].
      inversion E; subst c. simpl in Hc. intuition discriminate.
    + exists errors. split; [exact H1|]. split.
      * apply H3. intros [E|(c & E & Hc)]; simpl in E; [discriminate|].
        inversion E; subst c. simpl in Hc. intuition discriminate.
      * intro F. apply H2 in F. apply F. left. reflexivity.
  - destruct (Hbad' (onlyTitle_json nbsp)) as (errors & H1 & H2 & _).
    + intros ([E|(s & E & Hs)] & _); simpl in E; [discriminate|].
      inversion E; subst s. apply Hs. reflexivity.
    + exists errors. split; [exact H1|].
      apply H2. intros [E|(s & E & Hs)]; simpl in E; [discriminate|].
      inversion E; subst s. apply Hs. reflexivity.
Defined.

(* ================================================================== *)
(** ** Categories outside the enumeration *)

(** A path with an [enum] rejects every value that is not listed. *)
Lemma not_listed_rejected (p : StringPath) (name : string) (values : list string)
    (c : string) :
  enum p = Some values -> ~ In c values ->
  exists e, validateString p name (Holds c) = inl e.
Proof.
  intros Hp Hc. destruct (validateString p name (Holds c)) as [e|x] eqn:E.
  - exists e. reflexivity.
  - apply validateString_inr in E. destruct E as (E & _ & He & _).
    inversion E; subst x. rewrite Hp in He. apply inEnum_In in He. contradiction.
Qed.

(** C6, in the form that holds.  The route for Create and the route for
    UpdateFields (with a well-formed identifier and a body that gives
    schema fields only) answer 400 with a
    validation error on the category for every category that is not in
    the enumeration, and store nothing.  In script mode the category is
    trimmed first: the schema refuses a new document, and
    [changeCategory] on a record that exists throws the validation error
    and changes nothing, for every category whose trimmed form is not in
    the enumeration. *)
Theorem C6_category_outside_enumeration
    (year : Js.Number) (db : Db) (c : string) (body : Body) :
  body_category body = Js.Val c ->
  (~ In c Sample.categories ->
   (exists errors,
      snd (Server.post_books year body db)
      = Server.fail 400 (Server.MessageOf (ValidationError errors))
      /\ hasErrorAt "category" errors
      /\ books (fst (Server.post_books year body db)) = books db)
   /\ (forall id oid, castObjectId id = Some oid -> Json body ->
       exists errors,
         Server.put_book year id body db
         = (db, Server.fail 400 (Server.MessageOf (ValidationError errors)))
         /\ hasErrorAt "category" errors))
  /\ (~ In (Js.trim c) Sample.categories ->
      (forall oid, exists errors,
         validateDocument (Library.bookSchema year)
           (newDocument (Library.bookSchema year) oid body) = inl errors
         /\ hasErrorAt "category" errors)
      /\ (forall t b, connected db = true ->
          lookupTitle t db = Some b ->
          exists errors,
            Library.changeCategory year t c db = (db, inl (ValidationError errors))
            /\ hasErrorAt "category" errors)).
Proof.
  intro Hbody. split.
  - intro Hc.
    destruct (not_listed_rejected (path_category (Server.bookSchema year)) "category"
                Sample.categories c eq_refl Hc) as [e He].
    split.
    + destruct (validateDocument_category_fails (Server.bookSchema year)
                  (newDocument (Server.bookSchema year) (nextId db) body) e)
        as [errors [Hv Hat]].
      { simpl. rewrite Hbody. exact He. }
      exists errors.
      unfold Server.post_books, Server.route, bind. rewrite new_run.
      rewrite (save_invalid _ _ _ _ _ Hv). simpl. auto.
    + intros id oid Hid Hj.
      destruct (validateUpdate (Server.bookSchema year) body) as [errors|u] eqn:E.
      * exists errors.
        split; [exact (put_book_invalid year db id oid body errors Hid Hj E)|].
        apply (validateUpdate_errors year body errors E).
        rewrite Hbody. intros [F|(c' & F & Hin)]; [discriminate|].
        inversion F; subst c'. contradiction.
      * exfalso. apply validateUpdate_ok in E. destruct E as [(_ & _ & Hok & _) _].
        rewrite Hbody in Hok. destruct Hok as [F|(c' & F & Hin)]; [discriminate|].
        inversion F; subst c'. contradiction.
  - intro Hc.
    destruct (not_listed_rejected (path_category (Library.bookSchema year)) "category"
                Sample.categories (Js.trim c) eq_refl Hc) as [e He].
    split.
    + intro oid.
      apply (validateDocument_category_fails _ _ e). simpl. rewrite Hbody. exact He.
    + intros t b Hcon Hl.
      destruct (validateDocument_category_fails (Library.bookSchema year)
                  (setCategory (Library.bookSchema year) b c) e He)
        as [errors [Hv Hat]].
      exists errors. split; [|exact Hat].
      unfold Library.changeCategory. rewrite rethrow_same. unfold bind.
      rewrite (findOne_title_online (Library.bookSchema year) _ _ eq_refl Hcon), Hl.
      apply save_invalid. exact Hv.
Qed.

(** C6 as stated fails in script mode: the value " Fiction ", with a
    space on either side, is not in the enumeration, yet [changeCategory]
    accepts it and stores "Fiction"; so it does for "Fiction" after a
    no-break space. *)
Lemma C6_counterexample :
  ~ In " Fiction " Sample.categories
  /\ ~ In (nbsp ++ "Fiction") Sample.categories
  /\ forall c, c = " Fiction " \/ c = nbsp ++ "Fiction" ->
     exists db' b,
       Library.changeCategory y2026 "Sapiens" c seeded = (db', inr b)
       /\ lookup 3%N db' = Some b
       /\ category b = "Fiction".
Proof.
  split; [|split].
  - simpl. intuition discriminate.
  - simpl. intuition discriminate.
  - intros c [E|E]; subst c;
      eexists; eexists; (split; [vm_compute; reflexivity|]); split; reflexivity.
Qed.

(** C6 at the value of the demonstration, "InvalidCategory". *)
Lemma C6_witness :
  (exists errors,
     snd (Server.post_books y2026 (onlyCategory "InvalidCategory") seeded)
     = Server.fail 400 (Server.MessageOf (ValidationError errors))
     /\ hasErrorAt "category" errors)
  /\ (exists errors,
        Server.put_book y2026 (idOf "3") (onlyCategory "InvalidCategory") seeded
        = (seeded, Server.fail 400 (Server.MessageOf (ValidationError errors)))
        /\ hasErrorAt "category" errors)
  /\ (exists errors,
        Library.changeCategory y2026 "Sapiens" "InvalidCategory" seeded
        = (seeded, inl (ValidationError errors))
        /\ hasErrorAt "category" errors).
Proof.
  assert (~ In "InvalidCategory" Sample.categories) as Hc
    by (simpl; intuition discriminate).
  destruct (C6_category_outside_enumeration y2026 seeded "InvalidCategory"
              (onlyCategory "InvalidCategory") eq_refl) as [Hs Hl].
  destruct (Hs Hc) as [[errors [H1 [H2 _]]] Hput].
  destruct (Hput (idOf "3") 3%N eq_refl (onlyCategory_json "InvalidCategory"))
    as [errors' [H3 H4]].
  destruct (Hl Hc) as [_ Hchange].
  edestruct (Hchange "Sapiens") as [errors'' [H5 H6]]; [reflexivity | reflexivity |].
  split; [|split].
  - exists errors. split; assumption.
  - exists errors'. split; assumption.
  - exists errors''. split; assumption.
Defined.

(* ================================================================== *)
(** ** Status codes *)

Ltac crunch :=
  repeat (simpl;
          match goal with
          | |- context [castObjectId ?x] => destruct (castObjectId x) eqn:?
          | |- context [Js.isNaN ?x] => destruct (Js.isNaN x) eqn:?
          | |- context [castUpdate ?x] => destruct (castUpdate x) eqn:?
          | |- context [validateDocument ?s ?d] => destruct (validateDocument s d) eqn:?
          | |- context [validateUpdate ?s ?d] => destruct (validateUpdate s d) eqn:?
          | |- context [connected ?x] => destruct (connected x) eqn:?
          | |- context [List.find ?p ?l] => destruct (List.find p l) eqn:?
          | |- context [Js.ltb ?x ?y] => destruct (Js.ltb x y) eqn:?
          end).

(** A computation that returns went through both halves of a [bind]. *)
Lemma bind_inr {A B : Type} (m : M A) (k : A -> M B) (db db' : Db) (b : B) :
  bind m k db = (db', inr b) ->
  exists a db1, m db = (db1, inr a) /\ k a db1 = (db', inr b).
Proof.
  unfold bind. destruct (m db) as [db1 [e|a]]; intro H; [discriminate|].
  exists a, db1. split; [reflexivity | exact H].
Qed.

(** The seed route answers 200 with its message, or the status of its
    [catch] block. *)
Lemma post_seed_cases (year : Js.Number) (db : Db) :
  (exists result,
     snd (Server.post_seed year db)
     = {| Server.status := 200; Server.success := true;
          Server.data := Some (Server.ManyBooks result); Server.error := None;
          Server.message := Some [Lit "Inserted "; Count (List.length result);
                                  Lit " books"] |})
  \/ (exists e, snd (Server.post_seed year db) = Server.fail 500 (Server.MessageOf e)).
Proof.
  unfold Server.post_seed, Server.route.
  match goal with
  | |- context [match ?m db with _ => _ end] => destruct (m db) as [db' [e|r]] eqn:E
  end.
  - right. exists e. reflexivity.
  - left. apply bind_inr in E. destruct E as (n & db1 & _ & E).
    apply bind_inr in E. destruct E as (result & db2 & _ & E).
    unfold ret in E. inversion E. exists result. reflexivity.
Qed.

Lemma post_seed_offline (year : Js.Number) (db : Db) :
  connected db = false ->
  Server.post_seed year db = (db, Server.fail 500 (Server.MessageOf MongooseError)).
Proof.
  intro Hc. unfold Server.post_seed, Server.route, deleteMany, bind, lift, command.
  simpl. rewrite Hc. reflexivity.
Qed.

(** What is known about the update of a request, from the outcome of its
    cast and validation. *)
Ltac update_facts year :=
  try match goal with
      | H : validateUpdate _ ?body = inr ?u |- _ =>
          let Ok := fresh "Ok" in
          pose proof (proj1 (proj1 (validateUpdate_ok year body u) H)) as Ok
      end;
  try match goal with
      | H : validateUpdate _ ?body = inl _ |- _ =>
          let No := fresh "No" in
          assert (~ UpdateOk year body) as No
            by (let Ok := fresh in
                intro Ok;
                rewrite (proj2 (validateUpdate_ok year body _) (conj Ok eq_refl)) in H;
                discriminate H)
      end;
  try match goal with
      | H : castUpdate ?body = inl _ |- _ =>
          let No := fresh "No" in
          assert (~ UpdateOk year body) as No
            by (let Ok := fresh in
                intro Ok;
                rewrite (castUpdate_json body (updateOk_json year body Ok)) in H;
                discriminate H)
      end.

(** The identifier and the record of a hypothesis are those of the case. *)
Ltac same_record :=
  repeat match goal with
    | H : Some _ = Some _ |- _ => inversion H; subst; clear H
    | H : Server.GET_book _ = Server.GET_book _ |- _ => inversion H; subst; clear H
    | H : Server.PUT_book _ _ = Server.PUT_book _ _ |- _ => inversion H; subst; clear H
    | H : Server.PATCH_copies _ _ = Server.PATCH_copies _ _ |- _ =>
        inversion H; subst; clear H
    | H : Server.DELETE_book _ = Server.DELETE_book _ |- _ => inversion H; subst; clear H
    | H1 : castObjectId ?id = Some ?a, H2 : castObjectId ?id = Some ?b |- _ =>
        rewrite H1 in H2
    | H1 : castObjectId ?id = None, H2 : castObjectId ?id = Some ?b |- _ =>
        rewrite H1 in H2; discriminate H2
    | H1 : List.find ?p ?l = Some ?a, H2 : List.find ?p ?l = Some ?b |- _ =>
        rewrite H1 in H2
    | H1 : List.find ?p ?l = None, H2 : List.find ?p ?l = Some ?b |- _ =>
        rewrite H1 in H2; discriminate H2
    | H1 : List.find ?p ?l = Some ?a, H2 : List.find ?p ?l = None |- _ =>
        rewrite H1 in H2; discriminate H2
    end.

Ltac not_found_in :=
  let Hc := fresh in let i := fresh in let o := fresh in
  let Hr := fresh in let Hi := fresh in let Hl := fresh in let Hu := fresh in
  intros (Hc & (i & o & Hr & Hi & Hl) & Hu);
  unfold lookup in *; simpl in Hr, Hu;
  first
    [ discriminate Hr
    | congruence
    | same_record; first [ reflexivity | congruence ]
    | exfalso; same_record;
      match goal with
      | No : ~ UpdateOk _ _ |- _ => apply No; apply Hu; reflexivity
      end ].

Ltac not_found_out :=
  first
    [ discriminate
    | intros _; split; [assumption|]; split;
      [ eexists; eexists; unfold lookup; simpl;
        split; [reflexivity|]; split; eassumption
      | let b := fresh in let E := fresh in
        intros b E; simpl in E; first [discriminate E | inversion E; subst; assumption] ] ].

Ltac guard_in :=
  let Hc := fresh in let o := fresh in let b := fresh in let Hl := fresh in
  let i := fresh in let ch := fresh in let Hr := fresh in let Hi := fresh in
  let Hg := fresh in
  intros (Hc & o & b & Hl & [(i & ch & Hr & Hi & Hg)|(i & Hr & Hi & Hg)]);
  unfold lookup in *;
  first
    [ discriminate Hr
    | congruence
    | same_record;
      first [ split; [reflexivity | eexists; reflexivity] | congruence ] ].

Ltac guard_out :=
  first
    [ discriminate
    | intros _; right; split; [reflexivity | eexists; reflexivity]
    | intros _; left; split; [assumption|];
      eexists; eexists; unfold lookup; split; [eassumption|];
      first
        [ left; eexists; eexists; split; [reflexivity|]; split; eassumption
        | right; eexists; split; [reflexivity|]; split; eassumption ] ].

Ltac caught_out :=
  first
    [ discriminate
    | intros _; split; [reflexivity | eexists; reflexivity] ].

Ltac status_rules year :=
  update_facts year;
  split; [simpl; auto 10|];
  split; [split; [try discriminate; auto | intros [?|?]; try discriminate; reflexivity]|];
  split; [not_found_in|];
  split; [not_found_out|];
  split; [guard_in|];
  split; [guard_out|];
  split; [caught_out|];
  split; [intros; first [discriminate | reflexivity]|];
  intros; first [discriminate | congruence | (split; [reflexivity | eexists; reflexivity])].

(** C9, in the form that holds, for requests that reach a route with a
    body of the modelled shape.  Every response has status 200, 201,
    400, 404 or 500 and reports success exactly under 200 and 201.  A
    request that names a well-formed identifier no record has (with, for
    UpdateFields, a valid update) is answered 404 with "Book not found"
    when the store can be reached, and 404 is answered in no other case.
    A violated guard rule (copies that would become negative, a delete
    with copies left) is answered 400 with a text of the route.  Every
    other 400 and every 500 carries the message of an exception the route
    caught, and an exception a route catches is answered with the status
    of that route's [catch] block, whatever the exception: 400 in Create,
    UpdateFields and AdjustCopies, 500 in the other routes.  In
    particular, when the store cannot be reached every route answers with
    that status. *)
Theorem C9_status_mapping (year : Js.Number) (db : Db) (r : Server.Request) :
  let res := snd (Server.app year r db) in
  In (Server.status res) [200; 201; 400; 404; 500]
  /\ (Server.success res = true <->
      Server.status res = 200 \/ Server.status res = 201)
  /\ (NotFound year r db ->
      res = Server.fail 404 (Server.Text [Lit "Book not found"]))
  /\ (Server.status res = 404 -> NotFound year r db)
  /\ (GuardViolated r db ->
      Server.status res = 400 /\ exists t, Server.error res = Some (Server.Text t))
  /\ (Server.status res = 400 ->
      GuardViolated r db
      \/ (catchStatus r = 400 /\ exists e, Server.error res = Some (Server.MessageOf e)))
  /\ (Server.status res = 500 ->
      catchStatus r = 500 /\ exists e, Server.error res = Some (Server.MessageOf e))
  /\ (forall e, Server.error res = Some (Server.MessageOf e) ->
      Server.status res = catchStatus r)
  /\ (connected db = false ->
      Server.status res = catchStatus r
      /\ exists e, Server.error res = Some (Server.MessageOf e)).
Proof.
  destruct r; cbv zeta;
    [ | | | | | | | |
      destruct (post_seed_cases year db) as [[result E]|[e E]];
      simpl; rewrite E; simpl;
      (split; [auto 10|]);
      (split; [split; [try discriminate; auto | intros [?|?]; try discriminate; reflexivity]|]);
      (split; [not_found_in|]);
      (split; [not_found_out|]);
      (split; [guard_in|]);
      (split; [guard_out|]);
      (split; [caught_out|]);
      (split; [intros; first [discriminate | reflexivity]|]);
      intro Hc; rewrite (post_seed_offline year db Hc) in E; simpl in E;
      first [discriminate | split; [reflexivity | eexists; reflexivity]] ];
    unfold Server.app, Server.post_books, Server.get_books, Server.get_books_category,
      Server.get_books_year, Server.get_book, Server.put_book, Server.patch_copies,
      Server.delete_book, Server.route, findById, findByIdAndUpdate,
      findByIdAndDelete, find, findOne, save, command, bind,
      lift, ret, throw, catchStatus;
    crunch; status_rules year.
Qed.

(** C9 as stated fails: with the store out of reach, AdjustCopies answers
    400, the status of its [catch] block, and not 500. *)
Lemma C9_counterexample :
  connected (offline seeded) = false
  /\ snd (Server.patch_copies y2026 (idOf "1") (Js.Val (Js.ofZ 1)) (offline seeded))
     = Server.fail 400 (Server.MessageOf MongooseError).
Proof.
  split; reflexivity.
Qed.

(** C9 at concrete requests.  With the store out of reach: 400 from
    AdjustCopies, 500 from DeleteIfEmpty and ListAll.  On the seeded
    collection: an identifier no record has is answered 404, taking 100
    copies from a book with 5 is answered 400. *)
Lemma C9_witness :
  Server.status (snd (Server.app y2026 (Server.PATCH_copies (idOf "1") (Js.Val (Js.ofZ 1)))
                        (offline seeded))) = 400
  /\ Server.status (snd (Server.app y2026 (Server.DELETE_book (idOf "1"))
                           (offline seeded))) = 500
  /\ Server.status (snd (Server.app y2026 Server.GET_books (offline seeded))) = 500
  /\ snd (Server.app y2026 (Server.DELETE_book (idOf "9")) seeded)
     = Server.fail 404 (Server.Text [Lit "Book not found"])
  /\ Server.status (snd (Server.app y2026
                           (Server.PATCH_copies (idOf "1") (Js.Val (Js.ofZ (-100))))
                           seeded)) = 400.
Proof.
  pose proof (C9_status_mapping y2026 (offline seeded)
                (Server.PATCH_copies (idOf "1") (Js.Val (Js.ofZ 1))))
    as (_ & _ & _ & _ & _ & _ & _ & _ & H1).
  pose proof (C9_status_mapping y2026 (offline seeded)
                (Server.DELETE_book (idOf "1"))) as (_ & _ & _ & _ & _ & _ & _ & _ & H2).
  pose proof (C9_status_mapping y2026 (offline seeded) Server.GET_books)
    as (_ & _ & _ & _ & _ & _ & _ & _ & H3).
  pose proof (C9_status_mapping y2026 seeded (Server.DELETE_book (idOf "9")))
    as (_ & _ & H4 & _).
  pose proof (C9_status_mapping y2026 seeded
                (Server.PATCH_copies (idOf "1") (Js.Val (Js.ofZ (-100)))))
    as (_ & _ & _ & _ & H5 & _).
  split; [|split; [|split; [|split]]].
  - apply H1. reflexivity.
  - apply H2. reflexivity.
  - apply H3. reflexivity.
  - apply H4. split; [reflexivity|]. split.
    + exists (idOf "9"), 9%N. split; [reflexivity|]. split; reflexivity.
    + intros body E. discriminate E.
  - apply H5. split; [reflexivity|].
    exists 1%N. eexists. split; [reflexivity|].
    left. exists (idOf "1"), (Js.Val (Js.ofZ (-100))).
    split; [reflexivity|]. split; reflexivity.
Defined.

(* ================================================================== *)
(** ** The published year *)

(** A year that is not between 1000 and the year of the schema fails
    under both schemas; a year that is not an integer fails under the
    schema of the script. *)
Lemma year_out_of_range (p : NumberPath) (name : string) (year q : Js.Number) :
  min p = Some (Js.ofZ 1000) -> max p = Some year ->
  Js.leb (Js.ofZ 1000) q = false \/ Js.leb q year = false ->
  exists e, validateNumber p name (setNumber q) = inl e.
Proof.
  intros Hmin Hmax Hq.
  destruct (validateNumber p name (setNumber q)) as [e|x] eqn:E; [exists e; reflexivity|].
  apply validateNumber_inr in E. destruct E as (E & Hlo & Hhi & _).
  apply setNumber_holds in E. destruct E as [E _]. subst x.
  rewrite Hmin in Hlo. rewrite Hmax in Hhi.
  destruct Hq as [Hq|Hq]; congruence.
Qed.

Lemma year_not_integer (year q : Js.Number) :
  Js.isInteger q = false ->
  exists e,
    validateNumber (path_publishedYear (Library.bookSchema year)) "publishedYear"
      (setNumber q) = inl e.
Proof.
  intro Hq.
  destruct (validateNumber (path_publishedYear (Library.bookSchema year))
              "publishedYear" (setNumber q)) as [e|x] eqn:E; [exists e; reflexivity|].
  apply validateNumber_inr in E. destruct E as (E & _ & _ & Hi).
  apply setNumber_holds in E. destruct E as [E _]. subst x.
  simpl in Hi. congruence.
Qed.

(** The part of C7 that holds: the schema of the script refuses a new
    document whose year is not an integer or is not between 1000 and the
    year of the schema, and Create in service mode answers 400 for a year
    that is not between 1000 and the year of the schema. *)
Lemma year_refused (year : Js.Number) (db : Db) (body : Body) (q : Js.Number) :
  body_publishedYear body = Js.Val q ->
  ((Js.isInteger q = false
    \/ Js.leb (Js.ofZ 1000) q = false \/ Js.leb q year = false) ->
   forall oid, exists errors,
     validateDocument (Library.bookSchema year)
       (newDocument (Library.bookSchema year) oid body) = inl errors
     /\ hasErrorAt "publishedYear" errors)
  /\ (Js.leb (Js.ofZ 1000) q = false \/ Js.leb q year = false ->
      exists errors,
        snd (Server.post_books year body db)
        = Server.fail 400 (Server.MessageOf (ValidationError errors))
        /\ hasErrorAt "publishedYear" errors).
Proof.
  intro Hbody. split.
  - intros Hq oid.
    assert (exists e,
              validateNumber (path_publishedYear (Library.bookSchema year))
                "publishedYear" (setNumber q) = inl e) as [e He].
    { destruct Hq as [Hq|Hq].
      - apply year_not_integer. exact Hq.
      - apply (year_out_of_range _ _ year); auto. }
    apply (validateDocument_year_fails _ _ e). simpl. rewrite Hbody. exact He.
  - intro Hq.
    destruct (year_out_of_range (path_publishedYear (Server.bookSchema year))
                "publishedYear" year q eq_refl eq_refl Hq) as [e He].
    destruct (validateDocument_year_fails (Server.bookSchema year)
                (newDocument (Server.bookSchema year) (nextId db) body) e)
      as [errors [Hv Hat]].
    { simpl. rewrite Hbody. exact He. }
    exists errors.
    unfold Server.post_books, Server.route, bind. rewrite new_run.
    rewrite (save_invalid _ _ _ _ _ Hv). simpl. auto.
Qed.

(** C7 fails in service mode: the year 1965.5 is not an integer, the
    schema of the script refuses it, and Create through the route answers
    201 and stores it. *)
Theorem C7_service_stores_fractional_year :
  Js.isInteger (Js.dyadic 3931 (-1)) = false
  /\ (exists errors,
        validateDocument (Library.bookSchema y2026)
          (newDocument (Library.bookSchema y2026) 1%N
             (dune (Js.dyadic 3931 (-1)) (Js.ofZ 3)))
        = inl errors
        /\ hasErrorAt "publishedYear" errors)
  /\ Server.post_books y2026 (dune (Js.dyadic 3931 (-1)) (Js.ofZ 3)) emptyDb
     = ({| connected := true;
           books := [ {| _id := 1%N; title := "Dune"; author := "Frank Herbert";
                         category := "Fiction"; publishedYear := Js.dyadic 3931 (-1);
                         availableCopies := Js.ofZ 3 |} ];
           nextId := 2%N |},
        Server.succeed 201 (Server.OneBook
          {| _id := 1%N; title := "Dune"; author := "Frank Herbert";
             category := "Fiction"; publishedYear := Js.dyadic 3931 (-1);
             availableCopies := Js.ofZ 3 |})).
Proof.
  split; [reflexivity|]. split; [|reflexivity].
  eexists. split; [vm_compute; reflexivity|].
  exists UserDefined. simpl. auto.
Qed.

(* ================================================================== *)
(** ** What the operations preserve *)

Lemma distinct_NoDup (l : list ObjectId) : distinct l = true <-> NoDup l.
Proof.
  induction l as [|x r IH]; simpl.
  - split; [constructor | reflexivity].
  - rewrite andb_true_iff, negb_true_iff, IH, NoDup_cons_iff.
    assert (existsb (N.eqb x) r = false <-> ~ In x r) as E.
    { split.
      - intros H Hin.
        assert (existsb (N.eqb x) r = true) as T
          by (apply existsb_exists; exists x; split; [exact Hin | apply N.eqb_refl]).
        congruence.
      - intro H. destruct (existsb (N.eqb x) r) eqn:T; [|reflexivity].
        apply existsb_exists in T. destruct T as [y [Hy Ey]].
        apply N.eqb_eq in Ey. subst y. contradiction. }
    rewrite E. reflexivity.
Qed.

Lemma consistent_spec (s : Schema) (l : list Book) (n : ObjectId) :
  consistent s l n = true <->
  (forall b, In b l -> valid s b = true)
  /\ NoDup (map _id l)
  /\ (forall b, In b l -> (_id b < n)%N).
Proof.
  unfold consistent. rewrite !andb_true_iff, !forallb_forall, distinct_NoDup.
  split.
  - intros [[H1 H2] H3]. repeat split; auto.
    intros b Hb. apply N.ltb_lt. auto.
  - intros (H1 & H2 & H3). repeat split; auto.
    intros b Hb. apply N.ltb_lt. auto.
Qed.

(** A document that passes validation is a valid record. *)
Lemma validateDocument_valid (s : Schema) (d : Document) (b : Book) :
  validateDocument s d = inr b -> valid s b = true.
Proof.
  intro H. apply validateDocument_inr in H.
  destruct H as (_ & H1 & H2 & H3 & H4 & H5).
  apply valid_spec, validateDocument_inr. simpl.
  apply validateString_inr in H1, H2, H3. apply validateNumber_inr in H4, H5.
  rewrite !validateString_inr, !validateNumber_inr. tauto.
Qed.

Lemma consistent_next (s : Schema) (l : list Book) (n n' : ObjectId) :
  consistent s l n = true -> (n <= n')%N -> consistent s l n' = true.
Proof.
  rewrite !consistent_spec. intros (H1 & H2 & H3) Hn. repeat split; auto.
  intros b Hb. specialize (H3 b Hb). lia.
Qed.

Lemma NoDup_ids_removeFirst (q : Book -> bool) (l : list Book) :
  NoDup (map _id l) -> NoDup (map _id (removeFirst q l)).
Proof.
  rewrite <- !distinct_NoDup. apply distinct_removeFirst.
Qed.

Lemma NoDup_ids_filter (q : Book -> bool) (l : list Book) :
  NoDup (map _id l) -> NoDup (map _id (filter q l)).
Proof.
  induction l as [|x r IH]; simpl; [auto|].
  rewrite NoDup_cons_iff. intros [Hx Hr].
  destruct (q x); simpl; [|auto].
  apply NoDup_cons; [|auto].
  intro Hin. apply Hx. apply in_map_iff in Hin. destruct Hin as [y [Ey Hy]].
  apply filter_In in Hy. apply in_map_iff. exists y. tauto.
Qed.

Lemma consistent_removeFirst (s : Schema) (q : Book -> bool) (l : list Book) (n : ObjectId) :
  consistent s l n = true -> consistent s (removeFirst q l) n = true.
Proof.
  rewrite !consistent_spec. intros (H1 & H2 & H3).
  repeat split; [| apply NoDup_ids_removeFirst; exact H2 |];
    intros b Hb; apply In_removeFirst in Hb; auto.
Qed.

Lemma consistent_filter (s : Schema) (q : Book -> bool) (l : list Book) (n : ObjectId) :
  consistent s l n = true -> consistent s (filter q l) n = true.
Proof.
  rewrite !consistent_spec. intros (H1 & H2 & H3).
  repeat split; [| apply NoDup_ids_filter; exact H2 |];
    intros b Hb; apply filter_In in Hb; destruct Hb; auto.
Qed.

Lemma consistent_replaceFirst (s : Schema) (l : list Book) (n : ObjectId)
    (b b' : Book) :
  consistent s l n = true -> valid s b' = true -> In b l -> _id b' = _id b ->
  consistent s (replaceFirst (fun x => N.eqb (_id x) (_id b)) b' l) n = true.
Proof.
  rewrite !consistent_spec. intros (H1 & H2 & H3) Hv Hin Hid.
  repeat split.
  - intros x Hx. apply In_replaceFirst in Hx. destruct Hx; [subst; auto | auto].
  - rewrite (map_id_replaceFirst (_id b) b' l Hid). exact H2.
  - intros x Hx. apply In_replaceFirst in Hx. destruct Hx; [subst|auto].
    rewrite Hid. auto.
Qed.

Lemma consistent_append (s : Schema) (l bs : list Book) (n n' : ObjectId) :
  consistent s l n = true ->
  (forall b, In b bs -> valid s b = true /\ (n <= _id b < n')%N) ->
  NoDup (map _id bs) -> (n <= n')%N ->
  consistent s (l ++ bs) n' = true.
Proof.
  rewrite !consistent_spec. intros (H1 & H2 & H3) Hbs Hnd Hn.
  repeat split.
  - intros b Hb. apply in_app_or in Hb. destruct Hb; [auto | apply Hbs; auto].
  - rewrite map_app. apply NoDup_app; auto.
    intros o Ho Ho'. apply in_map_iff in Ho, Ho'.
    destruct Ho as [x [Ex Hx]], Ho' as [y [Ey Hy]].
    specialize (H3 x Hx). destruct (Hbs y Hy) as [_ Hy']. lia.
  - intros b Hb. apply in_app_or in Hb. destruct Hb as [Hb|Hb].
    + specialize (H3 b Hb). lia.
    + destruct (Hbs b Hb) as [_ Hb']. lia.
Qed.

(** The documents [newDocuments] builds, given the next identifier. *)
Lemma newDocuments_run (s : Schema) (bodies : list Body) (db : Db) :
  exists ds,
    newDocuments s bodies db
    = ({| connected := connected db; books := books db;
          nextId := (nextId db + N.of_nat (List.length bodies))%N |}, inr ds)
    /\ NoDup (map doc_id ds)
    /\ (forall d, In d ds ->
        (nextId db <= doc_id d < nextId db + N.of_nat (List.length bodies))%N).
Proof.
  revert db. induction bodies as [|b r IH]; intro db.
  - exists []. simpl. unfold ret. rewrite N.add_0_r. destruct db; simpl.
    repeat split; [constructor | contradiction | contradiction].
  - simpl newDocuments. unfold bind at 1. rewrite new_run.
    destruct (IH {| connected := connected db; books := books db;
                    nextId := N.succ (nextId db) |}) as [ds [E [Hnd Hr]]].
    unfold bind at 1. rewrite E. cbn [connected books nextId] in *.
    change (List.length (b :: r)) with (S (List.length r)).
    rewrite Nnat.Nat2N.inj_succ.
    exists (newDocument s (nextId db) b :: ds). split; [|split].
    + unfold ret.
      replace (nextId db + N.succ (N.of_nat (List.length r)))%N
        with (N.succ (nextId db) + N.of_nat (List.length r))%N by lia.
      reflexivity.
    + simpl. apply NoDup_cons; [|exact Hnd].
      intro Hin. apply in_map_iff in Hin. destruct Hin as [d [Ed Hd]].
      specialize (Hr d Hd). lia.
    + intros d [Hd|Hd].
      * subst d. simpl. lia.
      * specialize (Hr d Hd). lia.
Qed.

Lemma validateAll_inr (s : Schema) (ds : list Document) (bs : list Book) :
  validateAll s ds = inr bs ->
  map _id bs = map doc_id ds /\ (forall b, In b bs -> valid s b = true).
Proof.
  revert bs. induction ds as [|d r IH]; simpl; intros bs H.
  - inversion H. split; [reflexivity | contradiction].
  - destruct (validateDocument s d) as [e|b] eqn:E; [discriminate|].
    destruct (validateAll s r) as [e|bs'] eqn:E'; [discriminate|].
    inversion H; subst bs. destruct (IH bs' eq_refl) as [Hm Hv].
    split.
    + simpl. rewrite Hm. f_equal. apply validateDocument_inr in E. tauto.
    + intros x [Hx|Hx]; [subst x; exact (validateDocument_valid _ _ _ E) | auto].
Qed.

(** [insertMany] keeps a well-formed collection well-formed, whether it
    inserts or throws. *)
Lemma insertMany_wellFormed (s : Schema) (bodies : list Body) (db : Db) :
  wellFormed s db = true -> wellFormed s (fst (insertMany s bodies db)) = true.
Proof.
  intro H. unfold wellFormed in H.
  destruct (newDocuments_run s bodies db) as [ds [E [Hnd Hr]]].
  assert (nextId db <= nextId db + N.of_nat (List.length bodies))%N as Hle by lia.
  unfold insertMany, bind, lift. rewrite E.
  destruct (validateAll s ds) as [e|bs] eqn:Ev.
  - unfold wellFormed. simpl. exact (consistent_next _ _ _ _ H Hle).
  - apply validateAll_inr in Ev. destruct Ev as [Hm Hv].
    unfold command. simpl. destruct (connected db); unfold wellFormed; simpl.
    + apply (consistent_append s (books db) bs (nextId db)); auto.
      * intros b Hb. split; [auto|].
        assert (In (_id b) (map doc_id ds)) as Hin
          by (rewrite <- Hm; apply in_map; exact Hb).
        apply in_map_iff in Hin. destruct Hin as [d [Ed Hd]].
        rewrite <- Ed. auto.
      * rewrite Hm. exact Hnd.
    + exact (consistent_next _ _ _ _ H Hle).
Qed.

Lemma consistent_insert (s : Schema) (l : list Book) (n : ObjectId)
    (d : Document) (b : Book) :
  consistent s l n = true -> validateDocument s d = inr b -> doc_id d = n ->
  consistent s (l ++ [b]) (N.succ n) = true.
Proof.
  intros H Hv Hd.
  assert (_id b = n) as Hb by (apply validateDocument_inr in Hv; destruct Hv; congruence).
  apply (consistent_append s l [b] n); auto; try lia.
  - intros x [Hx|[]]. subst x. split; [exact (validateDocument_valid _ _ _ Hv) | lia].
  - simpl. apply NoDup_cons; [simpl; tauto | constructor].
Qed.

Lemma consistent_save (s : Schema) (l : list Book) (n : ObjectId)
    (d : Document) (b b' : Book) :
  consistent s l n = true -> In b l -> doc_id d = _id b ->
  validateDocument s d = inr b' ->
  consistent s (replaceFirst (fun x => N.eqb (_id x) (_id b')) b' l) n = true.
Proof.
  intros H Hin Hd Hv.
  assert (_id b' = _id b) as Hb
    by (apply validateDocument_inr in Hv; destruct Hv; congruence).
  rewrite Hb. apply consistent_replaceFirst; auto.
  exact (validateDocument_valid _ _ _ Hv).
Qed.

Lemma consistent_update (s : Schema) (l : list Book) (n o : ObjectId)
    (b : Book) (u : Update) (body : Body) :
  consistent s l n = true ->
  List.find (fun x => N.eqb (_id x) o) l = Some b ->
  validateUpdate s body = inr u ->
  consistent s (replaceFirst (fun x => N.eqb (_id x) o) (applyUpdate u b) l) n = true.
Proof.
  intros H Hl Hu. apply find_some in Hl. destruct Hl as [Hin Eb].
  apply N.eqb_eq in Eb. subst o.
  apply consistent_replaceFirst; auto.
  apply (applyUpdate_valid s body); [exact Hu|].
  apply consistent_spec in H. destruct H as [H _]. auto.
Qed.

(** Emptying the collection and inserting the sample books, as the seed
    route and [insertBooks] do. *)
Lemma reset_wellFormed {A : Type} (s : Schema) (k : list Book -> A) (db : Db) :
  wellFormed s db = true ->
  wellFormed s (fst ((_ <- deleteMany s Everything ;;
                      result <- insertMany s Sample.books ;;
                      ret (k result)) db)) = true.
Proof.
  intro H. unfold deleteMany, lift, command. unfold bind at 1 2. simpl.
  destruct (connected db) eqn:Hc; [|exact H].
  assert (wellFormed s (setBooks (filter (fun _ => false) (books db)) db) = true)
    as H'.
  { unfold wellFormed in *. simpl. apply consistent_filter. exact H. }
  pose proof (insertMany_wellFormed s Sample.books _ H') as H''.
  unfold bind.
  destruct (insertMany s Sample.books
              (setBooks (filter (fun _ => false) (books db)) db)) as [db' [e|r]];
    exact H''.
Qed.

(** Every route keeps a collection written through the schema of the
    server well-formed. *)
Lemma server_preserves (year : Js.Number) (r : Server.Request) (db : Db) :
  wellFormed (Server.bookSchema year) db = true ->
  wellFormed (Server.bookSchema year) (fst (Server.app year r db)) = true.
Proof.
  intro H. destruct r;
    [ | | | | | | | |
      pose proof (reset_wellFormed (Server.bookSchema year)
        (fun result =>
           {| Server.status := 200; Server.success := true;
              Server.data := Some (Server.ManyBooks result); Server.error := None;
              Server.message := Some [Lit "Inserted "; Count (List.length result);
                                      Lit " books"] |}) db H) as H';
      unfold Server.app, Server.post_seed, Server.route;
      match goal with
      | |- context [match ?m db with _ => _ end] =>
          destruct (m db) as [db' [e|x]]; exact H'
      end ];
    unfold Server.app, Server.post_books, Server.get_books, Server.get_books_category,
      Server.get_books_year, Server.get_book, Server.put_book, Server.patch_copies,
      Server.delete_book, Server.route, findById, findByIdAndUpdate,
      findByIdAndDelete, find, findOne, save, command, bind,
      lift, ret, throw;
    crunch;
    unfold wellFormed in *; simpl in *;
    try assumption;
    try (apply consistent_removeFirst; assumption);
    try (apply (consistent_next _ _ _ _ H); lia);
    try (eapply consistent_insert; [eassumption | eassumption | reflexivity]);
    try (eapply consistent_update; eassumption);
    try (match goal with
         | F : List.find _ _ = Some ?b |- _ =>
             apply find_some in F; destruct F as [F _];
             eapply (consistent_save _ _ _ _ b); [eassumption | exact F | | eassumption];
             reflexivity
         end).
Qed.

(** Every call of the script keeps a collection written through the
    schema of the script well-formed. *)
Lemma script_preserves (year : Js.Number) (c : Call) (db : Db) :
  wellFormed (Library.bookSchema year) db = true ->
  wellFormed (Library.bookSchema year) (after year c db) = true.
Proof.
  intro H. destruct c;
    [ unfold after, Library.insertBooks; rewrite rethrow_same;
      exact (reset_wellFormed (Library.bookSchema year) (fun result => result) db H)
    | | | | | | ];
    unfold after, Library.getAllBooks, Library.getBooksByCategory,
      Library.getBooksAfter2015, Library.updateCopies, Library.changeCategory,
      Library.deleteBookIfNoCopies;
    rewrite rethrow_same;
    unfold find, findOne, deleteOne, save, command, bind, lift, ret, throw;
    crunch;
    unfold wellFormed in *; simpl in *;
    try assumption;
    try (apply consistent_removeFirst; assumption);
    try (match goal with
         | F : List.find _ _ = Some ?b |- _ =>
             apply find_some in F; destruct F as [F _];
             eapply (consistent_save _ _ _ _ b); [eassumption | exact F | | eassumption];
             reflexivity
         end).
Qed.

Lemma reconnect_wellFormed (s : Schema) (c : bool) (db : Db) :
  wellFormed s (reconnect c db) = wellFormed s db.
Proof. reflexivity. Qed.

(** Reachable collections are well-formed. *)
Lemma service_reachable_wellFormed (year : Js.Number) (db : Db) :
  ServiceReachable year db -> wellFormed (Server.bookSchema year) db = true.
Proof.
  induction 1 as [c n | db r _ IH | db c _ IH].
  - reflexivity.
  - apply server_preserves. exact IH.
  - rewrite reconnect_wellFormed. exact IH.
Qed.

Lemma script_reachable_wellFormed (year : Js.Number) (db : Db) :
  ScriptReachable year db -> wellFormed (Library.bookSchema year) db = true.
Proof.
  induction 1 as [c n | db c _ IH | db c _ IH].
  - reflexivity.
  - apply script_preserves. exact IH.
  - rewrite reconnect_wellFormed. exact IH.
Qed.


(** The part of C1 that holds, for requests whose bodies give schema
    fields only.  In every state the routes can reach, every stored book
    has a category of the enumeration and a number of copies that is not
    negative; in every state the script can reach the number of copies is
    moreover an integer. *)
Theorem reachable_invariant (year : Js.Number) (db : Db) (b : Book) :
  In b (books db) ->
  (ServiceReachable year db ->
   In (category b) Sample.categories /\ Js.leb Js.zero (availableCopies b) = true)
  /\ (ScriptReachable year db ->
      In (category b) Sample.categories /\ Js.leb Js.zero (availableCopies b) = true
      /\ Js.isInteger (availableCopies b) = true).
Proof.
  intro Hb. split; intro Hr.
  - apply service_reachable_wellFormed, wellFormed_spec in Hr.
    destruct Hr as [Hv _]. apply Hv, valid_server in Hb.
    unfold Constraints in Hb. tauto.
  - apply script_reachable_wellFormed, wellFormed_spec in Hr.
    destruct Hr as [Hv _]. apply Hv, valid_library in Hb.
    unfold DataModel, Constraints in Hb. tauto.
Qed.

(** C1 fails in service mode: one Create from the empty collection
    reaches a state whose only book has 2.5 copies, which is not an
    integer; AdjustCopies by 0.5 does the same to a seeded book. *)
Theorem C1_service_stores_fractional_copies :
  ServiceReachable y2026
    (fst (Server.post_books y2026 (dune (Js.ofZ 1965) (Js.dyadic 5 (-1))) emptyDb))
  /\ (exists b,
        books (fst (Server.post_books y2026 (dune (Js.ofZ 1965) (Js.dyadic 5 (-1)))
                      emptyDb)) = [b]
        /\ availableCopies b = Js.dyadic 5 (-1)
        /\ Js.isInteger (availableCopies b) = false)
  /\ (exists b,
        lookup 1%N (fst (Server.patch_copies y2026 (idOf "1")
                           (Js.Val (Js.dyadic 1 (-1))) seeded))
        = Some b
        /\ availableCopies b = Js.dyadic 11 (-1)
        /\ Js.isInteger (availableCopies b) = false).
Proof.
  split; [|split].
  - apply (service_request y2026 emptyDb
             (Server.POST_books (dune (Js.ofZ 1965) (Js.dyadic 5 (-1))))).
    apply service_start.
  - eexists. split; [reflexivity|]. split; reflexivity.
  - eexists. split; [vm_compute; reflexivity|]. split; reflexivity.
Qed.

(* ================================================================== *)
(** ** The scenario of the specification *)

(** Create "Dune" with 3 copies; taking 5 is refused and leaves 3; adding
    2 gives 5; deleting is refused; taking 5 gives 0; deleting succeeds
    and the collection is empty again. *)
Example dune_scenario :
  let id := idOf "1" in
  let (db1, r1) := Server.post_books y2026 (dune (Js.ofZ 1965) (Js.ofZ 3)) emptyDb in
  let (db2, r2) := Server.patch_copies y2026 id (Js.Val (Js.ofZ (-5))) db1 in
  let (db3, r3) := Server.patch_copies y2026 id (Js.Val (Js.ofZ 2)) db2 in
  let (db4, r4) := Server.delete_book y2026 id db3 in
  let (db5, r5) := Server.patch_copies y2026 id (Js.Val (Js.ofZ (-5))) db4 in
  let (db6, r6) := Server.delete_book y2026 id db5 in
  map Server.status [r1; r2; r3; r4; r5; r6] = [201; 400; 200; 400; 200; 200]
  /\ db2 = db1
  /\ map availableCopies (books db1) = [Js.ofZ 3]
  /\ map availableCopies (books db3) = [Js.ofZ 5]
  /\ db4 = db3
  /\ map availableCopies (books db5) = [Js.ofZ 0]
  /\ books db6 = [].
Proof.
  vm_compute. repeat split; reflexivity.
Qed.

(* ================================================================== *)
(** ** Create, case by case *)

Lemma acceptable_validates (year : Js.Number) (id : ObjectId) (body : Body) :
  Acceptable year body ->
  exists b,
    validateDocument (Server.bookSchema year)
      (newDocument (Server.bookSchema year) id body) = inr b.
Proof.
  intros ((t & Ht & Ht') & (a & Ha & Ha') & (c & Hc & Hc') & (y & Hy & Hy1 & Hy2) & Hn).
  exists {| _id := id; title := Js.trim t; author := Js.trim a; category := c;
            publishedYear := y;
            availableCopies := match body_availableCopies body with
                               | Js.Val n => n
                               | _ => Js.ofZ 1
                               end |}.
  apply validateDocument_inr. simpl. rewrite Ht, Ha, Hc, Hy. simpl.
  rewrite (setNumber_number y (proj2 (leb_number _ _ Hy1))).
  rewrite !validateString_inr. simpl.
  rewrite inEnum_In.
  pose proof (category_not_empty c Hc').
  destruct Hn as [Hn | (n & Hn & Hn')]; rewrite Hn; simpl;
    [|rewrite (setNumber_number n (proj2 (leb_number _ _ Hn')))];
    rewrite !validateNumber_inr; simpl; repeat split; auto.
Qed.

Lemma validates_acceptable (year : Js.Number) (id : ObjectId) (body : Body) (b : Book) :
  validateDocument (Server.bookSchema year)
    (newDocument (Server.bookSchema year) id body) = inr b ->
  Acceptable year body.
Proof.
  intro H. apply validateDocument_inr in H.
  destruct H as (_ & H1 & H2 & H3 & H4 & H5).
  apply validateString_inr in H1, H2, H3. apply validateNumber_inr in H4, H5.
  destruct H1 as (H1 & N1 & _), H2 as (H2 & N2 & _), H3 as (H3 & _ & E3 & _).
  destruct H4 as (H4 & L4 & U4 & _), H5 as (H5 & L5 & _).
  cbn [Server.bookSchema path_publishedYear path_availableCopies path_category
       min max enum] in L4, U4, L5, E3.
  apply inEnum_In in E3.
  cbn [newDocument doc_title doc_author doc_category doc_publishedYear
       doc_availableCopies] in H1, H2, H3, H4, H5.
  unfold Acceptable.
  destruct (body_title body) as [| |t]; try discriminate.
  destruct (body_author body) as [| |a]; try discriminate.
  destruct (body_category body) as [| |c]; try discriminate.
  destruct (body_publishedYear body) as [| |y]; try discriminate.
  change (Holds (Js.trim t) = Holds (title b)) in H1.
  change (Holds (Js.trim a) = Holds (author b)) in H2.
  change (Holds c = Holds (category b)) in H3.
  change (setNumber y = Holds (publishedYear b)) in H4.
  apply setNumber_holds in H4. destruct H4 as [Y _].
  inversion H1 as [T]. inversion H2 as [A]. inversion H3 as [C].
  split; [eexists; split; [reflexivity | congruence]|].
  split; [eexists; split; [reflexivity | congruence]|].
  split; [eexists; split; [reflexivity | congruence]|].
  split; [eexists; split; [reflexivity | split; congruence]|].
  destruct (body_availableCopies body) as [| |n]; try discriminate.
  - left. reflexivity.
  - right. change (setNumber n = Holds (availableCopies b)) in H5.
    apply setNumber_holds in H5. destruct H5 as [N _].
    eexists. split; [reflexivity|]. congruence.
Qed.

(** Create, for every body and every state of the store.  The route
    answers 201 exactly when the store can be reached and the body is
    acceptable; it then appends one record, under the identifier that was
    next, which satisfies the constraints the schema of the server checks.
    In every other case it answers 400 and stores nothing. *)
Theorem create_outcome (year : Js.Number) (db : Db) (body : Body) :
  (Server.status (snd (Server.post_books year body db)) = 201 <->
   connected db = true /\ Acceptable year body)
  /\ (Server.status (snd (Server.post_books year body db)) = 201 ->
      exists b,
        snd (Server.post_books year body db) = Server.succeed 201 (Server.OneBook b)
        /\ books (fst (Server.post_books year body db)) = (books db ++ [b])%list
        /\ _id b = nextId db
        /\ Constraints year b)
  /\ (Server.status (snd (Server.post_books year body db)) <> 201 ->
      Server.status (snd (Server.post_books year body db)) = 400
      /\ books (fst (Server.post_books year body db)) = books db).
Proof.
  unfold Server.post_books, Server.route, bind. rewrite new_run. unfold save.
  destruct (validateDocument (Server.bookSchema year)
              (newDocument (Server.bookSchema year) (nextId db) body)) as [errors|b] eqn:E.
  - simpl. split; [|split].
    + split; [discriminate|]. intros [_ Ha].
      destruct (acceptable_validates year (nextId db) body Ha) as [b Hb]. congruence.
    + discriminate.
    + intros _. split; reflexivity.
  - unfold command. simpl. destruct (connected db) eqn:Hc; simpl.
    + split; [|split].
      * split; [|reflexivity]. intros _. split; [reflexivity|].
        exact (validates_acceptable _ _ _ _ E).
      * intros _. exists b. split; [reflexivity|]. split; [reflexivity|]. split.
        -- apply validateDocument_inr in E. destruct E as [E _]. exact E.
        -- apply valid_server. exact (validateDocument_valid _ _ _ E).
      * intro N. exfalso. apply N. reflexivity.
    + split; [|split].
      * split; [discriminate | intros [F _]; discriminate].
      * discriminate.
      * intros _. split; reflexivity.
Qed.

(** Create on the empty collection: "Dune" is stored under the first
    identifier; a body with nothing but a category, and "Dune" under a
    title made of a no-break space, are refused. *)
Lemma create_outcome_witness :
  (exists b,
     snd (Server.post_books y2026 (dune (Js.ofZ 1965) (Js.ofZ 3)) emptyDb)
     = Server.succeed 201 (Server.OneBook b)
     /\ _id b = 1%N /\ Constraints y2026 b)
  /\ Server.status (snd (Server.post_books y2026 (onlyCategory "Fiction") emptyDb)) = 400
  /\ Server.status
       (snd (Server.post_books y2026
               (createInput nbsp "Frank Herbert" "Fiction" (Js.ofZ 1965) None) emptyDb))
     = 400.
Proof.
  destruct (create_outcome y2026 emptyDb (dune (Js.ofZ 1965) (Js.ofZ 3)))
    as (_ & H & _).
  destruct (create_outcome y2026 emptyDb (onlyCategory "Fiction")) as (_ & _ & H').
  destruct (create_outcome y2026 emptyDb
              (createInput nbsp "Frank Herbert" "Fiction" (Js.ofZ 1965) None))
    as (_ & _ & H'').
  split; [|split].
  - destruct (H eq_refl) as (b & H1 & _ & H2 & H3).
    exists b. split; [exact H1|]. split; assumption.
  - apply H'. discriminate.
  - apply H''. discriminate.
Defined.

(* ================================================================== *)
(** ** Requests that fail, requests that read *)

(** A request that is answered with [success: false] leaves the books of
    the collection as they were.  This holds for every route but the seed,
    which empties the collection before it inserts. *)
Theorem failed_request_changes_nothing
    (year : Js.Number) (db : Db) (r : Server.Request) :
  r <> Server.POST_seed ->
  Server.success (snd (Server.app year r db)) = false ->
  books (fst (Server.app year r db)) = books db.
Proof.
  intro Hr. destruct r; try (exfalso; apply Hr; reflexivity);
    unfold Server.app, Server.post_books, Server.get_books, Server.get_books_category,
      Server.get_books_year, Server.get_book, Server.put_book, Server.patch_copies,
      Server.delete_book, Server.route, findById, findByIdAndUpdate,
      findByIdAndDelete, find, findOne, save, command, bind,
      lift, ret, throw;
    crunch; intro F; first [reflexivity | discriminate].
Qed.

(** A refused AdjustCopies, a refused delete and a Create that fails
    validation all leave the seeded collection as it was. *)
Lemma failed_request_changes_nothing_witness :
  books (fst (Server.app y2026 (Server.PATCH_copies (idOf "1") (Js.Val (Js.ofZ (-100))))
                seeded)) = books seeded
  /\ books (fst (Server.app y2026 (Server.DELETE_book (idOf "1")) seeded)) = books seeded
  /\ books (fst (Server.app y2026 (Server.POST_books (onlyCategory "Fiction")) seeded))
     = books seeded.
Proof.
  split; [|split];
    apply failed_request_changes_nothing; try discriminate; reflexivity.
Defined.

Lemma filter_nothing (l : list Book) : filter (fun _ => false) l = [].
Proof.
  induction l as [|x r IH]; simpl; [reflexivity | exact IH].
Qed.

Lemma deleteMany_everything_online (s : Schema) (db : Db) :
  connected db = true ->
  deleteMany s Everything db = (setBooks [] db, inr (List.length (books db))).
Proof.
  intro Hc. unfold deleteMany, bind, lift. simpl.
  rewrite (command_online _ _ Hc). simpl.
  rewrite filter_nothing, filter_everything. reflexivity.
Qed.

Lemma deleteMany_everything_offline (s : Schema) (db : Db) :
  connected db = false ->
  deleteMany s Everything db = (db, inl MongooseError).
Proof.
  intro Hc. unfold deleteMany, bind, lift. simpl.
  rewrite (command_offline _ _ Hc). reflexivity.
Qed.

(** [insertMany] that throws has inserted nothing. *)
Lemma insertMany_throws (s : Schema) (bodies : list Body) (db db' : Db) e :
  insertMany s bodies db = (db', inl e) -> books db' = books db.
Proof.
  destruct (newDocuments_run s bodies db) as [ds [E _]].
  unfold insertMany, bind, lift. rewrite E.
  destruct (validateAll s ds) as [e'|bs].
  - intro H. inversion H. reflexivity.
  - unfold command. simpl. destruct (connected db); intro H; inversion H.
    reflexivity.
Qed.

(** The seed route with the store in reach: the collection is emptied,
    then the sample books are inserted. *)
Lemma post_seed_online (year : Js.Number) (db : Db) :
  connected db = true ->
  Server.post_seed year db
  = match insertMany (Server.bookSchema year) Sample.books (setBooks [] db) with
    | (db', inl e) => (db', Server.fail 500 (Server.MessageOf e))
    | (db', inr result) =>
        (db', {| Server.status := 200; Server.success := true;
                 Server.data := Some (Server.ManyBooks result); Server.error := None;
                 Server.message := Some [Lit "Inserted "; Count (List.length result);
                                         Lit " books"] |})
    end.
Proof.
  intro Hc. unfold Server.post_seed, Server.route, bind.
  rewrite (deleteMany_everything_online _ _ Hc).
  destruct (insertMany (Server.bookSchema year) Sample.books (setBooks [] db))
    as [db' [e|bs]]; reflexivity.
Qed.

(** The seed is the exception: when it fails, the collection is either
    as it was (the store could not be reached) or already empty. *)
Theorem failed_seed_may_empty (year : Js.Number) (db : Db) :
  Server.success (snd (Server.post_seed year db)) = false ->
  books (fst (Server.post_seed year db)) = books db
  \/ books (fst (Server.post_seed year db)) = [].
Proof.
  destruct (connected db) eqn:Hc.
  - rewrite (post_seed_online year db Hc).
    destruct (insertMany (Server.bookSchema year) Sample.books (setBooks [] db))
      as [db' [e|bs]] eqn:E; simpl.
    + intros _. right. exact (insertMany_throws _ _ _ _ _ E).
    + discriminate.
  - rewrite (post_seed_offline year db Hc). intros _. left. reflexivity.
Qed.

(* ================================================================== *)
(** ** Seeding *)

Lemma newDocuments_documentsFrom (s : Schema) (bodies : list Body) (db : Db) :
  newDocuments s bodies db
  = ({| connected := connected db; books := books db;
        nextId := (nextId db + N.of_nat (List.length bodies))%N |},
     inr (documentsFrom s (nextId db) bodies)).
Proof.
  revert db. induction bodies as [|b r IH]; intro db.
  - simpl. unfold ret. rewrite N.add_0_r. destruct db; reflexivity.
  - simpl newDocuments. unfold bind at 1. rewrite new_run.
    unfold bind at 1. rewrite IH. cbn [connected books nextId documentsFrom].
    change (List.length (b :: r)) with (S (List.length r)).
    rewrite Nnat.Nat2N.inj_succ. unfold ret.
    replace (nextId db + N.succ (N.of_nat (List.length r)))%N
      with (N.succ (nextId db) + N.of_nat (List.length r))%N by lia.
    reflexivity.
Qed.

Lemma insertMany_online (s : Schema) (bodies : list Body) (db : Db) (bs : list Book) :
  connected db = true ->
  validateAll s (documentsFrom s (nextId db) bodies) = inr bs ->
  insertMany s bodies db
  = ({| connected := true; books := (books db ++ bs)%list;
        nextId := (nextId db + N.of_nat (List.length bodies))%N |}, inr bs).
Proof.
  intros Hc Hv. unfold insertMany, bind, lift.
  rewrite newDocuments_documentsFrom, Hv. unfold command. simpl. rewrite Hc.
  reflexivity.
Qed.

(** A sample body whose strings need no trimming validates, under either
    schema, to the record that stores it. *)
Lemma sample_validates (year : Js.Number) (id : ObjectId) (t a c : string) (y n : Z) :
  Js.trim t = t -> Js.trim a = a -> Js.trim c = c ->
  t <> "" -> a <> "" -> In c Sample.categories ->
  Js.leb (Js.ofZ 1000) (Js.ofZ y) = true -> Js.leb (Js.ofZ y) year = true ->
  Js.leb Js.zero (Js.ofZ n) = true ->
  Js.isInteger (Js.ofZ y) = true -> Js.isInteger (Js.ofZ n) = true ->
  validateDocument (Server.bookSchema year)
    (newDocument (Server.bookSchema year) id (Sample.book t a c y n))
  = inr (record id t a c y n)
  /\ validateDocument (Library.bookSchema year)
       (newDocument (Library.bookSchema year) id (Sample.book t a c y n))
     = inr (record id t a c y n).
Proof.
  intros Tt Ta Tc Nt Na Hc Hlo Hhi Hn Iy In'.
  pose proof (category_not_empty c Hc).
  assert (forall x : string, x <> "" -> (String.length x <? 1)%nat = false) as L
    by (intros [|ch r] Hx; [congruence | reflexivity]).
  split; apply validateDocument_inr; simpl;
    rewrite (setNumber_number _ (integer_number _ Iy)),
      (setNumber_number _ (integer_number _ In'));
    unfold applySetters; simpl; rewrite ?Tt, ?Ta, ?Tc;
    rewrite !validateString_inr, !validateNumber_inr; simpl;
    rewrite inEnum_In; repeat split; auto.
Qed.

Ltac sample_ok year Hy :=
  repeat match goal with
    | |- context [validateDocument (Server.bookSchema year)
                    (newDocument _ ?id (Sample.book ?t ?a ?c ?y ?n))] =>
        rewrite (proj1 (sample_validates year id t a c y n eq_refl eq_refl eq_refl
                          ltac:(discriminate) ltac:(discriminate)
                          ltac:(simpl; tauto) eq_refl
                          (leb_trans (Js.ofZ y) (Js.ofZ 2020) year eq_refl Hy)
                          eq_refl eq_refl eq_refl))
    | |- context [validateDocument (Library.bookSchema year)
                    (newDocument _ ?id (Sample.book ?t ?a ?c ?y ?n))] =>
        rewrite (proj2 (sample_validates year id t a c y n eq_refl eq_refl eq_refl
                          ltac:(discriminate) ltac:(discriminate)
                          ltac:(simpl; tauto) eq_refl
                          (leb_trans (Js.ofZ y) (Js.ofZ 2020) year eq_refl Hy)
                          eq_refl eq_refl eq_refl))
    end.

(** From 2020 on, the eight sample books pass both schemas and are
    stored as they are written. *)
Lemma sample_books_validate (year : Js.Number) (n : ObjectId) :
  Js.leb (Js.ofZ 2020) year = true ->
  exists bs,
    validateAll (Server.bookSchema year)
      (documentsFrom (Server.bookSchema year) n Sample.books) = inr bs
    /\ validateAll (Library.bookSchema year)
         (documentsFrom (Library.bookSchema year) n Sample.books) = inr bs
    /\ Forall2 stores bs Sample.books
    /\ map _id bs = idsFrom n 8.
Proof.
  intro Hy. eexists. unfold Sample.books. cbn [documentsFrom validateAll].
  sample_ok year Hy. cbv beta iota.
  split; [reflexivity|]. split; [reflexivity|]. split.
  - repeat constructor.
  - reflexivity.
Qed.

(** Seeding replaces the collection.  With the store in reach and the
    year of the schema 2020 or later, the seed route and [insertBooks] of
    the script leave exactly the eight sample books, stored as written and
    in order, under the next eight identifiers, whatever the collection
    held before; the route reports "Inserted 8 books". *)
Theorem seed_replaces_collection (year : Js.Number) (db : Db) :
  connected db = true -> Js.leb (Js.ofZ 2020) year = true ->
  exists bs,
    Server.post_seed year db
    = ({| connected := true; books := bs; nextId := (nextId db + 8)%N |},
       {| Server.status := 200; Server.success := true;
          Server.data := Some (Server.ManyBooks bs); Server.error := None;
          Server.message := Some [Lit "Inserted "; Count 8; Lit " books"] |})
    /\ Library.insertBooks year db
       = ({| connected := true; books := bs; nextId := (nextId db + 8)%N |}, inr bs)
    /\ Forall2 stores bs Sample.books
    /\ map _id bs = idsFrom (nextId db) 8.
Proof.
  intros Hc Hy.
  destruct (sample_books_validate year (nextId db) Hy) as (bs & Hs & Hl & Hst & Hid).
  assert (List.length bs = 8%nat) as Hlen
    by (rewrite <- (length_map _id), Hid; reflexivity).
  exists bs. split; [|split; [|split; assumption]].
  - rewrite (post_seed_online year db Hc).
    rewrite (insertMany_online _ _ (setBooks [] db) bs Hc Hs). simpl.
    rewrite Hlen. reflexivity.
  - unfold Library.insertBooks. rewrite rethrow_same. unfold bind.
    rewrite (deleteMany_everything_online _ _ Hc).
    rewrite (insertMany_online _ _ (setBooks [] db) bs Hc Hl). reflexivity.
Qed.

(** Seeding a collection that already holds "Maus": the old record is
    gone and the first sample book takes the next identifier. *)
Lemma seed_replaces_collection_witness :
  exists bs,
    books (fst (Server.post_seed y2026 legacy)) = bs
    /\ map title bs
       = ["The Great Gatsby"; "To Kill a Mockingbird"; "Sapiens"; "Educated";
          "The Lean Startup"; "Atomic Habits"; "A Brief History of Time";
          "The Midnight Library"]
    /\ map _id bs = [2; 3; 4; 5; 6; 7; 8; 9]%N.
Proof.
  destruct (seed_replaces_collection y2026 legacy eq_refl eq_refl)
    as (bs & Hs & _ & _ & Hid).
  exists bs. split; [rewrite Hs; reflexivity|].
  split; [|exact Hid].
  vm_compute in Hs. inversion Hs. reflexivity.
Defined.

(** A seed that fails validation, as it does with a schema built before
    2020, has already emptied the collection. *)
Lemma failed_seed_may_empty_witness :
  (books (fst (Server.post_seed (Js.ofZ 2019) seeded)) = books seeded
   \/ books (fst (Server.post_seed (Js.ofZ 2019) seeded)) = [])
  /\ books (fst (Server.post_seed (Js.ofZ 2019) seeded)) = []
  /\ List.length (books seeded) = 8%nat.
Proof.
  split; [apply failed_seed_may_empty; reflexivity|].
  split; reflexivity.
Defined.

(* ================================================================== *)
(** ** Reading *)

(** The routes and the functions that read never change the database,
    whatever they are asked and whether or not the store can be reached. *)
Theorem reads_change_nothing (year : Js.Number) (db : Db) :
  fst (Server.get_books year db) = db
  /\ (forall c, fst (Server.get_books_category year c db) = db)
  /\ (forall y, fst (Server.get_books_year year y db) = db)
  /\ (forall id, fst (Server.get_book year id db) = db)
  /\ fst (Library.getAllBooks year db) = db
  /\ (forall c, fst (Library.getBooksByCategory year c db) = db)
  /\ fst (Library.getBooksAfter2015 year db) = db.
Proof.
  destruct db as [[|] l n];
  repeat split; intros;
    unfold Server.get_books, Server.get_books_category, Server.get_books_year,
      Server.get_book, Library.getAllBooks, Library.getBooksByCategory,
      Library.getBooksAfter2015, Server.route;
    rewrite ?rethrow_same;
    unfold findById, find, findOne, command, bind, lift, ret, throw;
    crunch; reflexivity.
Qed.

Lemma filter_none (p : Book -> bool) (l : list Book) :
  (forall b, In b l -> p b = false) -> filter p l = [].
Proof.
  induction l as [|x r IH]; simpl; intro H; [reflexivity|].
  rewrite (H x (or_introl eq_refl)). apply IH. intros b Hb. apply H. right. exact Hb.
Qed.

(** ListByCategory with the store in reach.  The route lists exactly the
    stored books whose category is the parameter, character for
    character; the script lists those whose category is the trimmed
    argument.  Finding none is not an error: on a collection written
    through the schema, a category outside the enumeration gives 200 with
    an empty list. *)
Theorem list_by_category (year : Js.Number) (db : Db) (c : string) :
  connected db = true ->
  (exists l,
     Server.get_books_category year c db
     = (db, Server.succeed 200 (Server.ManyBooks l))
     /\ forall b, In b l <-> In b (books db) /\ category b = c)
  /\ (exists l,
        Library.getBooksByCategory year c db = (db, inr l)
        /\ forall b, In b l <-> In b (books db) /\ category b = Js.trim c)
  /\ (wellFormed (Server.bookSchema year) db = true ->
      ~ In c Sample.categories ->
      Server.get_books_category year c db
      = (db, Server.succeed 200 (Server.ManyBooks []))).
Proof.
  intro Hc.
  assert (Server.get_books_category year c db
          = (db, Server.succeed 200 (Server.ManyBooks
               (filter (fun b => String.eqb (category b) c) (books db))))) as Hs.
  { unfold Server.get_books_category, Server.route, bind.
    rewrite (find_online (Server.bookSchema year) (WithCategory c)
               (fun b => String.eqb (category b) c) db eq_refl Hc).
    reflexivity. }
  split; [|split].
  - eexists. split; [exact Hs|].
    intro b. rewrite filter_In, String.eqb_eq. reflexivity.
  - exists (filter (fun b => String.eqb (category b) (Js.trim c)) (books db)). split.
    + unfold Library.getBooksByCategory. rewrite rethrow_same.
      apply (find_online (Library.bookSchema year) (WithCategory c)); [reflexivity | exact Hc].
    + intro b. rewrite filter_In, String.eqb_eq. reflexivity.
  - intros Hwf Hout. rewrite Hs. rewrite filter_none; [reflexivity|].
    intros b Hb. apply String.eqb_neq. intro E.
    apply wellFormed_spec in Hwf. destruct Hwf as [Hv _].
    apply Hv, valid_server in Hb. unfold Constraints in Hb.
    apply Hout. rewrite <- E. tauto.
Qed.

(** On the seeded collection: three books of fiction, found by the script
    also when the argument has a no-break space in front and a space
    behind, and nothing for a category that does not exist. *)
Lemma list_by_category_witness :
  (exists l,
     Server.get_books_category y2026 "Fiction" seeded
     = (seeded, Server.succeed 200 (Server.ManyBooks l))
     /\ map title l = ["The Great Gatsby"; "To Kill a Mockingbird";
                       "The Midnight Library"])
  /\ (exists l,
        Library.getBooksByCategory y2026 (nbsp ++ "Fiction ") seeded = (seeded, inr l)
        /\ List.length l = 3%nat)
  /\ Server.get_books_category y2026 "Poetry" seeded
     = (seeded, Server.succeed 200 (Server.ManyBooks [])).
Proof.
  destruct (list_by_category y2026 seeded "Fiction" eq_refl) as [[l [H _]] _].
  destruct (list_by_category y2026 seeded (nbsp ++ "Fiction ") eq_refl)
    as [_ [[l' [H' _]] _]].
  destruct (list_by_category y2026 seeded "Poetry" eq_refl) as [_ [_ H'']].
  split; [|split].
  - exists l. split; [exact H|]. vm_compute in H. inversion H. reflexivity.
  - exists l'. split; [exact H'|]. vm_compute in H'. inversion H'. reflexivity.
  - apply H''; [reflexivity|]. apply not_listed. reflexivity.
Defined.

(** ListByYearAfter with a year parameter in which [parseInt] finds no
    number: the query is refused before the store is asked, and the route
    answers 500 with the cast error, whatever the state of the store. *)
Theorem year_without_number (year : Js.Number) (db : Db) (param : string) :
  Js.isNaN (Js.parseInt param) = true ->
  Server.get_books_year year param db
  = (db, Server.fail 500 (Server.MessageOf (CastError "publishedYear"))).
Proof.
  intro H. unfold Server.get_books_year, Server.route, find, bind, lift.
  simpl. rewrite H. reflexivity.
Qed.

Lemma year_without_number_witness :
  Server.get_books_year y2026 "recent" seeded
  = (seeded, Server.fail 500 (Server.MessageOf (CastError "publishedYear")))
  /\ Server.get_books_year y2026 "0x" (offline seeded)
     = (offline seeded, Server.fail 500 (Server.MessageOf (CastError "publishedYear"))).
Proof.
  split; apply year_without_number; reflexivity.
Defined.

(* ================================================================== *)
(** ** AdjustCopies: the body and the sequence of adjustments *)

(** The record a stored record becomes when only its copies change is
    valid when the new number is at least zero. *)
Lemma withCopies_valid (year : Js.Number) (b : Book) (q : Js.Number) :
  valid (Server.bookSchema year) b = true -> Js.leb Js.zero q = true ->
  valid (Server.bookSchema year) (withCopies b q) = true.
Proof.
  intros Hb Hq.
  exact (validateDocument_valid _ _ _
           (validate_setAvailableCopies _ _ _ Hb (proj2 (leb_number _ _ Hq))
              (copies_server year q Hq))).
Qed.

(** A sum with [undefined] is no number; a sum of a number that is at
    least zero with [null] is a number that is not below zero. *)
Lemma add_undefined (c : Js.Number) : Js.isNaN (Js.add c Js.NaN) = true.
Proof. destruct c as [s|s| |s m e]; reflexivity. Qed.

Lemma add_null (c : Js.Number) :
  Js.leb Js.zero c = true ->
  Js.ltb (Js.add c Js.zero) Js.zero = false /\ Js.isNaN (Js.add c Js.zero) = false.
Proof.
  unfold Js.leb, Js.ltb, Js.add, SFleb, SFltb, SFadd, SFcompare, Js.zero.
  destruct c as [s|s| |s m e]; try destruct s; simpl; intro H;
    try discriminate; split; reflexivity.
Qed.

(** AdjustCopies without a usable [change].  On a collection written
    through the schema, for a record that exists: a body without [change]
    makes the sum [NaN], which the guard lets through and the save
    refuses, so the route answers 400 with a cast error on
    availableCopies and nothing changes; [change: null] counts as zero,
    and the route answers 200 with a number of copies equal to the one
    before. *)
Theorem adjust_without_number (year : Js.Number) (db : Db) (id : string)
    (oid : ObjectId) (b : Book) :
  connected db = true ->
  wellFormed (Server.bookSchema year) db = true ->
  castObjectId id = Some oid ->
  lookup oid db = Some b ->
  Server.patch_copies year id Js.Absent db
  = (db, Server.fail 400 (Server.MessageOf
           (ValidationError [{| path := "availableCopies"; kind := CastFailed |}])))
  /\ (exists db',
        Server.patch_copies year id Js.Null db
        = (db', Server.succeed 200
                  (Server.OneBook (withCopies b (Js.add (availableCopies b) Js.zero))))
        /\ lookup oid db' = Some (withCopies b (Js.add (availableCopies b) Js.zero))
        /\ Js.eqb (Js.add (availableCopies b) Js.zero) (availableCopies b) = true).
Proof.
  intros Hc Hwf Hid Hl.
  apply wellFormed_spec in Hwf. destruct Hwf as (Hvalid & _ & _).
  destruct (lookup_id _ _ _ Hl) as [Hin Eb].
  pose proof (Hvalid b Hin) as Hb.
  split.
  - apply (patch_copies_nan year db id oid b Js.Absent Hc Hid Hl Hb).
    apply add_undefined.
  - assert (Js.leb Js.zero (availableCopies b) = true) as Hle
      by (apply valid_server in Hb; unfold Constraints in Hb; tauto).
    destruct (add_null _ Hle) as [Hf Hn].
    eexists. split; [exact (patch_copies_success year db id oid b Js.Null Hc Hid Hl Hb Hf Hn)|].
    split.
    + unfold lookup. simpl. apply (find_replaceFirst oid b); [exact Eb | exact Hl].
    + apply add_zero. exact (proj2 (leb_number _ _ Hle)).
Qed.

Lemma adjust_without_number_witness :
  Server.patch_copies y2026 (idOf "1") Js.Absent seeded
  = (seeded, Server.fail 400 (Server.MessageOf
       (ValidationError [{| path := "availableCopies"; kind := CastFailed |}])))
  /\ exists db' b',
       Server.patch_copies y2026 (idOf "1") Js.Null seeded
       = (db', Server.succeed 200 (Server.OneBook b'))
       /\ availableCopies b' = Js.ofZ 5.
Proof.
  edestruct (adjust_without_number y2026 seeded (idOf "1") 1%N)
    as [H1 [db' [H2 _]]]; try reflexivity.
  split; [exact H1|].
  eexists. eexists. split; [exact H2 | reflexivity].
Defined.

(** Two adjustments in a row.  The second one starts from what the first
    one stored: if neither sum is below zero or [NaN], the record ends
    with the floating-point sum [(c + d1) + d2] and no other record has
    changed. *)
Theorem successive_adjustments (year : Js.Number) (db : Db) (id : string)
    (oid : ObjectId) (b : Book) (d1 d2 : Js.Number) :
  connected db = true ->
  wellFormed (Server.bookSchema year) db = true ->
  castObjectId id = Some oid ->
  lookup oid db = Some b ->
  let s1 := Js.add (availableCopies b) d1 in
  let s2 := Js.add s1 d2 in
  Js.ltb s1 Js.zero = false -> Js.isNaN s1 = false ->
  Js.ltb s2 Js.zero = false -> Js.isNaN s2 = false ->
  let db1 := fst (Server.patch_copies year id (Js.Val d1) db) in
  let db2 := fst (Server.patch_copies year id (Js.Val d2) db1) in
  lookup oid db2 = Some (withCopies b s2)
  /\ (forall o, o <> oid -> lookup o db2 = lookup o db).
Proof.
  intros Hc Hwf Hid Hl s1 s2 F1 N1 F2 N2.
  apply wellFormed_spec in Hwf. destruct Hwf as (Hvalid & _ & _).
  destruct (lookup_id _ _ _ Hl) as [Hin Eb].
  pose proof (Hvalid b Hin) as Hb.
  set (b1 := withCopies b s1).
  assert (valid (Server.bookSchema year) b1 = true) as Hb1
    by (apply withCopies_valid; [exact Hb | exact (not_negative _ F1 N1)]).
  cbv zeta.
  rewrite (patch_copies_success year db id oid b (Js.Val d1) Hc Hid Hl Hb F1 N1).
  simpl fst. simpl Js.toNumber. fold s1. fold b1.
  set (db1 := setBooks (replaceFirst (fun x => N.eqb (_id x) oid) b1 (books db)) db).
  assert (lookup oid db1 = Some b1) as Hl1
    by (unfold lookup; simpl; apply (find_replaceFirst oid b); [exact Eb | exact Hl]).
  assert (connected db1 = true) as Hc1 by exact Hc.
  rewrite (patch_copies_success year db1 id oid b1 (Js.Val d2) Hc1 Hid Hl1 Hb1 F2 N2).
  simpl fst.
  split.
  - unfold lookup. simpl. apply (find_replaceFirst oid b1); [exact Eb | exact Hl1].
  - intros o Ho. unfold lookup. simpl.
    rewrite (find_replaceFirst_other oid o); [|exact Eb | exact Ho].
    apply (find_replaceFirst_other oid o); [exact Eb | exact Ho].
Qed.

(** "Atomic Habits", 8 copies: plus 2 and minus 10 leave none. *)
Lemma successive_adjustments_witness :
  exists b,
    lookup 6%N (fst (Server.patch_copies y2026 (idOf "6") (Js.Val (Js.ofZ (-10)))
                       (fst (Server.patch_copies y2026 (idOf "6") (Js.Val (Js.ofZ 2))
                               seeded)))) = Some b
    /\ title b = "Atomic Habits"
    /\ availableCopies b = Js.ofZ 0.
Proof.
  edestruct (successive_adjustments y2026 seeded (idOf "6") 6%N
               (record 6%N "Atomic Habits" "James Clear" "Self-Help" 2018 8)
               (Js.ofZ 2) (Js.ofZ (-10))) as [H _];
    [reflexivity | reflexivity | reflexivity | reflexivity
    | reflexivity | reflexivity | reflexivity | reflexivity |].
  eexists. split; [exact H|]. split; reflexivity.
Defined.

(* ================================================================== *)
(** ** One request after another *)

Lemma post_books_created (year : Js.Number) (db : Db) (body : Body) :
  Server.status (snd (Server.post_books year body db)) = 201 ->
  exists b,
    connected db = true
    /\ _id b = nextId db
    /\ Server.post_books year body db
       = ({| connected := true; books := (books db ++ [b])%list;
             nextId := N.succ (nextId db) |},
          Server.succeed 201 (Server.OneBook b)).
Proof.
  unfold Server.post_books, Server.route, bind. rewrite new_run. unfold save.
  destruct (validateDocument (Server.bookSchema year)
              (newDocument (Server.bookSchema year) (nextId db) body)) as [errors|b] eqn:E.
  - simpl. discriminate.
  - unfold command. simpl. destruct (connected db) eqn:Hc; simpl; [|discriminate].
    intros _. exists b. split; [reflexivity|]. split; [|reflexivity].
    apply validateDocument_inr in E. destruct E as [E _]. exact E.
Qed.

Lemma find_app_fresh (p : Book -> bool) (l : list Book) (b : Book) :
  (forall x, In x l -> p x = false) -> p b = true ->
  List.find p (l ++ [b]) = Some b.
Proof.
  intros Hl Hb. induction l as [|x r IH]; simpl.
  - rewrite Hb. reflexivity.
  - rewrite (Hl x (or_introl eq_refl)). apply IH. intros y Hy. apply Hl. right. exact Hy.
Qed.

Lemma get_book_online (year : Js.Number) (db : Db) (id : string) (oid : ObjectId) :
  connected db = true -> castObjectId id = Some oid ->
  Server.get_book year id db
  = (db, match lookup oid db with
         | Some b => Server.succeed 200 (Server.OneBook b)
         | None => Server.fail 404 (Server.Text [Lit "Book not found"])
         end).
Proof.
  intros Hc Hid. unfold Server.get_book, Server.route, bind.
  rewrite (findById_online _ _ _ _ Hid Hc).
  destruct (lookup oid db); reflexivity.
Qed.

(** A book that was created is found.  After a Create that answers 201
    on a collection written through the schema, GetById with the new
    identifier returns the record of the answer, and ListAll returns the
    former books followed by it. *)
Theorem created_book_is_found
    (year : Js.Number) (db : Db) (body : Body) (id : string) :
  wellFormed (Server.bookSchema year) db = true ->
  Server.status (snd (Server.post_books year body db)) = 201 ->
  castObjectId id = Some (nextId db) ->
  exists b,
    snd (Server.post_books year body db) = Server.succeed 201 (Server.OneBook b)
    /\ Server.get_book year id (fst (Server.post_books year body db))
       = (fst (Server.post_books year body db), Server.succeed 200 (Server.OneBook b))
    /\ Server.get_books year (fst (Server.post_books year body db))
       = (fst (Server.post_books year body db),
          Server.succeed 200 (Server.ManyBooks (books db ++ [b])%list)).
Proof.
  intros Hwf H201 Hid.
  destruct (post_books_created year db body H201) as (b & Hc & Eb & E).
  rewrite E. simpl fst. simpl snd. exists b. split; [reflexivity|]. split.
  - rewrite (get_book_online year
               {| connected := true; books := (books db ++ [b])%list;
                  nextId := N.succ (nextId db) |} id (nextId db) eq_refl Hid).
    unfold lookup. simpl books.
    rewrite (find_app_fresh _ (books db) b); [reflexivity | | simpl; rewrite Eb; apply N.eqb_refl].
    intros x Hx. apply N.eqb_neq.
    apply wellFormed_spec in Hwf. destruct Hwf as (_ & _ & Hlt).
    specialize (Hlt x Hx). lia.
  - apply get_books_online. reflexivity.
Qed.

Lemma created_book_is_found_witness :
  exists b,
    Server.get_book y2026 (idOf "9")
      (fst (Server.post_books y2026 (dune (Js.ofZ 1965) (Js.ofZ 3)) seeded))
    = (fst (Server.post_books y2026 (dune (Js.ofZ 1965) (Js.ofZ 3)) seeded),
       Server.succeed 200 (Server.OneBook b))
    /\ title b = "Dune".
Proof.
  destruct (created_book_is_found y2026 seeded (dune (Js.ofZ 1965) (Js.ofZ 3))
              (idOf "9") eq_refl eq_refl eq_refl) as (b & H1 & H2 & _).
  exists b. split; [exact H2|].
  vm_compute in H1. inversion H1. reflexivity.
Defined.

Lemma delete_book_deleted (year : Js.Number) (db : Db) (id : string) (oid : ObjectId) :
  connected db = true -> castObjectId id = Some oid ->
  Server.success (snd (Server.delete_book year id db)) = true ->
  exists b,
    lookup oid db = Some b
    /\ Server.delete_book year id db
       = (setBooks (removeFirst (fun x => N.eqb (_id x) oid) (books db)) db,
          deletedResponse).
Proof.
  intros Hc Hid. unfold Server.delete_book, Server.route, bind.
  rewrite (findById_online _ _ _ _ Hid Hc).
  destruct (lookup oid db) as [b|] eqn:Hl; simpl; [|discriminate].
  destruct (Js.ltb Js.zero (availableCopies b)); simpl; [discriminate|].
  rewrite (findByIdAndDelete_online _ _ _ _ Hid Hc). simpl.
  intros _. exists b. split; reflexivity.
Qed.

(** A book that was deleted is gone.  After a delete that succeeds on a
    collection written through the schema, GetById, AdjustCopies and a
    second delete with the same identifier all answer 404 and change
    nothing. *)
Theorem deleted_book_is_gone
    (year : Js.Number) (db : Db) (id : string) (oid : ObjectId) :
  connected db = true ->
  wellFormed (Server.bookSchema year) db = true ->
  castObjectId id = Some oid ->
  Server.success (snd (Server.delete_book year id db)) = true ->
  let db' := fst (Server.delete_book year id db) in
  let notFound := Server.fail 404 (Server.Text [Lit "Book not found"]) in
  Server.get_book year id db' = (db', notFound)
  /\ Server.delete_book year id db' = (db', notFound)
  /\ (forall change, Server.patch_copies year id change db' = (db', notFound)).
Proof.
  intros Hc Hwf Hid Hs.
  destruct (delete_book_deleted year db id oid Hc Hid Hs) as (b & Hl & E).
  cbv zeta. rewrite E. simpl fst.
  set (db' := setBooks (removeFirst (fun x => N.eqb (_id x) oid) (books db)) db).
  assert (connected db' = true) as Hc' by exact Hc.
  assert (lookup oid db' = None) as Hgone.
  { apply wellFormed_spec in Hwf. destruct Hwf as (_ & Hd & _).
    destruct (lookup_id _ _ _ Hl) as [_ Eb]. clear - Hd Hl Eb. subst oid.
    unfold lookup. simpl. apply find_removeFirst; [exact Hd | exact Hl]. }
  split; [|split].
  - rewrite (get_book_online year db' id oid Hc' Hid), Hgone. reflexivity.
  - unfold Server.delete_book, Server.route, bind.
    rewrite (findById_online _ _ _ _ Hid Hc'), Hgone. reflexivity.
  - intro change. unfold Server.patch_copies, Server.route, bind.
    rewrite (findById_online _ _ _ _ Hid Hc'), Hgone. reflexivity.
Qed.

Lemma deleted_book_is_gone_witness :
  Server.get_book y2026 (idOf "1") (fst (Server.delete_book y2026 (idOf "1") soldOut))
  = (fst (Server.delete_book y2026 (idOf "1") soldOut),
     Server.fail 404 (Server.Text [Lit "Book not found"])).
Proof.
  destruct (deleted_book_is_gone y2026 soldOut (idOf "1") 1%N
              eq_refl eq_refl eq_refl eq_refl) as [H _].
  exact H.
Defined.

(** Taking every copy makes a book deletable.  On a collection written
    through the schema, for a record with a finite number of copies,
    adjusting it by minus that number leaves zero, and the delete that
    follows removes the record and no other.  (A record can hold
    [Infinity] copies, and [Infinity - Infinity] is no number.) *)
Theorem sold_out_book_can_be_deleted (year : Js.Number) (db : Db) (id : string)
    (oid : ObjectId) (b : Book) :
  connected db = true ->
  wellFormed (Server.bookSchema year) db = true ->
  castObjectId id = Some oid ->
  lookup oid db = Some b ->
  Js.isFinite (availableCopies b) = true ->
  let db1 := fst (Server.patch_copies year id (Js.Val (Js.opp (availableCopies b))) db) in
  lookup oid db1 = Some (withCopies b Js.zero)
  /\ exists db2,
       Server.delete_book year id db1 = (db2, deletedResponse)
       /\ lookup oid db2 = None
       /\ (forall o, o <> oid -> lookup o db2 = lookup o db).
Proof.
  intros Hc Hwf Hid Hl Hfin.
  apply wellFormed_spec in Hwf. destruct Hwf as (Hvalid & Hd & _).
  destruct (lookup_id _ _ _ Hl) as [Hin Eb].
  pose proof (Hvalid b Hin) as Hb.
  pose proof (add_opp _ Hfin) as Hz.
  cbv zeta.
  rewrite (patch_copies_success year db id oid b
             (Js.Val (Js.opp (availableCopies b))) Hc Hid Hl Hb);
    simpl Js.toNumber; rewrite Hz; [| reflexivity | reflexivity].
  simpl fst.
  set (b1 := withCopies b Js.zero).
  set (db1 := setBooks (replaceFirst (fun x => N.eqb (_id x) oid) b1 (books db)) db).
  assert (lookup oid db1 = Some b1) as Hl1
    by (unfold lookup; simpl; apply (find_replaceFirst oid b); [exact Eb | exact Hl]).
  assert (connected db1 = true) as Hc1 by exact Hc.
  split; [exact Hl1|].
  unfold Server.delete_book, Server.route, bind.
  rewrite (findById_online _ _ _ _ Hid Hc1), Hl1. simpl.
  change (Js.ltb Js.zero Js.zero) with false. cbv iota.
  rewrite (findByIdAndDelete_online _ _ _ _ Hid Hc1). simpl.
  eexists. split; [reflexivity|]. split.
  - assert (distinct (map _id (books db1)) = true) as Hd1.
    { apply distinct_NoDup. simpl. rewrite (map_id_replaceFirst oid b1 (books db) Eb).
      apply distinct_NoDup. exact Hd. }
    pose proof (find_removeFirst (fun x => N.eqb (_id x) oid) b1 (books db1) Hd1 Hl1)
      as Hgone.
    simpl in Hgone. rewrite Eb in Hgone. exact Hgone.
  - intros o Ho. unfold lookup. simpl.
    rewrite (find_removeFirst_other _ b1); [| exact Hl1 | simpl; congruence].
    apply (find_replaceFirst_other oid o); [exact Eb | exact Ho].
Qed.

Lemma sold_out_book_can_be_deleted_witness :
  exists db2,
    Server.delete_book y2026 (idOf "7")
      (fst (Server.patch_copies y2026 (idOf "7") (Js.Val (Js.opp (Js.ofZ 2))) seeded))
    = (db2, deletedResponse)
    /\ lookup 7%N db2 = None
    /\ List.length (books db2) = 7%nat.
Proof.
  destruct (sold_out_book_can_be_deleted y2026 seeded (idOf "7") 7%N
              (record 7%N "A Brief History of Time" "Stephen Hawking" "Science" 1988 2)
              eq_refl eq_refl eq_refl eq_refl eq_refl) as (_ & db2 & H1 & H2 & _).
  exists db2. split; [exact H1|]. split; [exact H2|].
  vm_compute in H1. inversion H1. reflexivity.
Defined.

(** A record with [Infinity] copies, which Create accepts, cannot be
    emptied: taking [Infinity] copies is refused. *)
Example infinitely_many_copies :
  let infinity := Js.ofZ (10 ^ 400) in
  let db0 := fst (Server.post_books y2026 (dune (Js.ofZ 1965) infinity) emptyDb) in
  map availableCopies (books db0) = [S754_infinity false]
  /\ Server.patch_copies y2026 (idOf "1") (Js.Val (Js.opp infinity)) db0
     = (db0, Server.fail 400 (Server.MessageOf
          (ValidationError [{| path := "availableCopies"; kind := CastFailed |}]))).
Proof.
  vm_compute. split; reflexivity.
Qed.

(* ================================================================== *)
(** ** UpdateFields, again and with nothing *)

Lemma merged_again (body : Body) (b : Book) :
  merged body (merged body b) = merged body b.
Proof.
  unfold merged. simpl.
  destruct (body_title body), (body_author body), (body_category body),
    (body_publishedYear body), (body_availableCopies body); reflexivity.
Qed.

Lemma replaceFirst_again (p : Book -> bool) (b' : Book) (l : list Book) :
  p b' = true -> replaceFirst p b' (replaceFirst p b' l) = replaceFirst p b' l.
Proof.
  intro Hb. induction l as [|x r IH]; simpl; [reflexivity|].
  destruct (p x) eqn:Px; simpl.
  - rewrite Hb. reflexivity.
  - rewrite Px, IH. reflexivity.
Qed.

Lemma replaceFirst_itself (p : Book -> bool) (b : Book) (l : list Book) :
  List.find p l = Some b -> replaceFirst p b l = l.
Proof.
  induction l as [|x r IH]; simpl; [discriminate|].
  destruct (p x); intro H.
  - inversion H. reflexivity.
  - rewrite (IH H). reflexivity.
Qed.

Lemma put_book_refused (year : Js.Number) (db : Db) (id : string) (body : Body) :
  castObjectId id = None
  \/ (exists e, castUpdate body = inl e)
  \/ (exists errors, validateUpdate (Server.bookSchema year) body = inl errors)
  \/ connected db = false ->
  fst (Server.put_book year id body db) = db.
Proof.
  unfold Server.put_book, Server.route, findByIdAndUpdate, bind, lift.
  intros [H|[[e H]|[[errors H]|H]]].
  - rewrite (castFilter_malformed _ _ H). reflexivity.
  - destruct (castFilter (Server.bookSchema year) (WithId id)); [reflexivity|].
    rewrite H. reflexivity.
  - destruct (castFilter (Server.bookSchema year) (WithId id)); [reflexivity|].
    destruct (castUpdate body); [reflexivity|].
    rewrite H. reflexivity.
  - destruct (castFilter (Server.bookSchema year) (WithId id)); [reflexivity|].
    destruct (castUpdate body); [reflexivity|].
    destruct (validateUpdate (Server.bookSchema year) body); [reflexivity|].
    unfold ret. rewrite (command_offline _ _ H). reflexivity.
Qed.

(** UpdateFields is idempotent on the schema fields: sending the same
    update a second time gives the same answer and leaves the records as
    the first one left them, for every identifier, state of the store and
    body that gives schema fields only. *)
Theorem update_twice_is_update_once
    (year : Js.Number) (db : Db) (id : string) (body : Body) :
  Server.put_book year id body (fst (Server.put_book year id body db))
  = Server.put_book year id body db.
Proof.
  destruct (castObjectId id) as [oid|] eqn:Hid;
    [|rewrite put_book_refused; [reflexivity | left; exact Hid]].
  destruct (castUpdate body) as [e|[]] eqn:Hcast;
    [rewrite put_book_refused; [reflexivity | right; left; exists e; exact Hcast]|].
  destruct (validateUpdate (Server.bookSchema year) body) as [errors|u] eqn:Hu;
    [rewrite put_book_refused;
     [reflexivity | right; right; left; exists errors; exact Hu]|].
  destruct (connected db) eqn:Hc;
    [|rewrite put_book_refused; [reflexivity | right; right; right; exact Hc]].
  pose proof (proj1 (proj1 (validateUpdate_ok year body u) Hu)) as Hok.
  rewrite (put_book_ok year db id oid body Hid Hok Hc).
  destruct (lookup oid db) as [b|] eqn:Hl; simpl fst.
  - set (b' := merged body b).
    set (db1 := setBooks (replaceFirst (fun x => N.eqb (_id x) oid) b' (books db)) db).
    destruct (lookup_id _ _ _ Hl) as [_ Eb].
    assert (lookup oid db1 = Some b') as Hl1
      by (unfold lookup; simpl; apply (find_replaceFirst oid b); [exact Eb | exact Hl]).
    assert (merged body b' = b') as E by apply merged_again.
    rewrite (put_book_ok year db1 id oid body Hid Hok Hc), Hl1.
    rewrite !E. unfold db1, setBooks. simpl.
    rewrite replaceFirst_again; [reflexivity|].
    simpl. rewrite Eb. apply N.eqb_refl.
  - rewrite (put_book_ok year db id oid body Hid Hok Hc), Hl. reflexivity.
Qed.

Lemma emptyBody_ok (year : Js.Number) : UpdateOk year emptyBody.
Proof.
  unfold UpdateOk, emptyBody. simpl. repeat split; left; reflexivity.
Qed.

(** An update without any field finds the record and returns it as it
    is; no schema field of any record changes.  (The store writes
    [updatedAt], which is outside the model.) *)
Theorem empty_update_changes_nothing (year : Js.Number) (db : Db) (id : string)
    (oid : ObjectId) (b : Book) :
  connected db = true ->
  castObjectId id = Some oid ->
  lookup oid db = Some b ->
  Server.put_book year id emptyBody db = (db, Server.succeed 200 (Server.OneBook b)).
Proof.
  intros Hc Hid Hl.
  rewrite (put_book_ok year db id oid emptyBody Hid (emptyBody_ok year) Hc), Hl.
  assert (merged emptyBody b = b) as E by (destruct b; reflexivity).
  rewrite E. rewrite (replaceFirst_itself _ b (books db) Hl), setBooks_same.
  reflexivity.
Qed.

Lemma empty_update_changes_nothing_witness :
  exists b,
    Server.put_book y2026 (idOf "3") emptyBody seeded
    = (seeded, Server.succeed 200 (Server.OneBook b))
    /\ title b = "Sapiens".
Proof.
  eexists. split.
  - apply (empty_update_changes_nothing y2026 seeded (idOf "3") 3%N); reflexivity.
  - reflexivity.
Defined.

(* ================================================================== *)
(** ** The script: changing a category, failing calls *)

Lemma changeCategory_online (year : Js.Number) (db : Db) (t c : string) (b : Book) :
  connected db = true ->
  lookupTitle t db = Some b ->
  valid (Library.bookSchema year) b = true ->
  In (Js.trim c) Sample.categories ->
  Library.changeCategory year t c db
  = (setBooks (replaceFirst (fun x => N.eqb (_id x) (_id b))
                 (withCategory b (Js.trim c)) (books db)) db,
     inr (withCategory b (Js.trim c))).
Proof.
  intros Hc Hl Hb Hcat.
  assert (validateDocument (Library.bookSchema year)
            (setCategory (Library.bookSchema year) b c)
          = inr (withCategory b (Js.trim c))) as Hv.
  { apply valid_spec, validateDocument_inr in Hb.
    destruct Hb as (_ & H1 & H2 & _ & H4 & H5).
    apply validateDocument_inr. simpl in *. repeat split; try assumption.
    apply validateString_inr. simpl. rewrite inEnum_In.
    pose proof (category_not_empty _ Hcat). auto. }
  unfold Library.changeCategory. rewrite rethrow_same. unfold bind.
  rewrite (findOne_title_online (Library.bookSchema year) _ _ eq_refl Hc), Hl.
  rewrite (save_valid _ _ _ _ _ Hv Hc). reflexivity.
Qed.

(** [changeCategory] that succeeds.  On a collection written through the
    schema of the script, for a title whose trimmed form is the title of
    a record, and a category whose trimmed form is in the enumeration,
    the first such record is stored with the trimmed category and
    returned; nothing else about it and no other record changes. *)
Theorem change_category_stores_trimmed
    (year : Js.Number) (db : Db) (t c : string) (b : Book) :
  connected db = true ->
  wellFormed (Library.bookSchema year) db = true ->
  lookupTitle t db = Some b ->
  In (Js.trim c) Sample.categories ->
  exists db',
    Library.changeCategory year t c db = (db', inr (withCategory b (Js.trim c)))
    /\ lookup (_id b) db' = Some (withCategory b (Js.trim c))
    /\ (forall o, o <> _id b -> lookup o db' = lookup o db).
Proof.
  intros Hc Hwf Hl Hcat.
  apply wellFormed_spec in Hwf. destruct Hwf as (Hvalid & _ & _).
  assert (In b (books db)) as Hin by (apply find_some in Hl; tauto).
  rewrite (changeCategory_online year db t c b Hc Hl (Hvalid b Hin) Hcat).
  eexists. split; [reflexivity|].
  destruct (lookup_own db b Hin) as [x Hx].
  split.
  - unfold lookup. simpl. apply (find_replaceFirst (_id b) x); [reflexivity | exact Hx].
  - intros o Ho. unfold lookup. simpl.
    apply (find_replaceFirst_other (_id b) o); [reflexivity | exact Ho].
Qed.

(** The change of the demonstration, with white space around both
    arguments: "A Brief History of Time" moves from Science to
    Non-Fiction. *)
Lemma change_category_stores_trimmed_witness :
  exists db' b',
    Library.changeCategory y2026 (nbsp ++ "A Brief History of Time")
      (nbsp ++ "Non-Fiction ") seeded
    = (db', inr b')
    /\ category b' = "Non-Fiction"
    /\ lookup 7%N db' = Some b'.
Proof.
  destruct (change_category_stores_trimmed y2026 seeded
              (nbsp ++ "A Brief History of Time") (nbsp ++ "Non-Fiction ")
              (record 7%N "A Brief History of Time" "Stephen Hawking" "Science" 1988 2)
              eq_refl eq_refl eq_refl) as (db' & H1 & H2 & _).
  { apply inEnum_In. reflexivity. }
  eexists. eexists. split; [exact H1|]. split; [reflexivity | exact H2].
Defined.

(** A call of the script that throws has changed nothing: this holds for
    [updateCopies], [changeCategory] and [deleteBookIfNoCopies], in every
    state and for every argument. *)
Theorem failed_call_changes_nothing (year : Js.Number) (db : Db) :
  (forall t change db' e,
     Library.updateCopies year t change db = (db', inl e) -> db' = db)
  /\ (forall t c db' e,
        Library.changeCategory year t c db = (db', inl e) -> db' = db)
  /\ (forall t db' e,
        Library.deleteBookIfNoCopies year t db = (db', inl e) -> db' = db).
Proof.
  destruct db as [[|] l n];
  repeat split; intros until e;
    unfold Library.updateCopies, Library.changeCategory, Library.deleteBookIfNoCopies;
    rewrite rethrow_same;
    unfold findOne, deleteOne, save, command, bind, lift, ret, throw;
    crunch; intro H; inversion H; reflexivity.
Qed.

Lemma failed_call_changes_nothing_witness :
  fst (Library.updateCopies y2026 "Atomic Habits" (Js.ofZ (-100)) seeded) = seeded
  /\ fst (Library.changeCategory y2026 "Sapiens" "InvalidCategory" seeded) = seeded
  /\ fst (Library.deleteBookIfNoCopies y2026 "Atomic Habits" seeded) = seeded.
Proof.
  destruct (failed_call_changes_nothing y2026 seeded) as (H1 & H2 & H3).
  split; [|split].
  - destruct (Library.updateCopies y2026 "Atomic Habits" (Js.ofZ (-100)) seeded)
      as [db' [e|b]] eqn:E; [exact (H1 _ _ _ _ E) | vm_compute in E; discriminate].
  - destruct (Library.changeCategory y2026 "Sapiens" "InvalidCategory" seeded)
      as [db' [e|b]] eqn:E; [exact (H2 _ _ _ _ E) | vm_compute in E; discriminate].
  - destruct (Library.deleteBookIfNoCopies y2026 "Atomic Habits" seeded)
      as [db' [e|b]] eqn:E; [exact (H3 _ _ _ E) | vm_compute in E; discriminate].
Defined.

(* ================================================================== *)
(** ** Reachable collections *)

(** Every collection the routes can reach from an empty one, through
    requests whose bodies give schema fields only, holds only records
    that satisfy the constraints the schema of the server checks, under
    identifiers that are all different and were generated earlier; every
    collection the script can reach holds only records that satisfy the
    whole data model, under identifiers that are all different. *)
Theorem reachable_collections (year : Js.Number) (db : Db) :
  (ServiceReachable year db ->
   (forall b, In b (books db) -> Constraints year b)
   /\ NoDup (ids db)
   /\ (forall b, In b (books db) -> (_id b < nextId db)%N))
  /\ (ScriptReachable year db ->
      (forall b, In b (books db) -> DataModel year b)
      /\ NoDup (ids db)).
Proof.
  split; intro Hr.
  - apply service_reachable_wellFormed, consistent_spec in Hr.
    destruct Hr as (Hv & Hd & Hn). split; [|split; assumption].
    intros b Hb. apply valid_server. auto.
  - apply script_reachable_wellFormed, consistent_spec in Hr.
    destruct Hr as (Hv & Hd & _). split; [|assumption].
    intros b Hb. apply valid_library. auto.
Qed.

Lemma reachable_collections_witness :
  NoDup (ids seeded)
  /\ (forall b, In b (books seeded) -> DataModel y2026 b).
Proof.
  destruct (reachable_collections y2026 seeded) as [Hs Hl].
  split.
  - apply Hs. apply (service_request y2026 emptyDb Server.POST_seed), service_start.
  - apply Hl. apply (script_call y2026 emptyDb InsertBooks), script_start.
Defined.

(** The year 999.5 is refused by the schema of the script, and 3000 by
    both the schema of the script and the route. *)
Lemma year_refused_witness :
  (exists errors,
     validateDocument (Library.bookSchema y2026)
       (newDocument (Library.bookSchema y2026) 1%N (dune (Js.dyadic 1999 (-1)) (Js.ofZ 3)))
     = inl errors /\ hasErrorAt "publishedYear" errors)
  /\ (exists errors,
        snd (Server.post_books y2026 (dune (Js.ofZ 3000) (Js.ofZ 3)) emptyDb)
        = Server.fail 400 (Server.MessageOf (ValidationError errors))
        /\ hasErrorAt "publishedYear" errors).
Proof.
  split.
  - destruct (year_refused y2026 emptyDb (dune (Js.dyadic 1999 (-1)) (Js.ofZ 3))
                (Js.dyadic 1999 (-1)) eq_refl) as [H _].
    apply H. left. reflexivity.
  - destruct (year_refused y2026 emptyDb (dune (Js.ofZ 3000) (Js.ofZ 3))
                (Js.ofZ 3000) eq_refl) as [_ H].
    apply H. right. reflexivity.
Defined.

(* ================================================================== *)
(** ** The demonstration *)

Lemma same_offset (n i j : N) : N.eqb (n + i) (n + j) = N.eqb i j.
Proof.
  destruct (N.eqb i j) eqn:E.
  - apply N.eqb_eq in E. subst. apply N.eqb_refl.
  - apply N.eqb_neq in E. apply N.eqb_neq. lia.
Qed.

Lemma insertBooks_online (year : Js.Number) (db : Db) :
  connected db = true -> Js.leb (Js.ofZ 2020) year = true ->
  Library.insertBooks year db
  = ({| connected := true; books := recordsAt (nextId db) 0 Sample.books;
        nextId := (nextId db + 8)%N |}, inr (recordsAt (nextId db) 0 Sample.books)).
Proof.
  intros Hc Hy.
  assert (validateAll (Library.bookSchema year)
            (documentsFrom (Library.bookSchema year) (nextId db) Sample.books)
          = inr (recordsAt (nextId db) 0 Sample.books)) as Hv.
  { unfold Sample.books. cbn [documentsFrom validateAll].
    sample_ok year Hy. cbv beta iota.
    cbn [recordsAt]. unfold recordOf, record, Sample.book, held. simpl.
    repeat (f_equal; try lia). }
  unfold Library.insertBooks. rewrite rethrow_same. unfold bind.
  rewrite (deleteMany_everything_online _ _ Hc).
  rewrite (insertMany_online _ _ (setBooks [] db) _ Hc Hv). reflexivity.
Qed.

Lemma updateCopies_online (year : Js.Number) (db : Db) (t : string) (q : Js.Number)
    (b : Book) :
  connected db = true ->
  lookupTitle t db = Some b ->
  valid (Library.bookSchema year) b = true ->
  Js.ltb (Js.add (availableCopies b) q) Js.zero = false ->
  Js.isInteger (Js.add (availableCopies b) q) = true ->
  Library.updateCopies year t q db
  = (setBooks (replaceFirst (fun x => N.eqb (_id x) (_id b))
                 (withCopies b (Js.add (availableCopies b) q)) (books db)) db,
     inr (withCopies b (Js.add (availableCopies b) q))).
Proof.
  intros Hc Hl Hb Hf Hi.
  unfold Library.updateCopies. rewrite rethrow_same. unfold bind.
  rewrite (findOne_title_online (Library.bookSchema year) _ _ eq_refl Hc), Hl.
  cbv zeta. rewrite Hf.
  pose proof (integer_number _ Hi) as Hn.
  rewrite (save_valid _ _ _ _ _
             (validate_setAvailableCopies _ _ _ Hb Hn
                (copies_library year _ (not_negative _ Hf Hn) Hi)) Hc).
  reflexivity.
Qed.

Lemma updateCopies_refused (year : Js.Number) (db : Db) (t : string) (q : Js.Number) :
  connected db = true ->
  match lookupTitle t db with
  | None => True
  | Some b => Js.ltb (Js.add (availableCopies b) q) Js.zero = true
  end ->
  exists e, Library.updateCopies year t q db = (db, inl e).
Proof.
  intros Hc H.
  unfold Library.updateCopies. rewrite rethrow_same. unfold bind.
  rewrite (findOne_title_online (Library.bookSchema year) _ _ eq_refl Hc).
  destruct (lookupTitle t db) as [b|].
  - cbv zeta. rewrite H. eexists. reflexivity.
  - eexists. reflexivity.
Qed.

Lemma changeCategory_refused (year : Js.Number) (db : Db) (t c : string) :
  connected db = true ->
  ~ In (Js.trim c) Sample.categories ->
  exists e, Library.changeCategory year t c db = (db, inl e).
Proof.
  intros Hc Hcat.
  unfold Library.changeCategory. rewrite rethrow_same. unfold bind.
  rewrite (findOne_title_online (Library.bookSchema year) _ _ eq_refl Hc).
  destruct (lookupTitle t db) as [b|].
  - destruct (not_listed_rejected (path_category (Library.bookSchema year)) "category"
                Sample.categories (Js.trim c) eq_refl Hcat) as [e He].
    destruct (validateDocument_category_fails (Library.bookSchema year)
                (setCategory (Library.bookSchema year) b c) e He) as [errors [Hv _]].
    rewrite (save_invalid _ _ _ _ _ Hv). eexists. reflexivity.
  - eexists. reflexivity.
Qed.

Lemma deleteBookIfNoCopies_online (year : Js.Number) (db : Db) (t : string) (b : Book) :
  connected db = true ->
  lookupTitle t db = Some b ->
  Js.ltb Js.zero (availableCopies b) = false ->
  Library.deleteBookIfNoCopies year t db
  = (setBooks (removeFirst (fun x => String.eqb (title x) (Js.trim t)) (books db)) db,
     inr {| Library.deleted := true; Library.book := b |}).
Proof.
  intros Hc Hl Hz.
  unfold Library.deleteBookIfNoCopies. rewrite rethrow_same. unfold bind.
  rewrite (findOne_title_online (Library.bookSchema year) _ _ eq_refl Hc), Hl.
  rewrite Hz.
  unfold deleteOne, bind, lift. simpl. rewrite (command_online _ _ Hc). reflexivity.
Qed.

Lemma deleteBookIfNoCopies_refused (year : Js.Number) (db : Db) (t : string) :
  connected db = true ->
  match lookupTitle t db with
  | None => True
  | Some b => Js.ltb Js.zero (availableCopies b) = true
  end ->
  exists e, Library.deleteBookIfNoCopies year t db = (db, inl e).
Proof.
  intros Hc H.
  unfold Library.deleteBookIfNoCopies. rewrite rethrow_same. unfold bind.
  rewrite (findOne_title_online (Library.bookSchema year) _ _ eq_refl Hc).
  destruct (lookupTitle t db) as [b|].
  - rewrite H. eexists. reflexivity.
  - eexists. reflexivity.
Qed.

Lemma attempt_returns {A : Type} (m : M A) (db db' : Db) (r : Exception + A) :
  m db = (db', r) -> Library.attempt m db = (db', inr tt).
Proof.
  intro H. unfold Library.attempt, tryCatch, bind, ret. rewrite H.
  destruct r; reflexivity.
Qed.

Lemma getAllBooks_online (year : Js.Number) (db : Db) :
  connected db = true -> Library.getAllBooks year db = (db, inr (books db)).
Proof.
  intro Hc. unfold Library.getAllBooks. rewrite rethrow_same.
  rewrite (find_online (Library.bookSchema year) Everything (fun _ => true) db eq_refl Hc).
  rewrite filter_everything. reflexivity.
Qed.

Lemma getBooksByCategory_online (year : Js.Number) (c : string) (db : Db) :
  connected db = true ->
  Library.getBooksByCategory year c db
  = (db, inr (filter (fun b => String.eqb (category b) (Js.trim c)) (books db))).
Proof.
  intro Hc. unfold Library.getBooksByCategory. rewrite rethrow_same.
  apply (find_online (Library.bookSchema year) (WithCategory c)); [reflexivity | exact Hc].
Qed.

Lemma getBooksAfter2015_online (year : Js.Number) (db : Db) :
  connected db = true ->
  Library.getBooksAfter2015 year db
  = (db, inr (filter (fun b => Js.ltb (Js.ofZ 2015) (publishedYear b)) (books db))).
Proof.
  intro Hc. unfold Library.getBooksAfter2015. rewrite rethrow_same.
  apply (find_online (Library.bookSchema year) (YearGt (Js.ofZ 2015)));
    [reflexivity | exact Hc].
Qed.

Ltac valid_record Hy :=
  apply valid_library; unfold DataModel, Constraints; simpl;
  repeat split; try discriminate; try (simpl; tauto); try reflexivity;
  try (apply (leb_trans _ (Js.ofZ 2020)); [reflexivity | exact Hy]).

Ltac settle :=
  cbv beta iota; unfold setBooks; cbn [books connected nextId];
  cbn [replaceFirst removeFirst recordsAt recordOf held Sample.books Sample.book
       withCopies withCategory
       _id title author category publishedYear availableCopies
       body_title body_author body_category body_publishedYear
       body_availableCopies];
  rewrite ?same_offset;
  cbn [replaceFirst removeFirst N.eqb N.succ Pos.succ Pos.eqb
       withCopies withCategory
       _id title author category publishedYear availableCopies];
  cbv beta iota.

Ltac caught L :=
  unfold bind at 1;
  let e := fresh "e" in
  let He := fresh "He" in
  edestruct L as [e He];
  [ | | rewrite (attempt_returns _ _ _ _ He); clear e He; cbv beta iota ].

(** The demonstration from start to end.  Whatever state it starts in,
    [runDemo] returns normally and leaves the connection closed.  With the
    store in reach and the year of the schema 2020 or later it leaves,
    whatever the collection held before, seven of the sample books under
    the identifiers of the seeding: "The Great Gatsby" with 4 copies,
    "Atomic Habits" with 10, the others as seeded, and "A Brief History
    of Time" deleted. *)
Theorem demo_run (year : Js.Number) (db : Db) :
  (snd (Library.runDemo year db) = inr tt
   /\ connected (fst (Library.runDemo year db)) = false)
  /\ (connected db = true -> Js.leb (Js.ofZ 2020) year = true ->
      exists bs,
        Library.runDemo year db
        = ({| connected := false; books := bs; nextId := (nextId db + 8)%N |}, inr tt)
        /\ map title bs
           = ["The Great Gatsby"; "To Kill a Mockingbird"; "Sapiens"; "Educated";
              "The Lean Startup"; "Atomic Habits"; "The Midnight Library"]
        /\ map availableCopies bs = map Js.ofZ [4; 3; 7; 4; 6; 10; 10]
        /\ map _id bs = map (N.add (nextId db)) [0; 1; 2; 3; 4; 5; 7]%N).
Proof.
  split.
  - assert (exists db', Library.runDemo year db = (db', inr tt)
                         /\ connected db' = false) as [db' [E Hcl]].
    { unfold Library.runDemo. unfold bind at 1. unfold tryCatch at 1.
      match goal with
      | |- context [match ?m db with _ => _ end] => destruct (m db) as [db1 [e|[]]]
      end; eexists; split; reflexivity. }
    rewrite E. split; [reflexivity | exact Hcl].
  - intros Hc Hy. unfold Library.runDemo.
    unfold bind at 1. unfold tryCatch at 1.
    unfold bind at 1. rewrite (insertBooks_online year db Hc Hy). cbv beta iota.
    set (n := nextId db).
    unfold bind at 1. rewrite getAllBooks_online by reflexivity. cbv beta iota.
    unfold bind at 1. rewrite getBooksByCategory_online by reflexivity. cbv beta iota.
    unfold bind at 1. rewrite getBooksAfter2015_online by reflexivity. cbv beta iota.
    unfold bind at 1.
    erewrite (updateCopies_online year _ "Atomic Habits" (Js.ofZ 2));
      [ | reflexivity | reflexivity | valid_record Hy | reflexivity | reflexivity ].
    settle.
    unfold bind at 1.
    erewrite (updateCopies_online year _ "The Great Gatsby" (Js.ofZ (-1)));
      [ | reflexivity | reflexivity | valid_record Hy | reflexivity | reflexivity ].
    settle.
    unfold bind at 1.
    erewrite (changeCategory_online year _ "A Brief History of Time" "Non-Fiction");
      [ | reflexivity | reflexivity | valid_record Hy | apply inEnum_In; reflexivity ].
    settle.
    caught (updateCopies_refused year) ; [reflexivity | reflexivity |].
    caught (updateCopies_refused year) ; [reflexivity | exact I |].
    caught (changeCategory_refused year) ;
      [reflexivity | apply not_listed; reflexivity |].
    unfold bind at 1.
    erewrite (updateCopies_online year _ "A Brief History of Time" (Js.ofZ (-2)));
      [ | reflexivity | reflexivity | valid_record Hy | reflexivity | reflexivity ].
    settle.
    unfold bind at 1.
    erewrite (deleteBookIfNoCopies_online year _ "A Brief History of Time");
      [ | reflexivity | reflexivity | reflexivity ].
    cbv beta iota. unfold setBooks. simpl.
    eexists. split; [reflexivity|]. repeat split.
Qed.

(** The demonstration on a collection that held "Maus". *)
Lemma demo_run_witness :
  exists bs,
    Library.runDemo y2026 legacy
    = ({| connected := false; books := bs; nextId := 10%N |}, inr tt)
    /\ map title bs
       = ["The Great Gatsby"; "To Kill a Mockingbird"; "Sapiens"; "Educated";
          "The Lean Startup"; "Atomic Habits"; "The Midnight Library"]
    /\ map availableCopies bs = map Js.ofZ [4; 3; 7; 4; 6; 10; 10].
Proof.
  destruct (demo_run y2026 legacy) as [_ H].
  destruct (H eq_refl eq_refl) as (bs & H1 & H2 & H3 & _).
  exists bs. split; [exact H1|]. split; assumption.
Defined.
